(** * Feature-visualisation toolkit: the InceptionV1 graph and the image I/O helpers

    A shallow embedding of [feat_viz/models/inceptionv1.py] and of
    [torchlight/io.py].  Python code that can raise and that acts on a
    store (a trace of kernel calls, a heap of array buffers, a file system)
    is written in one state-and-exception monad; the kernels of the
    deep-learning framework, of NumPy and of the image codecs are fields of
    interface records, so that the general theorems hold for any
    implementation of them, and executable instances of the interfaces
    give the concrete runs. *)

From stdpp Require Import base strings pretty gmap list.
From Stdlib Require Import ZArith Lia Ascii Floats.SpecFloat.

Local Open Scope string_scope.
Local Open Scope list_scope.
Local Open Scope Z_scope.

(** ** Python values, exceptions and the monad of Python code *)

(** Numeric literals of the source: [PyFloat m e] is the decimal literal
    [m]·10^[e] (so [1e-1] is [PyFloat 1 (-1)] and [9.99999974738e-05] is
    [PyFloat 999999974738 (-16)]); [NegInf] is [float("-inf")]. *)
Inductive pynum : Type :=
| PyInt (z : Z)
| PyFloat (mantissa exponent : Z)
| NegInf.

Inductive exn : Type :=
| AssertionError
| ValueError (args : list string)
| TypeError (msg : string)
| IndexError (msg : string)
| AttributeError (name : string)
| RuntimeError (msg : string)
| UnicodeDecodeError.

Inductive result (X : Type) : Type :=
| Return (x : X)
| Raise (e : exn).
Arguments Return {X} x.
Arguments Raise {X} e.

(** A computation over a store [W]: it returns or raises, and in both
    cases leaves a store behind (what was written before an exception
    stays written). *)
Definition Py (W X : Type) : Type := W → result X * W.

#[global] Instance Py_ret {W} : MRet (Py W) := λ X x w, (Return x, w).
#[global] Instance Py_bind {W} : MBind (Py W) := λ X Y f m w,
  match m w with
  | (Return x, w') => f x w'
  | (Raise e, w') => (Raise e, w')
  end.

Definition raise {W X} (e : exn) : Py W X := λ w, (Raise e, w).

Definition assert {W} (b : bool) : Py W unit :=
  if b then mret tt else raise AssertionError.

Definition returns {X} (r : result X) : bool :=
  match r with Return _ => true | Raise _ => false end.

(** [triple P m Q R]: from a store in [P], [m] either returns [x] and
    leaves a store in [Q x], or raises and leaves a store in [R]. *)
Definition triple {S X : Type} (P : S → Prop) (m : Py S X)
    (Q : X → S → Prop) (R : S → Prop) : Prop :=
  ∀ s, P s →
    match m s with
    | (Return x, s') => Q x s'
    | (Raise _, s') => R s'
    end.

Module InceptionV1.

(** ** The framework interface *)

(** The kernels [forward] calls, over tensors [T] and a store [W].
    [Conv2d_forward] and [Linear_forward] are [nn.Conv2d.forward] and
    [nn.Linear.forward]: the string is the attribute name of the module,
    which is the key of its weight and bias in the state dict, so one
    framework value fixes one assignment of weights.  [forward_hook] is
    what [nn.Module.__call__] runs after a module's [forward], with the
    module's name, its inputs and its output. *)
Record Framework (T W : Type) : Type := {
  F_pad : T → list Z → option pynum → Py W T;
  F_relu : T → Py W T;
  Tensor_clamp : T → option pynum → option pynum → Py W T;
  F_max_pool2d : T → Z * Z → Z * Z → Z → bool → Py W T;
  F_local_response_norm : T → Z → pynum → pynum → pynum → Py W T;
  torch_cat : list T → Z → Py W T;
  F_avg_pool2d : T → Z * Z → Z * Z → list Z → bool → bool → Py W T;
  torch_reshape : T → list Z → Py W T;
  F_softmax : T → Z → Py W T;
  Conv2d_forward : string → Z → Z → Z * Z → Z * Z → Z → bool → T → Py W T;
  Linear_forward : string → Z → Z → bool → T → Py W T;
  forward_hook : string → list T → T → Py W unit
}.
Arguments F_pad {T W}.
Arguments F_relu {T W}.
Arguments Tensor_clamp {T W}.
Arguments F_max_pool2d {T W}.
Arguments F_local_response_norm {T W}.
Arguments torch_cat {T W}.
Arguments F_avg_pool2d {T W}.
Arguments torch_reshape {T W}.
Arguments F_softmax {T W}.
Arguments Conv2d_forward {T W}.
Arguments Linear_forward {T W}.
Arguments forward_hook {T W}.

(** The module classes the network instantiates. *)
Inductive Module : Type :=
| Conv2d (in_channels out_channels : Z) (kernel_size stride : Z * Z)
         (groups : Z) (bias : bool)
| Linear (in_features out_features : Z) (bias : bool)
| MaxPool2dLayer
| ReluLayer
| RedirectedReluLayer
| SoftMaxLayer
| CatLayer.

#[global] Instance Module_eq_dec : EqDecision Module.
Proof. solve_decision. Defined.

Section Layers.
Context {T W : Type} (fw : Framework T W).

Definition MaxPool2dLayer_forward (tensor : T) (kernel_size stride : Z * Z)
    (padding : Z) (ceil_mode : bool) : Py W T :=
  F_max_pool2d fw tensor kernel_size stride padding ceil_mode.

Definition ReluLayer_forward (tensor : T) : Py W T :=
  F_relu fw tensor.

(** [RedirectedReLU.forward(ctx, input_tensor)]: the context is the list
    of saved tensors. *)
Definition RedirectedReLU_forward (ctx : list T) (input_tensor : T)
    : Py W (list T * T) :=
  let ctx := [input_tensor] in
  out ← Tensor_clamp fw input_tensor (Some (PyInt 0)) None;
  mret (ctx, out).

Definition RedirectedReLU_apply (tensor : T) : Py W T :=
  r ← RedirectedReLU_forward [] tensor;
  mret (snd r).

Definition RedirectedReluLayer_forward (tensor : T) : Py W T :=
  RedirectedReLU_apply tensor.

Definition SoftMaxLayer_forward (tensor : T) (dim : Z) : Py W T :=
  F_softmax fw tensor dim.

Definition CatLayer_forward (tensor_list : list T) (dim : Z) : Py W T :=
  torch_cat fw tensor_list dim.

(** [self.name(tensor)]: attribute lookup, the module's [forward] with
    its default arguments, then the forward hook. *)
Definition call (self : gmap string Module) (name : string) (tensor : T)
    : Py W T :=
  match self !! name with
  | None => raise (AttributeError name)
  | Some m =>
      out ← match m with
            | Conv2d i o k s g b => Conv2d_forward fw name i o k s g b tensor
            | Linear i o b => Linear_forward fw name i o b tensor
            | MaxPool2dLayer =>
                MaxPool2dLayer_forward tensor (3, 3) (1, 1) 0 false
            | ReluLayer => ReluLayer_forward tensor
            | RedirectedReluLayer => RedirectedReluLayer_forward tensor
            | SoftMaxLayer => SoftMaxLayer_forward tensor 1
            | CatLayer => raise (TypeError "cat(): tensors must be a sequence")
            end;
      _ ← forward_hook fw name [tensor] out;
      mret out
  end.

(** [self.name(tensor, kernel_size=..., stride=..., padding=...,
    ceil_mode=...)]: only [MaxPool2dLayer.forward] takes these keywords. *)
Definition call_pool (self : gmap string Module) (name : string)
    (tensor : T) (kernel_size stride : Z * Z) (padding : Z)
    (ceil_mode : bool) : Py W T :=
  match self !! name with
  | None => raise (AttributeError name)
  | Some MaxPool2dLayer =>
      out ← MaxPool2dLayer_forward tensor kernel_size stride padding ceil_mode;
      _ ← forward_hook fw name [tensor] out;
      mret out
  | Some _ => raise (TypeError "forward() got an unexpected keyword argument")
  end.

(** [self.name((t1, ..., tn), dim)]: two positional arguments, the first
    a tuple of tensors. *)
Definition call_cat (self : gmap string Module) (name : string)
    (tensor_list : list T) (dim : Z) : Py W T :=
  match self !! name with
  | None => raise (AttributeError name)
  | Some CatLayer =>
      out ← CatLayer_forward tensor_list dim;
      _ ← forward_hook fw name tensor_list out;
      mret out
  | Some _ => raise (TypeError "forward() argument is not a tensor")
  end.
End Layers.

(** ** The backward pass of the redirected activation *)

(** What [backward] asks of the elements of a tensor: the literals of the
    source as elements, the comparison [<] and the product. *)
Class Scalar (E : Type) : Type := {
  of_pynum : pynum → E;
  scalar_lt : E → E → bool;
  scalar_le : E → E → bool;
  scalar_mul : E → E → E
}.

Section Backward.
Context {E : Type} `{Scalar E} {W : Type}.

(** A tensor is its elements in storage order; a boolean mask of the
    same shape is the list of its booleans in the same order. *)
Definition clone (t : list E) : list E := t.

Definition lt_scalar (t : list E) (s : pynum) : list bool :=
  (λ v, scalar_lt v (of_pynum s)) <$> t.

Definition mul_scalar (t : list E) (s : pynum) : list E :=
  (λ v, scalar_mul v (of_pynum s)) <$> t.

Fixpoint select (t : list E) (mask : list bool) : list E :=
  match t, mask with
  | v :: t, b :: mask => if b then v :: select t mask else select t mask
  | _, _ => []
  end.

Fixpoint scatter (t : list E) (mask : list bool) (values : list E)
    : list E :=
  match t, mask with
  | v :: t, true :: mask =>
      match values with
      | x :: values => x :: scatter t mask values
      | [] => v :: scatter t mask []
      end
  | v :: t, false :: mask => v :: scatter t mask values
  | _, _ => t
  end.

(** [t[mask]] *)
Definition getitem (t : list E) (mask : list bool) : Py W (list E) :=
  if Nat.eqb (length mask) (length t) then mret (select t mask)
  else raise (IndexError "The shape of the mask does not match the shape of the indexed tensor").

(** [t[mask] = values], as the tensor [t] is afterwards. *)
Definition setitem (t : list E) (mask : list bool) (values : list E)
    : Py W (list E) :=
  if negb (Nat.eqb (length mask) (length t)) then
    raise (IndexError "The shape of the mask does not match the shape of the indexed tensor")
  else if negb (Nat.eqb (length values) (length (select t mask))) then
    raise (RuntimeError "shape mismatch: value tensor cannot be broadcast to indexing result")
  else mret (scatter t mask values).

Definition RedirectedReLU_backward (ctx : list (list E))
    (grad_output : list E) : Py W (list E) :=
  match ctx with
  | [input_tensor] =>
      let grad_input := clone grad_output in
      selected ← getitem grad_input (lt_scalar input_tensor (PyInt 0));
      grad_input ← setitem grad_input (lt_scalar input_tensor (PyInt 0))
                           (mul_scalar selected (PyFloat 1 (-1)));
      mret grad_input
  | _ => raise (ValueError ["wrong number of values to unpack"])
  end.

(** The gradient of the standard ReLU vanishes at [x]: it is zero where
    [x <= 0] and is the incoming gradient elsewhere, also at a NaN, where
    the comparison is false. *)
Definition relu_gradient_vanishes (x : E) : bool :=
  scalar_le x (of_pynum (PyInt 0)).
End Backward.

(** Single-precision elements. *)
Definition f32_of_Z (z : Z) : spec_float := binary_normalize 24 128 z 0 false.

#[global] Instance binary32 : Scalar spec_float := {|
  of_pynum n :=
    match n with
    | PyInt z => f32_of_Z z
    | PyFloat m e =>
        if Z.leb 0 e then f32_of_Z (m * 10 ^ e)
        else SFdiv 24 128 (f32_of_Z m) (f32_of_Z (10 ^ (- e)))
    | NegInf => S754_infinity true
    end;
  scalar_lt := SFltb;
  scalar_le := SFleb;
  scalar_mul := SFmul 24 128
|}.

(** ** The network *)

(** [self.name = module], in the order of the assignments. *)
Definition setattrs (self : gmap string Module)
    (assignments : list (string * Module)) : gmap string Module :=
  foldl (λ self a, <[a.1 := a.2]> self) self assignments.

Definition add_layers (self : gmap string Module) (redirected_ReLU : bool)
    : gmap string Module :=
  let relu := if redirected_ReLU then RedirectedReluLayer else ReluLayer in
  setattrs self [
    ("conv2d0", relu);
    ("maxpool0", MaxPool2dLayer);
    ("conv2d1", relu);
    ("conv2d2", relu);
    ("maxpool1", MaxPool2dLayer);
    ("mixed3a_pool", MaxPool2dLayer);
    ("mixed3a_1x1", relu);
    ("mixed3a_3x3_bottleneck", relu);
    ("mixed3a_5x5_bottleneck", relu);
    ("mixed3a_pool_reduce", relu);
    ("mixed3a_3x3", relu);
    ("mixed3a_5x5", relu);
    ("mixed3a", CatLayer);
    ("mixed3b_pool", MaxPool2dLayer);
    ("mixed3b_1x1", relu);
    ("mixed3b_3x3_bottleneck", relu);
    ("mixed3b_5x5_bottleneck", relu);
    ("mixed3b_pool_reduce", relu);
    ("mixed3b_3x3", relu);
    ("mixed3b_5x5", relu);
    ("mixed3b", CatLayer);
    ("maxpool4", MaxPool2dLayer);
    ("mixed4a_pool", MaxPool2dLayer);
    ("mixed4a_1x1", relu);
    ("mixed4a_3x3_bottleneck", relu);
    ("mixed4a_5x5_bottleneck", relu);
    ("mixed4a_pool_reduce", relu);
    ("mixed4a_3x3", relu);
    ("mixed4a_5x5", relu);
    ("mixed4a", CatLayer);
    ("mixed4b_pool", MaxPool2dLayer);
    ("mixed4b_1x1", relu);
    ("mixed4b_3x3_bottleneck", relu);
    ("mixed4b_5x5_bottleneck", relu);
    ("mixed4b_pool_reduce", relu);
    ("mixed4b_3x3", relu);
    ("mixed4b_5x5", relu);
    ("mixed4b", CatLayer);
    ("mixed4c_pool", MaxPool2dLayer);
    ("mixed4c_1x1", relu);
    ("mixed4c_3x3_bottleneck", relu);
    ("mixed4c_5x5_bottleneck", relu);
    ("mixed4c_pool_reduce", relu);
    ("mixed4c_3x3", relu);
    ("mixed4c_5x5", relu);
    ("mixed4c", CatLayer);
    ("mixed4d_pool", MaxPool2dLayer);
    ("mixed4d_1x1", relu);
    ("mixed4d_3x3_bottleneck", relu);
    ("mixed4d_5x5_bottleneck", relu);
    ("mixed4d_pool_reduce", relu);
    ("mixed4d_3x3", relu);
    ("mixed4d_5x5", relu);
    ("mixed4d", CatLayer);
    ("mixed4e_pool", MaxPool2dLayer);
    ("mixed4e_1x1", relu);
    ("mixed4e_3x3_bottleneck", relu);
    ("mixed4e_5x5_bottleneck", relu);
    ("mixed4e_pool_reduce", relu);
    ("mixed4e_3x3", relu);
    ("mixed4e_5x5", relu);
    ("mixed4e", CatLayer);
    ("maxpool10", MaxPool2dLayer);
    ("mixed5a_pool", MaxPool2dLayer);
    ("mixed5a_1x1", relu);
    ("mixed5a_3x3_bottleneck", relu);
    ("mixed5a_5x5_bottleneck", relu);
    ("mixed5a_pool_reduce", relu);
    ("mixed5a_3x3", relu);
    ("mixed5a_5x5", relu);
    ("mixed5a", CatLayer);
    ("mixed5b_pool", MaxPool2dLayer);
    ("mixed5b_1x1", relu);
    ("mixed5b_3x3_bottleneck", relu);
    ("mixed5b_5x5_bottleneck", relu);
    ("mixed5b_pool_reduce", relu);
    ("mixed5b_3x3", relu);
    ("mixed5b_5x5", relu);
    ("mixed5b", CatLayer);
    ("softmax2", SoftMaxLayer)
  ].

(** [InceptionV1.__init__]: the state dict that [pretrained] loads assigns
    the weights, which live in the framework. *)
Definition init (redirected_ReLU : bool) : gmap string Module :=
  let self := setattrs ∅ [
    ("conv2d0_pre_relu_conv", Conv2d 3 64 (7, 7) (2, 2) 1 true);
    ("conv2d1_pre_relu_conv", Conv2d 64 64 (1, 1) (1, 1) 1 true);
    ("conv2d2_pre_relu_conv", Conv2d 64 192 (3, 3) (1, 1) 1 true);
    ("mixed3a_1x1_pre_relu_conv", Conv2d 192 64 (1, 1) (1, 1) 1 true);
    ("mixed3a_3x3_bottleneck_pre_relu_conv", Conv2d 192 96 (1, 1) (1, 1) 1 true);
    ("mixed3a_5x5_bottleneck_pre_relu_conv", Conv2d 192 16 (1, 1) (1, 1) 1 true);
    ("mixed3a_pool_reduce_pre_relu_conv", Conv2d 192 32 (1, 1) (1, 1) 1 true);
    ("mixed3a_3x3_pre_relu_conv", Conv2d 96 128 (3, 3) (1, 1) 1 true);
    ("mixed3a_5x5_pre_relu_conv", Conv2d 16 32 (5, 5) (1, 1) 1 true);
    ("mixed3b_1x1_pre_relu_conv", Conv2d 256 128 (1, 1) (1, 1) 1 true);
    ("mixed3b_3x3_bottleneck_pre_relu_conv", Conv2d 256 128 (1, 1) (1, 1) 1 true);
    ("mixed3b_5x5_bottleneck_pre_relu_conv", Conv2d 256 32 (1, 1) (1, 1) 1 true);
    ("mixed3b_pool_reduce_pre_relu_conv", Conv2d 256 64 (1, 1) (1, 1) 1 true);
    ("mixed3b_3x3_pre_relu_conv", Conv2d 128 192 (3, 3) (1, 1) 1 true);
    ("mixed3b_5x5_pre_relu_conv", Conv2d 32 96 (5, 5) (1, 1) 1 true);
    ("mixed4a_1x1_pre_relu_conv", Conv2d 480 192 (1, 1) (1, 1) 1 true);
    ("mixed4a_3x3_bottleneck_pre_relu_conv", Conv2d 480 96 (1, 1) (1, 1) 1 true);
    ("mixed4a_5x5_bottleneck_pre_relu_conv", Conv2d 480 16 (1, 1) (1, 1) 1 true);
    ("mixed4a_pool_reduce_pre_relu_conv", Conv2d 480 64 (1, 1) (1, 1) 1 true);
    ("mixed4a_3x3_pre_relu_conv", Conv2d 96 204 (3, 3) (1, 1) 1 true);
    ("mixed4a_5x5_pre_relu_conv", Conv2d 16 48 (5, 5) (1, 1) 1 true);
    ("mixed4b_1x1_pre_relu_conv", Conv2d 508 160 (1, 1) (1, 1) 1 true);
    ("mixed4b_3x3_bottleneck_pre_relu_conv", Conv2d 508 112 (1, 1) (1, 1) 1 true);
    ("mixed4b_5x5_bottleneck_pre_relu_conv", Conv2d 508 24 (1, 1) (1, 1) 1 true);
    ("mixed4b_pool_reduce_pre_relu_conv", Conv2d 508 64 (1, 1) (1, 1) 1 true);
    ("mixed4b_3x3_pre_relu_conv", Conv2d 112 224 (3, 3) (1, 1) 1 true);
    ("mixed4b_5x5_pre_relu_conv", Conv2d 24 64 (5, 5) (1, 1) 1 true);
    ("mixed4c_1x1_pre_relu_conv", Conv2d 512 128 (1, 1) (1, 1) 1 true);
    ("mixed4c_3x3_bottleneck_pre_relu_conv", Conv2d 512 128 (1, 1) (1, 1) 1 true);
    ("mixed4c_5x5_bottleneck_pre_relu_conv", Conv2d 512 24 (1, 1) (1, 1) 1 true);
    ("mixed4c_pool_reduce_pre_relu_conv", Conv2d 512 64 (1, 1) (1, 1) 1 true);
    ("mixed4c_3x3_pre_relu_conv", Conv2d 128 256 (3, 3) (1, 1) 1 true);
    ("mixed4c_5x5_pre_relu_conv", Conv2d 24 64 (5, 5) (1, 1) 1 true);
    ("mixed4d_1x1_pre_relu_conv", Conv2d 512 112 (1, 1) (1, 1) 1 true);
    ("mixed4d_3x3_bottleneck_pre_relu_conv", Conv2d 512 144 (1, 1) (1, 1) 1 true);
    ("mixed4d_5x5_bottleneck_pre_relu_conv", Conv2d 512 32 (1, 1) (1, 1) 1 true);
    ("mixed4d_pool_reduce_pre_relu_conv", Conv2d 512 64 (1, 1) (1, 1) 1 true);
    ("mixed4d_3x3_pre_relu_conv", Conv2d 144 288 (3, 3) (1, 1) 1 true);
    ("mixed4d_5x5_pre_relu_conv", Conv2d 32 64 (5, 5) (1, 1) 1 true);
    ("mixed4e_1x1_pre_relu_conv", Conv2d 528 256 (1, 1) (1, 1) 1 true);
    ("mixed4e_3x3_bottleneck_pre_relu_conv", Conv2d 528 160 (1, 1) (1, 1) 1 true);
    ("mixed4e_5x5_bottleneck_pre_relu_conv", Conv2d 528 32 (1, 1) (1, 1) 1 true);
    ("mixed4e_pool_reduce_pre_relu_conv", Conv2d 528 128 (1, 1) (1, 1) 1 true);
    ("mixed4e_3x3_pre_relu_conv", Conv2d 160 320 (3, 3) (1, 1) 1 true);
    ("mixed4e_5x5_pre_relu_conv", Conv2d 32 128 (5, 5) (1, 1) 1 true);
    ("mixed5a_1x1_pre_relu_conv", Conv2d 832 256 (1, 1) (1, 1) 1 true);
    ("mixed5a_3x3_bottleneck_pre_relu_conv", Conv2d 832 160 (1, 1) (1, 1) 1 true);
    ("mixed5a_5x5_bottleneck_pre_relu_conv", Conv2d 832 48 (1, 1) (1, 1) 1 true);
    ("mixed5a_pool_reduce_pre_relu_conv", Conv2d 832 128 (1, 1) (1, 1) 1 true);
    ("mixed5a_3x3_pre_relu_conv", Conv2d 160 320 (3, 3) (1, 1) 1 true);
    ("mixed5a_5x5_pre_relu_conv", Conv2d 48 128 (5, 5) (1, 1) 1 true);
    ("mixed5b_1x1_pre_relu_conv", Conv2d 832 384 (1, 1) (1, 1) 1 true);
    ("mixed5b_3x3_bottleneck_pre_relu_conv", Conv2d 832 192 (1, 1) (1, 1) 1 true);
    ("mixed5b_5x5_bottleneck_pre_relu_conv", Conv2d 832 48 (1, 1) (1, 1) 1 true);
    ("mixed5b_pool_reduce_pre_relu_conv", Conv2d 832 128 (1, 1) (1, 1) 1 true);
    ("mixed5b_3x3_pre_relu_conv", Conv2d 192 384 (3, 3) (1, 1) 1 true);
    ("mixed5b_5x5_pre_relu_conv", Conv2d 48 128 (5, 5) (1, 1) 1 true);
    ("softmax2_pre_activation_matmul", Linear 1024 1008 true)
  ] in
  add_layers self redirected_ReLU.

Section Forward.
Context {T W : Type} (fw : Framework T W).

Definition forward (self : gmap string Module) (x : T) : Py W T :=
  conv2d0_pre_relu_conv_pad ← F_pad fw x [2; 3; 2; 3] None;
  conv2d0_pre_relu_conv ← call fw self "conv2d0_pre_relu_conv" conv2d0_pre_relu_conv_pad;
  conv2d0 ← call fw self "conv2d0" conv2d0_pre_relu_conv;
  maxpool0_pad ← F_pad fw conv2d0 [0; 1; 0; 1] (Some NegInf);
  maxpool0 ← call_pool fw self "maxpool0" maxpool0_pad (3, 3) (2, 2) 0 false;
  localresponsenorm0 ← F_local_response_norm fw maxpool0 9 (PyFloat 999999974738 (-16)) (PyFloat 5 (-1)) (PyInt 1);
  conv2d1_pre_relu_conv ← call fw self "conv2d1_pre_relu_conv" localresponsenorm0;
  conv2d1 ← call fw self "conv2d1" conv2d1_pre_relu_conv;
  conv2d2_pre_relu_conv_pad ← F_pad fw conv2d1 [1; 1; 1; 1] None;
  conv2d2_pre_relu_conv ← call fw self "conv2d2_pre_relu_conv" conv2d2_pre_relu_conv_pad;
  conv2d2 ← call fw self "conv2d2" conv2d2_pre_relu_conv;
  localresponsenorm1 ← F_local_response_norm fw conv2d2 9 (PyFloat 999999974738 (-16)) (PyFloat 5 (-1)) (PyInt 1);
  maxpool1_pad ← F_pad fw localresponsenorm1 [0; 1; 0; 1] (Some NegInf);
  maxpool1 ← call_pool fw self "maxpool1" maxpool1_pad (3, 3) (2, 2) 0 false;
  mixed3a_1x1_pre_relu_conv ← call fw self "mixed3a_1x1_pre_relu_conv" maxpool1;
  mixed3a_3x3_bottleneck_pre_relu_conv ← call fw self "mixed3a_3x3_bottleneck_pre_relu_conv" maxpool1;
  mixed3a_5x5_bottleneck_pre_relu_conv ← call fw self "mixed3a_5x5_bottleneck_pre_relu_conv" maxpool1;
  mixed3a_pool_pad ← F_pad fw maxpool1 [1; 1; 1; 1] (Some NegInf);
  mixed3a_pool ← call_pool fw self "mixed3a_pool" mixed3a_pool_pad (3, 3) (1, 1) 0 false;
  mixed3a_1x1 ← call fw self "mixed3a_1x1" mixed3a_1x1_pre_relu_conv;
  mixed3a_3x3_bottleneck ← call fw self "mixed3a_3x3_bottleneck" mixed3a_3x3_bottleneck_pre_relu_conv;
  mixed3a_5x5_bottleneck ← call fw self "mixed3a_5x5_bottleneck" mixed3a_5x5_bottleneck_pre_relu_conv;
  mixed3a_pool_reduce_pre_relu_conv ← call fw self "mixed3a_pool_reduce_pre_relu_conv" mixed3a_pool;
  mixed3a_3x3_pre_relu_conv_pad ← F_pad fw mixed3a_3x3_bottleneck [1; 1; 1; 1] None;
  mixed3a_3x3_pre_relu_conv ← call fw self "mixed3a_3x3_pre_relu_conv" mixed3a_3x3_pre_relu_conv_pad;
  mixed3a_5x5_pre_relu_conv_pad ← F_pad fw mixed3a_5x5_bottleneck [2; 2; 2; 2] None;
  mixed3a_5x5_pre_relu_conv ← call fw self "mixed3a_5x5_pre_relu_conv" mixed3a_5x5_pre_relu_conv_pad;
  mixed3a_pool_reduce ← call fw self "mixed3a_pool_reduce" mixed3a_pool_reduce_pre_relu_conv;
  mixed3a_3x3 ← call fw self "mixed3a_3x3" mixed3a_3x3_pre_relu_conv;
  mixed3a_5x5 ← call fw self "mixed3a_5x5" mixed3a_5x5_pre_relu_conv;
  mixed3a ← call_cat fw self "mixed3a" [mixed3a_1x1; mixed3a_3x3; mixed3a_5x5; mixed3a_pool_reduce] 1;
  mixed3b_1x1_pre_relu_conv ← call fw self "mixed3b_1x1_pre_relu_conv" mixed3a;
  mixed3b_3x3_bottleneck_pre_relu_conv ← call fw self "mixed3b_3x3_bottleneck_pre_relu_conv" mixed3a;
  mixed3b_5x5_bottleneck_pre_relu_conv ← call fw self "mixed3b_5x5_bottleneck_pre_relu_conv" mixed3a;
  mixed3b_pool_pad ← F_pad fw mixed3a [1; 1; 1; 1] (Some NegInf);
  mixed3b_pool ← call_pool fw self "mixed3b_pool" mixed3b_pool_pad (3, 3) (1, 1) 0 false;
  mixed3b_1x1 ← call fw self "mixed3b_1x1" mixed3b_1x1_pre_relu_conv;
  mixed3b_3x3_bottleneck ← call fw self "mixed3b_3x3_bottleneck" mixed3b_3x3_bottleneck_pre_relu_conv;
  mixed3b_5x5_bottleneck ← call fw self "mixed3b_5x5_bottleneck" mixed3b_5x5_bottleneck_pre_relu_conv;
  mixed3b_pool_reduce_pre_relu_conv ← call fw self "mixed3b_pool_reduce_pre_relu_conv" mixed3b_pool;
  mixed3b_3x3_pre_relu_conv_pad ← F_pad fw mixed3b_3x3_bottleneck [1; 1; 1; 1] None;
  mixed3b_3x3_pre_relu_conv ← call fw self "mixed3b_3x3_pre_relu_conv" mixed3b_3x3_pre_relu_conv_pad;
  mixed3b_5x5_pre_relu_conv_pad ← F_pad fw mixed3b_5x5_bottleneck [2; 2; 2; 2] None;
  mixed3b_5x5_pre_relu_conv ← call fw self "mixed3b_5x5_pre_relu_conv" mixed3b_5x5_pre_relu_conv_pad;
  mixed3b_pool_reduce ← call fw self "mixed3b_pool_reduce" mixed3b_pool_reduce_pre_relu_conv;
  mixed3b_3x3 ← call fw self "mixed3b_3x3" mixed3b_3x3_pre_relu_conv;
  mixed3b_5x5 ← call fw self "mixed3b_5x5" mixed3b_5x5_pre_relu_conv;
  mixed3b ← call_cat fw self "mixed3b" [mixed3b_1x1; mixed3b_3x3; mixed3b_5x5; mixed3b_pool_reduce] 1;
  maxpool4_pad ← F_pad fw mixed3b [0; 1; 0; 1] (Some NegInf);
  maxpool4 ← call_pool fw self "maxpool4" maxpool4_pad (3, 3) (2, 2) 0 false;
  mixed4a_1x1_pre_relu_conv ← call fw self "mixed4a_1x1_pre_relu_conv" maxpool4;
  mixed4a_3x3_bottleneck_pre_relu_conv ← call fw self "mixed4a_3x3_bottleneck_pre_relu_conv" maxpool4;
  mixed4a_5x5_bottleneck_pre_relu_conv ← call fw self "mixed4a_5x5_bottleneck_pre_relu_conv" maxpool4;
  mixed4a_pool_pad ← F_pad fw maxpool4 [1; 1; 1; 1] (Some NegInf);
  mixed4a_pool ← call_pool fw self "mixed4a_pool" mixed4a_pool_pad (3, 3) (1, 1) 0 false;
  mixed4a_1x1 ← call fw self "mixed4a_1x1" mixed4a_1x1_pre_relu_conv;
  mixed4a_3x3_bottleneck ← call fw self "mixed4a_3x3_bottleneck" mixed4a_3x3_bottleneck_pre_relu_conv;
  mixed4a_5x5_bottleneck ← call fw self "mixed4a_5x5_bottleneck" mixed4a_5x5_bottleneck_pre_relu_conv;
  mixed4a_pool_reduce_pre_relu_conv ← call fw self "mixed4a_pool_reduce_pre_relu_conv" mixed4a_pool;
  mixed4a_3x3_pre_relu_conv_pad ← F_pad fw mixed4a_3x3_bottleneck [1; 1; 1; 1] None;
  mixed4a_3x3_pre_relu_conv ← call fw self "mixed4a_3x3_pre_relu_conv" mixed4a_3x3_pre_relu_conv_pad;
  mixed4a_5x5_pre_relu_conv_pad ← F_pad fw mixed4a_5x5_bottleneck [2; 2; 2; 2] None;
  mixed4a_5x5_pre_relu_conv ← call fw self "mixed4a_5x5_pre_relu_conv" mixed4a_5x5_pre_relu_conv_pad;
  mixed4a_pool_reduce ← call fw self "mixed4a_pool_reduce" mixed4a_pool_reduce_pre_relu_conv;
  mixed4a_3x3 ← call fw self "mixed4a_3x3" mixed4a_3x3_pre_relu_conv;
  mixed4a_5x5 ← call fw self "mixed4a_5x5" mixed4a_5x5_pre_relu_conv;
  mixed4a ← call_cat fw self "mixed4a" [mixed4a_1x1; mixed4a_3x3; mixed4a_5x5; mixed4a_pool_reduce] 1;
  mixed4b_1x1_pre_relu_conv ← call fw self "mixed4b_1x1_pre_relu_conv" mixed4a;
  mixed4b_3x3_bottleneck_pre_relu_conv ← call fw self "mixed4b_3x3_bottleneck_pre_relu_conv" mixed4a;
  mixed4b_5x5_bottleneck_pre_relu_conv ← call fw self "mixed4b_5x5_bottleneck_pre_relu_conv" mixed4a;
  mixed4b_pool_pad ← F_pad fw mixed4a [1; 1; 1; 1] (Some NegInf);
  mixed4b_pool ← call_pool fw self "mixed4b_pool" mixed4b_pool_pad (3, 3) (1, 1) 0 false;
  mixed4b_1x1 ← call fw self "mixed4b_1x1" mixed4b_1x1_pre_relu_conv;
  mixed4b_3x3_bottleneck ← call fw self "mixed4b_3x3_bottleneck" mixed4b_3x3_bottleneck_pre_relu_conv;
  mixed4b_5x5_bottleneck ← call fw self "mixed4b_5x5_bottleneck" mixed4b_5x5_bottleneck_pre_relu_conv;
  mixed4b_pool_reduce_pre_relu_conv ← call fw self "mixed4b_pool_reduce_pre_relu_conv" mixed4b_pool;
  mixed4b_3x3_pre_relu_conv_pad ← F_pad fw mixed4b_3x3_bottleneck [1; 1; 1; 1] None;
  mixed4b_3x3_pre_relu_conv ← call fw self "mixed4b_3x3_pre_relu_conv" mixed4b_3x3_pre_relu_conv_pad;
  mixed4b_5x5_pre_relu_conv_pad ← F_pad fw mixed4b_5x5_bottleneck [2; 2; 2; 2] None;
  mixed4b_5x5_pre_relu_conv ← call fw self "mixed4b_5x5_pre_relu_conv" mixed4b_5x5_pre_relu_conv_pad;
  mixed4b_pool_reduce ← call fw self "mixed4b_pool_reduce" mixed4b_pool_reduce_pre_relu_conv;
  mixed4b_3x3 ← call fw self "mixed4b_3x3" mixed4b_3x3_pre_relu_conv;
  mixed4b_5x5 ← call fw self "mixed4b_5x5" mixed4b_5x5_pre_relu_conv;
  mixed4b ← call_cat fw self "mixed4b" [mixed4b_1x1; mixed4b_3x3; mixed4b_5x5; mixed4b_pool_reduce] 1;
  mixed4c_1x1_pre_relu_conv ← call fw self "mixed4c_1x1_pre_relu_conv" mixed4b;
  mixed4c_3x3_bottleneck_pre_relu_conv ← call fw self "mixed4c_3x3_bottleneck_pre_relu_conv" mixed4b;
  mixed4c_5x5_bottleneck_pre_relu_conv ← call fw self "mixed4c_5x5_bottleneck_pre_relu_conv" mixed4b;
  mixed4c_pool_pad ← F_pad fw mixed4b [1; 1; 1; 1] (Some NegInf);
  mixed4c_pool ← call_pool fw self "mixed4c_pool" mixed4c_pool_pad (3, 3) (1, 1) 0 false;
  mixed4c_1x1 ← call fw self "mixed4c_1x1" mixed4c_1x1_pre_relu_conv;
  mixed4c_3x3_bottleneck ← call fw self "mixed4c_3x3_bottleneck" mixed4c_3x3_bottleneck_pre_relu_conv;
  mixed4c_5x5_bottleneck ← call fw self "mixed4c_5x5_bottleneck" mixed4c_5x5_bottleneck_pre_relu_conv;
  mixed4c_pool_reduce_pre_relu_conv ← call fw self "mixed4c_pool_reduce_pre_relu_conv" mixed4c_pool;
  mixed4c_3x3_pre_relu_conv_pad ← F_pad fw mixed4c_3x3_bottleneck [1; 1; 1; 1] None;
  mixed4c_3x3_pre_relu_conv ← call fw self "mixed4c_3x3_pre_relu_conv" mixed4c_3x3_pre_relu_conv_pad;
  mixed4c_5x5_pre_relu_conv_pad ← F_pad fw mixed4c_5x5_bottleneck [2; 2; 2; 2] None;
  mixed4c_5x5_pre_relu_conv ← call fw self "mixed4c_5x5_pre_relu_conv" mixed4c_5x5_pre_relu_conv_pad;
  mixed4c_pool_reduce ← call fw self "mixed4c_pool_reduce" mixed4c_pool_reduce_pre_relu_conv;
  mixed4c_3x3 ← call fw self "mixed4c_3x3" mixed4c_3x3_pre_relu_conv;
  mixed4c_5x5 ← call fw self "mixed4c_5x5" mixed4c_5x5_pre_relu_conv;
  mixed4c ← call_cat fw self "mixed4c" [mixed4c_1x1; mixed4c_3x3; mixed4c_5x5; mixed4c_pool_reduce] 1;
  mixed4d_1x1_pre_relu_conv ← call fw self "mixed4d_1x1_pre_relu_conv" mixed4c;
  mixed4d_3x3_bottleneck_pre_relu_conv ← call fw self "mixed4d_3x3_bottleneck_pre_relu_conv" mixed4c;
  mixed4d_5x5_bottleneck_pre_relu_conv ← call fw self "mixed4d_5x5_bottleneck_pre_relu_conv" mixed4c;
  mixed4d_pool_pad ← F_pad fw mixed4c [1; 1; 1; 1] (Some NegInf);
  mixed4d_pool ← call_pool fw self "mixed4d_pool" mixed4d_pool_pad (3, 3) (1, 1) 0 false;
  mixed4d_1x1 ← call fw self "mixed4d_1x1" mixed4d_1x1_pre_relu_conv;
  mixed4d_3x3_bottleneck ← call fw self "mixed4d_3x3_bottleneck" mixed4d_3x3_bottleneck_pre_relu_conv;
  mixed4d_5x5_bottleneck ← call fw self "mixed4d_5x5_bottleneck" mixed4d_5x5_bottleneck_pre_relu_conv;
  mixed4d_pool_reduce_pre_relu_conv ← call fw self "mixed4d_pool_reduce_pre_relu_conv" mixed4d_pool;
  mixed4d_3x3_pre_relu_conv_pad ← F_pad fw mixed4d_3x3_bottleneck [1; 1; 1; 1] None;
  mixed4d_3x3_pre_relu_conv ← call fw self "mixed4d_3x3_pre_relu_conv" mixed4d_3x3_pre_relu_conv_pad;
  mixed4d_5x5_pre_relu_conv_pad ← F_pad fw mixed4d_5x5_bottleneck [2; 2; 2; 2] None;
  mixed4d_5x5_pre_relu_conv ← call fw self "mixed4d_5x5_pre_relu_conv" mixed4d_5x5_pre_relu_conv_pad;
  mixed4d_pool_reduce ← call fw self "mixed4d_pool_reduce" mixed4d_pool_reduce_pre_relu_conv;
  mixed4d_3x3 ← call fw self "mixed4d_3x3" mixed4d_3x3_pre_relu_conv;
  mixed4d_5x5 ← call fw self "mixed4d_5x5" mixed4d_5x5_pre_relu_conv;
  mixed4d ← call_cat fw self "mixed4d" [mixed4d_1x1; mixed4d_3x3; mixed4d_5x5; mixed4d_pool_reduce] 1;
  mixed4e_1x1_pre_relu_conv ← call fw self "mixed4e_1x1_pre_relu_conv" mixed4d;
  mixed4e_3x3_bottleneck_pre_relu_conv ← call fw self "mixed4e_3x3_bottleneck_pre_relu_conv" mixed4d;
  mixed4e_5x5_bottleneck_pre_relu_conv ← call fw self "mixed4e_5x5_bottleneck_pre_relu_conv" mixed4d;
  mixed4e_pool_pad ← F_pad fw mixed4d [1; 1; 1; 1] (Some NegInf);
  mixed4e_pool ← call_pool fw self "mixed4e_pool" mixed4e_pool_pad (3, 3) (1, 1) 0 false;
  mixed4e_1x1 ← call fw self "mixed4e_1x1" mixed4e_1x1_pre_relu_conv;
  mixed4e_3x3_bottleneck ← call fw self "mixed4e_3x3_bottleneck" mixed4e_3x3_bottleneck_pre_relu_conv;
  mixed4e_5x5_bottleneck ← call fw self "mixed4e_5x5_bottleneck" mixed4e_5x5_bottleneck_pre_relu_conv;
  mixed4e_pool_reduce_pre_relu_conv ← call fw self "mixed4e_pool_reduce_pre_relu_conv" mixed4e_pool;
  mixed4e_3x3_pre_relu_conv_pad ← F_pad fw mixed4e_3x3_bottleneck [1; 1; 1; 1] None;
  mixed4e_3x3_pre_relu_conv ← call fw self "mixed4e_3x3_pre_relu_conv" mixed4e_3x3_pre_relu_conv_pad;
  mixed4e_5x5_pre_relu_conv_pad ← F_pad fw mixed4e_5x5_bottleneck [2; 2; 2; 2] None;
  mixed4e_5x5_pre_relu_conv ← call fw self "mixed4e_5x5_pre_relu_conv" mixed4e_5x5_pre_relu_conv_pad;
  mixed4e_pool_reduce ← call fw self "mixed4e_pool_reduce" mixed4e_pool_reduce_pre_relu_conv;
  mixed4e_3x3 ← call fw self "mixed4e_3x3" mixed4e_3x3_pre_relu_conv;
  mixed4e_5x5 ← call fw self "mixed4e_5x5" mixed4e_5x5_pre_relu_conv;
  mixed4e ← call_cat fw self "mixed4e" [mixed4e_1x1; mixed4e_3x3; mixed4e_5x5; mixed4e_pool_reduce] 1;
  maxpool10_pad ← F_pad fw mixed4e [0; 1; 0; 1] (Some NegInf);
  maxpool10 ← call_pool fw self "maxpool10" maxpool10_pad (3, 3) (2, 2) 0 false;
  mixed5a_1x1_pre_relu_conv ← call fw self "mixed5a_1x1_pre_relu_conv" maxpool10;
  mixed5a_3x3_bottleneck_pre_relu_conv ← call fw self "mixed5a_3x3_bottleneck_pre_relu_conv" maxpool10;
  mixed5a_5x5_bottleneck_pre_relu_conv ← call fw self "mixed5a_5x5_bottleneck_pre_relu_conv" maxpool10;
  mixed5a_pool_pad ← F_pad fw maxpool10 [1; 1; 1; 1] (Some NegInf);
  mixed5a_pool ← call_pool fw self "mixed5a_pool" mixed5a_pool_pad (3, 3) (1, 1) 0 false;
  mixed5a_1x1 ← call fw self "mixed5a_1x1" mixed5a_1x1_pre_relu_conv;
  mixed5a_3x3_bottleneck ← call fw self "mixed5a_3x3_bottleneck" mixed5a_3x3_bottleneck_pre_relu_conv;
  mixed5a_5x5_bottleneck ← call fw self "mixed5a_5x5_bottleneck" mixed5a_5x5_bottleneck_pre_relu_conv;
  mixed5a_pool_reduce_pre_relu_conv ← call fw self "mixed5a_pool_reduce_pre_relu_conv" mixed5a_pool;
  mixed5a_3x3_pre_relu_conv_pad ← F_pad fw mixed5a_3x3_bottleneck [1; 1; 1; 1] None;
  mixed5a_3x3_pre_relu_conv ← call fw self "mixed5a_3x3_pre_relu_conv" mixed5a_3x3_pre_relu_conv_pad;
  mixed5a_5x5_pre_relu_conv_pad ← F_pad fw mixed5a_5x5_bottleneck [2; 2; 2; 2] None;
  mixed5a_5x5_pre_relu_conv ← call fw self "mixed5a_5x5_pre_relu_conv" mixed5a_5x5_pre_relu_conv_pad;
  mixed5a_pool_reduce ← call fw self "mixed5a_pool_reduce" mixed5a_pool_reduce_pre_relu_conv;
  mixed5a_3x3 ← call fw self "mixed5a_3x3" mixed5a_3x3_pre_relu_conv;
  mixed5a_5x5 ← call fw self "mixed5a_5x5" mixed5a_5x5_pre_relu_conv;
  mixed5a ← call_cat fw self "mixed5a" [mixed5a_1x1; mixed5a_3x3; mixed5a_5x5; mixed5a_pool_reduce] 1;
  mixed5b_1x1_pre_relu_conv ← call fw self "mixed5b_1x1_pre_relu_conv" mixed5a;
  mixed5b_3x3_bottleneck_pre_relu_conv ← call fw self "mixed5b_3x3_bottleneck_pre_relu_conv" mixed5a;
  mixed5b_5x5_bottleneck_pre_relu_conv ← call fw self "mixed5b_5x5_bottleneck_pre_relu_conv" mixed5a;
  mixed5b_pool_pad ← F_pad fw mixed5a [1; 1; 1; 1] (Some NegInf);
  mixed5b_pool ← call_pool fw self "mixed5b_pool" mixed5b_pool_pad (3, 3) (1, 1) 0 false;
  mixed5b_1x1 ← call fw self "mixed5b_1x1" mixed5b_1x1_pre_relu_conv;
  mixed5b_3x3_bottleneck ← call fw self "mixed5b_3x3_bottleneck" mixed5b_3x3_bottleneck_pre_relu_conv;
  mixed5b_5x5_bottleneck ← call fw self "mixed5b_5x5_bottleneck" mixed5b_5x5_bottleneck_pre_relu_conv;
  mixed5b_pool_reduce_pre_relu_conv ← call fw self "mixed5b_pool_reduce_pre_relu_conv" mixed5b_pool;
  mixed5b_3x3_pre_relu_conv_pad ← F_pad fw mixed5b_3x3_bottleneck [1; 1; 1; 1] None;
  mixed5b_3x3_pre_relu_conv ← call fw self "mixed5b_3x3_pre_relu_conv" mixed5b_3x3_pre_relu_conv_pad;
  mixed5b_5x5_pre_relu_conv_pad ← F_pad fw mixed5b_5x5_bottleneck [2; 2; 2; 2] None;
  mixed5b_5x5_pre_relu_conv ← call fw self "mixed5b_5x5_pre_relu_conv" mixed5b_5x5_pre_relu_conv_pad;
  mixed5b_pool_reduce ← call fw self "mixed5b_pool_reduce" mixed5b_pool_reduce_pre_relu_conv;
  mixed5b_3x3 ← call fw self "mixed5b_3x3" mixed5b_3x3_pre_relu_conv;
  mixed5b_5x5 ← call fw self "mixed5b_5x5" mixed5b_5x5_pre_relu_conv;
  mixed5b ← call_cat fw self "mixed5b" [mixed5b_1x1; mixed5b_3x3; mixed5b_5x5; mixed5b_pool_reduce] 1;
  avgpool0 ← F_avg_pool2d fw mixed5b (7, 7) (1, 1) [0] false false;
  avgpool0_reshape ← torch_reshape fw avgpool0 [-1; 1024];
  softmax2_pre_activation_matmul ← call fw self "softmax2_pre_activation_matmul" avgpool0_reshape;
  softmax2 ← call fw self "softmax2" softmax2_pre_activation_matmul;
  mret softmax2
.
End Forward.

(** ** The recording framework *)

(** One kernel call: which kernel, with which arguments. *)
Inductive kernel : Type :=
| KPad (padding : list Z) (value : option pynum)
| KRelu
| KClamp (min max : option pynum)
| KMaxPool (kernel_size stride : Z * Z) (padding : Z) (ceil_mode : bool)
| KLocalResponseNorm (size : Z) (alpha beta k : pynum)
| KCat (dim : Z)
| KAvgPool (kernel_size stride : Z * Z) (padding : list Z)
           (ceil_mode count_include_pad : bool)
| KReshape (shape : list Z)
| KSoftmax (dim : Z)
| KConv2d (name : string) (in_channels out_channels : Z)
          (kernel_size stride : Z * Z) (groups : Z) (bias : bool)
| KLinear (name : string) (in_features out_features : Z) (bias : bool).

(** A recorded tensor is the number of the kernel call that made it (0 is
    the network's input) and the size of its dimension 1. *)
Record sym : Type := { tid : nat; dim1 : Z }.

Record node : Type := { kern : kernel; args : list nat; out_dim1 : Z }.

(** The store of the recording framework: the kernel calls in the order
    they ran, call [i] (from 0) making tensor [S i], and the module calls
    the forward hook saw, as (module name, inputs, output). *)
Record trace : Type := {
  nodes : list node;
  calls : list (string * list nat * nat)
}.

Definition emit (k : kernel) (inputs : list sym) (d : Z) : Py trace sym :=
  λ tr,
    (Return {| tid := S (length (nodes tr)); dim1 := d |},
     {| nodes := nodes tr ++ [{| kern := k; args := tid <$> inputs;
                                  out_dim1 := d |}];
        calls := calls tr |}).

Definition record_call (name : string) (inputs : list sym) (out : sym)
    : Py trace unit :=
  λ tr,
    (Return tt,
     {| nodes := nodes tr;
        calls := calls tr ++ [(name, tid <$> inputs, tid out)] |}).

(** Every kernel is recorded; dimension 1 follows the kernels' shape
    rules: a convolution (a linear layer) refuses an input whose
    dimension 1 is not its [in_channels] ([in_features]) and makes
    [out_channels] ([out_features]); concatenation along dimension 1 adds
    the sizes up; reshaping sets it from the target shape; the other
    kernels keep it. *)
Definition recorder : Framework sym trace := {|
  F_pad t padding value := emit (KPad padding value) [t] (dim1 t);
  F_relu t := emit KRelu [t] (dim1 t);
  Tensor_clamp t lo hi := emit (KClamp lo hi) [t] (dim1 t);
  F_max_pool2d t k s p c := emit (KMaxPool k s p c) [t] (dim1 t);
  F_local_response_norm t size alpha beta k :=
    emit (KLocalResponseNorm size alpha beta k) [t] (dim1 t);
  torch_cat ts dim :=
    match ts with
    | [] => raise (RuntimeError "torch.cat(): expected a non-empty list of Tensors")
    | t :: _ =>
        emit (KCat dim) ts
             (if Z.eqb dim 1 then foldr Z.add 0 (dim1 <$> ts) else dim1 t)
    end;
  F_avg_pool2d t k s p c i := emit (KAvgPool k s p c i) [t] (dim1 t);
  torch_reshape t shape := emit (KReshape shape) [t] (nth 1 shape (-1));
  F_softmax t dim := emit (KSoftmax dim) [t] (dim1 t);
  Conv2d_forward name i o k s g b t :=
    if Z.eqb (dim1 t) i then emit (KConv2d name i o k s g b) [t] o
    else raise (RuntimeError "expected input to have in_channels channels");
  Linear_forward name i o b t :=
    if Z.eqb (dim1 t) i then emit (KLinear name i o b) [t] o
    else raise (RuntimeError "mat1 and mat2 shapes cannot be multiplied");
  forward_hook := record_call
|}.

(** The run of [forward] on an image batch (three channels). *)
Definition run (redirected_ReLU : bool) : result sym * trace :=
  forward recorder (init redirected_ReLU) {| tid := 0; dim1 := 3 |}
          {| nodes := []; calls := [] |}.

Definition recorded (redirected_ReLU : bool) : trace :=
  (run redirected_ReLU).2.

(** *** Reading a trace *)

Definition node_of (tr : trace) (t : nat) : option node :=
  match t with O => None | S i => nodes tr !! i end.

Definition is_cat (k : kernel) : bool :=
  match k with KCat _ => true | _ => false end.

Definition is_lrn (k : kernel) : bool :=
  match k with KLocalResponseNorm _ _ _ _ => true | _ => false end.

(** The module call that made tensor [t], if a module made it. *)
Definition made_by (tr : trace) (t : nat) : option string :=
  (λ c, c.1.1) <$> List.find (λ c, Nat.eqb c.2 t) (calls tr).

Definition kernel_of (tr : trace) (t : nat) : option kernel :=
  kern <$> node_of tr t.

(** The module calls that ran a concatenation. *)
Definition cat_calls (tr : trace) : list (string * list nat * nat) :=
  List.filter (λ c, from_option is_cat false (kernel_of tr c.2)) (calls tr).






(** Where a tensor's channels come from: back through the kernels that
    only pad, pool or reshape, to the convolution, activation or
    concatenation before them. *)
Fixpoint origin (tr : trace) (fuel : nat) (t : nat) : nat :=
  match fuel with
  | O => t
  | S fuel =>
      match node_of tr t with
      | Some {| kern := (KPad _ _ | KMaxPool _ _ _ _ | KAvgPool _ _ _ _ _
                         | KReshape _);
                args := [t'] |} => origin tr fuel t'
      | _ => t
      end
  end.

(** The convolutions and linear layers that consume tensor [o]: name and
    the [in_channels] ([in_features]) they ran with. *)
Definition consumers (tr : trace) (o : nat) : list (string * Z) :=
  omap (λ n,
          match kern n, args n with
          | KConv2d name i _ _ _ _ _, [t]
          | KLinear name i _ _, [t] =>
              if Nat.eqb (origin tr t t) o then Some (name, i) else None
          | _, _ => None
          end) (nodes tr).

(** The [out_channels] of the convolution under the activation [t]. *)
Definition branch_out_channels (tr : trace) (t : nat) : option Z :=
  match node_of tr t with
  | Some {| args := [t'] |} =>
      match kernel_of tr t' with
      | Some (KConv2d _ _ o _ _ _ _) => Some o
      | _ => None
      end
  | _ => None
  end.

(** What [__init__] declared for the module [name]. *)
Definition declared_in (self : gmap string Module) (name : string)
    : option Z :=
  match self !! name with
  | Some (Conv2d i _ _ _ _ _) | Some (Linear i _ _) => Some i
  | _ => None
  end.

(** The local-response normalisations of a trace: the kernel call and the
    module whose output it normalises. *)
Definition lrn_calls (tr : trace) : list (kernel * option string) :=
  omap (λ n,
          match kern n, args n with
          | KLocalResponseNorm _ _ _ _, [t] => Some (kern n, made_by tr t)
          | _, _ => None
          end) (nodes tr).

(** The module calls that ran a max-pool, in order. *)
Definition maxpool_calls (tr : trace) : list string :=
  omap (λ c, match kernel_of tr c.2 with
             | Some (KMaxPool _ _ _ _) => Some c.1.1
             | _ => None
             end) (calls tr).

(** The convolutions that read the input of the block named [b]. *)
Definition entry_convs (b : string) : list string :=
  [b +:+ "_1x1_pre_relu_conv"; b +:+ "_3x3_bottleneck_pre_relu_conv";
   b +:+ "_5x5_bottleneck_pre_relu_conv"; b +:+ "_pool_reduce_pre_relu_conv"].

(** The output of the concatenation [c] has as many channels as its
    branches' convolutions make together, it is consumed, and every
    consumer was declared in [self], and ran, with that many input
    channels. *)
Definition channel_consistent (self : gmap string Module) (tr : trace)
    (c : string * list nat * nat) : Prop :=
  ∃ (outs : list Z) (ch : Z),
    mapM (branch_out_channels tr) c.1.2 = Some outs ∧
    ch = foldr Z.add 0 outs ∧
    out_dim1 <$> node_of tr c.2 = Some ch ∧
    consumers tr c.2 ≠ [] ∧
    Forall (λ u, declared_in self u.1 = Some ch ∧ u.2 = ch)
           (consumers tr c.2).

(** [add_layers] with the flag set differs from [add_layers] without it
    in the class of the activation modules only. *)
Definition redirect (m : Module) : Module :=
  match m with ReluLayer => RedirectedReluLayer | _ => m end.

(** *** A small executable framework

    Tensors are lists of integers and there is no store: the activations
    act elementwise, the convolutions and the linear layer subtract their
    number of output channels from every element, concatenation appends,
    and the other kernels return their input. *)
Definition clamp_elt (lo hi : option pynum) (v : Z) : Z :=
  let v := match lo with Some (PyInt a) => Z.max a v | _ => v end in
  match hi with Some (PyInt b) => Z.min b v | _ => v end.

Definition elementwise : Framework (list Z) unit := {|
  F_pad t _ _ := mret t;
  F_relu t := mret (Z.max 0 <$> t);
  Tensor_clamp t lo hi := mret (clamp_elt lo hi <$> t);
  F_max_pool2d t _ _ _ _ := mret t;
  F_local_response_norm t _ _ _ _ := mret t;
  torch_cat ts _ := mret (concat ts);
  F_avg_pool2d t _ _ _ _ _ := mret t;
  torch_reshape t _ := mret t;
  F_softmax t _ := mret t;
  Conv2d_forward _ _ o _ _ _ _ t := mret ((λ v, v - o) <$> t);
  Linear_forward _ _ o _ t := mret ((λ v, v - o) <$> t);
  forward_hook _ _ _ := mret tt
|}.

End InceptionV1.

Module InceptionV1Graph.
Import InceptionV1.

(** ** More readings of a trace *)

(** The names of the module calls, in the order they ran. *)
Definition called (tr : trace) : list string := (λ c, c.1.1) <$> calls tr.

Definition is_activation (k : kernel) : bool :=
  match k with
  | KRelu | KClamp (Some (PyInt 0)) None => true
  | _ => false
  end.

(** The module calls that ran an activation. *)
Definition activation_calls (tr : trace) : list (string * list nat * nat) :=
  List.filter (λ c, from_option is_activation false (kernel_of tr c.2))
              (calls tr).

#[global] Instance pynum_eq_dec : EqDecision pynum.
Proof. solve_decision. Defined.

Definition is_conv (k : kernel) : bool :=
  match k with KConv2d _ _ _ _ _ _ _ => true | _ => false end.

(** The activation called as [name] reads the output of the convolution
    called as [name_pre_relu_conv], and nothing else reads that output. *)
Definition follows_its_conv (tr : trace) (c : string * list nat * nat)
    : bool :=
  match c.1.2 with
  | [t] =>
      bool_decide (made_by tr t = Some (c.1.1 +:+ "_pre_relu_conv"))
      && from_option is_conv false (kernel_of tr t)
      && Nat.eqb (length (List.filter (λ n, bool_decide (t ∈ args n))
                                      (nodes tr))) 1
  | _ => false
  end.

(** The padding a kernel call reads: the arguments of the [F.pad] that
    made its input, if an [F.pad] made it. *)
Definition padding_of (tr : trace) (n : node)
    : option (list Z * option pynum) :=
  match args n with
  | [t] => match kernel_of tr t with
           | Some (KPad p v) => Some (p, v)
           | _ => None
           end
  | _ => None
  end.

(** A max-pool reads a tensor padded with minus infinity, by one on every
    side at stride one and by one on the right and at the bottom at stride
    two; a convolution of stride one reads its input unpadded for a 1x1
    kernel and padded with zeros by [(k - 1) / 2] on every side for a
    [k]x[k] kernel; the convolution of stride two, of kernel 7x7, reads a
    tensor padded with zeros by two and three.  Nothing is asked of the
    other kernels. *)
Definition well_padded (tr : trace) (n : node) : bool :=
  match kern n with
  | KMaxPool (3, 3) (1, 1) 0 false =>
      bool_decide (padding_of tr n = Some ([1; 1; 1; 1], Some NegInf))
  | KMaxPool (3, 3) (2, 2) 0 false =>
      bool_decide (padding_of tr n = Some ([0; 1; 0; 1], Some NegInf))
  | KMaxPool _ _ _ _ => false
  | KConv2d _ _ _ (1, 1) (1, 1) _ _ => bool_decide (padding_of tr n = None)
  | KConv2d _ _ _ (3, 3) (1, 1) _ _ =>
      bool_decide (padding_of tr n = Some ([1; 1; 1; 1], None))
  | KConv2d _ _ _ (5, 5) (1, 1) _ _ =>
      bool_decide (padding_of tr n = Some ([2; 2; 2; 2], None))
  | KConv2d _ _ _ (7, 7) (2, 2) _ _ =>
      bool_decide (padding_of tr n = Some ([2; 3; 2; 3], None))
  | KConv2d _ _ _ _ _ _ _ => false
  | _ => true
  end.

(** A module that this call form accepts is assigned to [name]. *)
Definition callable (self : gmap string Module) (name : string) : bool :=
  match self !! name with
  | Some CatLayer | None => false
  | Some _ => true
  end.

Definition callable_pool (self : gmap string Module) (name : string) : bool :=
  match self !! name with
  | Some MaxPool2dLayer => true
  | _ => false
  end.

Definition callable_cat (self : gmap string Module) (name : string) : bool :=
  match self !! name with
  | Some CatLayer => true
  | _ => false
  end.

(** Every kernel of the framework returns, whatever it is given. *)
Definition kernels_return {T W : Type} (fw : Framework T W) : Prop :=
  (∀ t p v w, returns (F_pad fw t p v w).1 = true) ∧
  (∀ t w, returns (F_relu fw t w).1 = true) ∧
  (∀ t lo hi w, returns (Tensor_clamp fw t lo hi w).1 = true) ∧
  (∀ t k s p c w, returns (F_max_pool2d fw t k s p c w).1 = true) ∧
  (∀ t size alpha beta k w,
     returns (F_local_response_norm fw t size alpha beta k w).1 = true) ∧
  (∀ ts dim w, returns (torch_cat fw ts dim w).1 = true) ∧
  (∀ t k s p c i w, returns (F_avg_pool2d fw t k s p c i w).1 = true) ∧
  (∀ t shape w, returns (torch_reshape fw t shape w).1 = true) ∧
  (∀ t dim w, returns (F_softmax fw t dim w).1 = true) ∧
  (∀ name i o k s g b t w,
     returns (Conv2d_forward fw name i o k s g b t w).1 = true) ∧
  (∀ name i o b t w, returns (Linear_forward fw name i o b t w).1 = true) ∧
  (∀ name ts t w, returns (forward_hook fw name ts t w).1 = true).

(** ** The shapes of a batch

    A framework in which a tensor is its shape, for batches of images
    (four axes: batch, channels, height, width) and for what [forward]
    makes of them.  The kernels follow the shape rules of the
    framework's convolution, pooling, padding, concatenation, reshaping
    and linear kernels, and raise where those refuse their input. *)

(** The output length of a window of [k] moved by [s] over [n] cells. *)
Definition window_out (n k s : Z) (ceil_mode : bool) : Z :=
  let out := (n - k + (if ceil_mode then s - 1 else 0)) `div` s + 1 in
  if ceil_mode && (n <=? (out - 1) * s) then out - 1 else out.

(** [F.pad]: the pairs of [padding] go to the last axis first. *)
Fixpoint pad_axes (reversed : list Z) (padding : list Z)
    : option (list Z) :=
  match padding, reversed with
  | [], _ => Some reversed
  | l :: r :: padding, d :: reversed =>
      if d + l + r <? 0 then None
      else cons (d + l + r) <$> pad_axes reversed padding
  | _, _ => None
  end.

Definition shapes_eqb (s1 s2 : list Z) : bool :=
  Nat.eqb (length s1) (length s2) && forallb (λ p, p.1 =? p.2) (zip s1 s2).

(** [torch.cat] along axis 1: the other axes agree. *)
Definition cat_axis1 (ts : list (list Z)) : option (list Z) :=
  match ts with
  | (n :: c :: rest) :: others =>
      if forallb (λ t, match t with
                       | n' :: _ :: rest' => (n' =? n) && shapes_eqb rest' rest
                       | _ => false
                       end) others
      then Some (n :: foldr Z.add 0 ((λ t, nth 1 t 0) <$> ts) :: rest)
      else None
  | _ => None
  end.

Definition numel (shape : list Z) : Z := foldr Z.mul 1 shape.

(** [torch.reshape]: at most one axis is [-1], and is inferred. *)
Definition reshape_to (t shape : list Z) : option (list Z) :=
  let known := numel (List.filter (λ d, negb (d =? -1)) shape) in
  if existsb (λ d, d <? -1) shape then None
  else match length (List.filter (λ d, d =? -1) shape) with
       | O => if known =? numel t then Some shape else None
       | S O =>
           if (known =? 0) || negb (numel t `mod` known =? 0) then None
           else Some ((λ d, if d =? -1 then numel t `div` known else d)
                        <$> shape)
       | _ => None
       end.

Definition refuse {X : Type} (msg : string) : Py unit X :=
  raise (RuntimeError msg).

Definition pool_shape (t : list Z) (k s : Z * Z) (ph pw : Z)
    (ceil_mode : bool) : Py unit (list Z) :=
  match t with
  | [n; c; h; w] =>
      let oh := window_out (h + 2 * ph) k.1 s.1 ceil_mode in
      let ow := window_out (w + 2 * pw) k.2 s.2 ceil_mode in
      if (oh <? 1) || (ow <? 1) then refuse "Output size is too small"
      else mret [n; c; oh; ow]
  | _ => refuse "Expected 4D input"
  end.

Definition shapes : Framework (list Z) unit := {|
  F_pad t padding value :=
    match pad_axes (reverse t) padding with
    | Some r => mret (reverse r)
    | None => refuse "Padding does not fit the input"
    end;
  F_relu t := mret t;
  Tensor_clamp t lo hi := mret t;
  F_max_pool2d t k s p ceil_mode := pool_shape t k s p p ceil_mode;
  F_local_response_norm t size alpha beta k := mret t;
  torch_cat ts dim :=
    if dim =? 1 then
      match cat_axis1 ts with
      | Some r => mret r
      | None => refuse "Sizes of tensors must match except in dimension 1"
      end
    else refuse "Only concatenation along dimension 1";
  F_avg_pool2d t k s p ceil_mode count_include_pad :=
    match p with
    | [p] => pool_shape t k s p p ceil_mode
    | [ph; pw] => pool_shape t k s ph pw ceil_mode
    | _ => refuse "padding must be one or two integers"
    end;
  torch_reshape t shape :=
    match reshape_to t shape with
    | Some r => mret r
    | None => refuse "shape is invalid for input"
    end;
  F_softmax t dim := mret t;
  Conv2d_forward name i o k s g b t :=
    match t with
    | [n; c; h; w] =>
        if negb (c =? i) then refuse "expected input to have in_channels channels"
        else if (h <? k.1) || (w <? k.2)
        then refuse "Kernel size can't be greater than actual input size"
        else mret [n; o; (h - k.1) `div` s.1 + 1; (w - k.2) `div` s.2 + 1]
    | _ => refuse "Expected 4D input"
    end;
  Linear_forward name i o b t :=
    match reverse t with
    | d :: rest =>
        if d =? i then mret (reverse (o :: rest))
        else refuse "mat1 and mat2 shapes cannot be multiplied"
    | [] => refuse "input must have at least one axis"
    end;
  forward_hook name inputs out := mret tt
|}.

(** What the shape run of [forward] comes to on a batch of [N] images of
    height [H] and width [W]: it returns [N] rows of 1008 scores for every
    7x7 window of the last feature map, of which there are
    [(H / 32 - 6) * (W / 32 - 6)], when both lengths are at least 224, and
    raises when one is smaller. *)
Definition shape_outcome (N H W : Z) (run : result (list Z) * unit) : Prop :=
  (224 ≤ H ∧ 224 ≤ W →
   run = (Return [N * (H `div` 32 - 6) * (W `div` 32 - 6); 1008], tt)) ∧
  (H < 224 ∨ W < 224 → returns run.1 = false).

End InceptionV1Graph.

Module TorchlightIO.

(** ** NumPy arrays *)

Inductive dtype : Type :=
| bool_ | int8 | uint8 | int16 | uint16 | int32 | uint32 | int64 | uint64
| float16 | float32 | float64 | complex64 | complex128 | object_ | str_.

#[global] Instance dtype_eq_dec : EqDecision dtype.
Proof. solve_decision. Defined.

(** The abstract types of the dtype hierarchy that the source tests with
    [np.issubdtype]. *)
Inductive abstract_dtype : Type := number | inexact | unsignedinteger.

Definition issubdtype (d : dtype) (a : abstract_dtype) : bool :=
  match a, d with
  | number, (bool_ | object_ | str_) => false
  | number, _ => true
  | inexact, (float16 | float32 | float64 | complex64 | complex128) => true
  | inexact, _ => false
  | unsignedinteger, (uint8 | uint16 | uint32 | uint64) => true
  | unsignedinteger, _ => false
  end.

(** [np.iinfo(d).max] *)
Definition iinfo_max (d : dtype) : option Z :=
  match d with
  | int8 => Some 127 | uint8 => Some 255
  | int16 => Some 32767 | uint16 => Some 65535
  | int32 => Some 2147483647 | uint32 => Some 4294967295
  | int64 => Some 9223372036854775807 | uint64 => Some 18446744073709551615
  | _ => None
  end.

(** The scalar arithmetic of NumPy over elements [E]: the elementwise
    kernels of the ufuncs the source applies, the conversion of a Python
    integer, the integer an element converts to in a cast to an integer
    dtype, and the dtype [ndarray.clip] gives its result. *)
Record NumPy (E : Type) : Type := {
  isnan : E → bool;
  less : E → E → bool;
  greater : E → E → bool;
  less_equal : E → E → bool;
  not_equal : E → E → bool;
  minimum : E → E → E;
  maximum : E → E → E;
  subtract : E → E → E;
  multiply : E → E → E;
  true_divide : E → E → E;
  of_int : Z → E;
  to_int : E → Z;
  result_type : dtype → E → E → dtype
}.
Arguments isnan {E}.
Arguments less {E}.
Arguments greater {E}.
Arguments less_equal {E}.
Arguments not_equal {E}.
Arguments minimum {E}.
Arguments maximum {E}.
Arguments subtract {E}.
Arguments multiply {E}.
Arguments true_divide {E}.
Arguments of_int {E}.
Arguments to_int {E}.
Arguments result_type {E}.

(** A buffer owns the elements; an [ndarray] is a view of a buffer, so
    that two arrays of one [base] share their elements. *)
Record buffer (E : Type) : Type := { buf_dtype : dtype; buf_data : list E }.
Arguments buf_dtype {E}.
Arguments buf_data {E}.

Record ndarray : Type := { base : nat; shape : list nat }.

(** What an array holds, as the codecs and writers receive it. *)
Record array_value (E : Type) : Type := {
  val_dtype : dtype;
  val_shape : list nat;
  val_data : list E
}.
Arguments val_dtype {E}.
Arguments val_shape {E}.
Arguments val_data {E}.

(** The store of Python code over arrays: the buffers allocated so far,
    a new buffer taking the next index, and the store [W] of the world
    outside (files, the notebook display). *)
Record store (E W : Type) : Type := { heap : list (buffer E); ext : W }.
Arguments heap {E W}.
Arguments ext {E W}.

Section Arrays.
Context {E W : Type} (np : NumPy E).

Definition get_buffer (a : ndarray) : Py (store E W) (buffer E) :=
  λ s, match heap s !! base a with
       | Some b => (Return b, s)
       | None => (Raise (RuntimeError "array used after its buffer was freed"), s)
       end.

Definition allocate (b : buffer E) (sh : list nat)
    : Py (store E W) ndarray :=
  λ s, (Return {| base := length (heap s); shape := sh |},
        {| heap := heap s ++ [b]; ext := ext s |}).

Definition set_buffer (l : nat) (b : buffer E) : Py (store E W) unit :=
  λ s, (Return tt, {| heap := <[l := b]> (heap s); ext := ext s |}).

(** An in-place ufunc: every element of the buffer is replaced. *)
Definition update_in_place (a : ndarray) (f : E → E)
    : Py (store E W) unit :=
  b ← get_buffer a;
  set_buffer (base a) {| buf_dtype := buf_dtype b;
                         buf_data := f <$> buf_data b |}.

Definition get_dtype (a : ndarray) : Py (store E W) dtype :=
  b ← get_buffer a; mret (buf_dtype b).

Definition get_value (a : ndarray) : Py (store E W) (array_value E) :=
  b ← get_buffer a;
  mret {| val_dtype := buf_dtype b; val_shape := shape a;
          val_data := buf_data b |}.

(** [np.array(a)]: a copy. *)
Definition np_array (a : ndarray) : Py (store E W) ndarray :=
  b ← get_buffer a; allocate b (shape a).

(** [np.squeeze(a)]: a view without the axes of length one. *)
Definition np_squeeze (a : ndarray) : Py (store E W) ndarray :=
  mret {| base := base a;
          shape := List.filter (λ n, negb (Nat.eqb n 1)) (shape a) |}.

(** [np.isnan(a).any()] *)
Definition np_isnan_any (a : ndarray) : Py (store E W) bool :=
  b ← get_buffer a; mret (existsb (isnan np) (buf_data b)).

(** [np.min(a)] and [np.max(a)]: a reduction without identity, which
    raises on an array without elements. *)
Definition reduce (f : E → E → E) (a : ndarray) (name : string)
    : Py (store E W) E :=
  b ← get_buffer a;
  match buf_data b with
  | [] => raise (ValueError ["zero-size array to reduction operation "
                             +:+ name +:+ " which has no identity"])
  | v :: vs => mret (foldl f v vs)
  end.

Definition np_min (a : ndarray) : Py (store E W) E :=
  reduce (minimum np) a "minimum".

Definition np_max (a : ndarray) : Py (store E W) E :=
  reduce (maximum np) a "maximum".

(** [a.clip(lo, hi)]: a new array. *)
Definition ndarray_clip (a : ndarray) (lo hi : E)
    : Py (store E W) ndarray :=
  b ← get_buffer a;
  allocate {| buf_dtype := result_type np (buf_dtype b) lo hi;
              buf_data := (λ v, minimum np (maximum np v lo) hi)
                            <$> buf_data b |}
           (shape a).

(** [a -= v] and [a *= v] *)
Definition isub (a : ndarray) (v : E) : Py (store E W) unit :=
  update_in_place a (λ x, subtract np x v).

Definition imul (a : ndarray) (v : E) : Py (store E W) unit :=
  update_in_place a (λ x, multiply np x v).

(** [a.astype(np.uint8)]: a new array; the cast keeps the low eight
    bits of the integer each element converts to. *)
Definition astype_uint8 (a : ndarray) : Py (store E W) ndarray :=
  b ← get_buffer a;
  allocate {| buf_dtype := uint8;
              buf_data := (λ v, of_int np (to_int np v `mod` 256))
                            <$> buf_data b |}
           (shape a).

(** ** [normalize_array] *)

Definition normalize_array (array : ndarray) (domain : option (E * E))
    : Py (store E W) ndarray :=
  array ← np_array array;
  array ← np_squeeze array;
  _ ← assert (Nat.leb (length (shape array)) 3);
  dt ← get_dtype array;
  _ ← assert (issubdtype dt number);
  nan ← np_isnan_any array;
  _ ← assert (negb nan);
  low ← np_min array;
  high ← np_max array;
  let domain := match domain with None => (low, high) | Some d => d end in
  array ← (if less np low domain.1 || greater np high domain.2
           then ndarray_clip array domain.1 domain.2
           else mret array);
  let min_value := 0 in
  let max_value := 255 in
  dt ← get_dtype array;
  _ ← (if issubdtype dt inexact then
         let offset := domain.1 in
         _ ← (if not_equal np offset (of_int np 0) then isub array offset
              else mret tt);
         if not_equal np domain.1 domain.2 then
           let scalar :=
             true_divide np (of_int np max_value)
                         (subtract np domain.2 domain.1) in
           if not_equal np scalar (of_int np 1) then imul array scalar
           else mret tt
         else mret tt
       else mret tt);
  clipped ← ndarray_clip array (of_int np min_value) (of_int np max_value);
  astype_uint8 clipped.

(** The arrays [normalize_array] takes: allocated, of a numeric dtype,
    of rank at most three once squeezed, without NaN, and with at least
    one element. *)
Definition accepted (h : list (buffer E)) (array : ndarray) : Prop :=
  ∃ buf : buffer E,
    h !! base array = Some buf ∧
    issubdtype (buf_dtype buf) number = true ∧
    (length (List.filter (λ n, negb (Nat.eqb n 1)) (shape array)) ≤ 3)%nat ∧
    existsb (isnan np) (buf_data buf) = false ∧
    buf_data buf ≠ [].

(** The array [out] of the heap [h] is an image: of dtype uint8, every
    element the conversion of an integer from 0 to 255. *)
Definition uint8_image (h : list (buffer E)) (out : ndarray) : Prop :=
  ∃ bytes : list Z,
    h !! base out = Some {| buf_dtype := uint8;
                            buf_data := of_int np <$> bytes |} ∧
    Forall (λ b, 0 ≤ b ≤ 255) bytes.

(** Every buffer of [h] is in [h'], with the same elements. *)
Definition unchanged (h h' : list (buffer E)) : Prop :=
  ∀ (l : nat) (b : buffer E), h !! l = Some b → h' !! l = Some b.

End Arrays.

(** ** Stores during a call

    The predicates that follow a call from the heap [h0] and the world
    [w0] it started in. *)
Section Stores.
Context {E W : Type} (np : NumPy E) (h0 : list (buffer E)) (w0 : W).

(** The store at the start. *)
Definition initial (s : store E W) : Prop := heap s = h0 ∧ ext s = w0.

(** The store still holds the buffers it held at the start, and the
    world outside is as it was. *)
Definition kept (s : store E W) : Prop :=
  ext s = w0 ∧ ∃ extra, heap s = h0 ++ extra.

(** The array [a] was allocated since the start and holds [buf]. *)
Definition owns (a : ndarray) (buf : buffer E) (s : store E W) : Prop :=
  kept s ∧ (length h0 ≤ base a)%nat ∧ heap s !! base a = Some buf.

(** Where [normalize_array] may raise on [a0]: the buffers are kept, and
    the array was not one it takes. *)
Definition refused (a0 : ndarray) (s : store E W) : Prop :=
  kept s ∧ ¬ accepted np h0 a0.
End Stores.

(** ** Strings and bytes

    A Python [str] and a Python [bytes] are both strings here; [bytes]
    may hold any character, and decoding as ASCII is what tells them
    apart. *)

Definition dquote : string := String "034"%char EmptyString.

Definition newline : string := String "010"%char EmptyString.

(** [needle in haystack] on strings: the substring test. *)
Fixpoint str_in (needle haystack : string) : bool :=
  String.prefix needle haystack ||
  match haystack with
  | EmptyString => false
  | String _ rest => str_in needle rest
  end.

(** [s.split(".")[-1]]: what follows the last separator, the whole of
    [s] when there is none; [cur] is the part read since the last one. *)
Fixpoint last_segment (s cur : string) : string :=
  match s with
  | EmptyString => cur
  | String c rest =>
      if Ascii.eqb c "."%char then last_segment rest EmptyString
      else last_segment rest (cur +:+ String c EmptyString)
  end.

(** [s.replace(old, new)] for a non-empty [old]: every occurrence, from
    the left, without overlap; [skip] counts the characters of an
    occurrence still to pass. *)
Fixpoint str_replace (old new : string) (skip : nat) (s : string) : string :=
  match s with
  | EmptyString => EmptyString
  | String c rest =>
      match skip with
      | S k => str_replace old new k rest
      | O =>
          if String.prefix old s
          then new +:+ str_replace old new (String.length old - 1) rest
          else String c (str_replace old new 0 rest)
      end
  end.

(** [bytes.decode("ascii")] *)
Definition is_ascii (c : ascii) : bool := (Ascii.N_of_ascii c <? 128)%N.

Fixpoint all_ascii (s : string) : bool :=
  match s with
  | EmptyString => true
  | String c rest => is_ascii c && all_ascii rest
  end.

Definition decode_ascii (b : string) : result string :=
  if all_ascii b then Return b else Raise UnicodeDecodeError.

(** [base64.b64encode]: the standard alphabet, with padding. *)
Definition b64_alphabet : string :=
  "ABCDEFGHIJKLMNOPQRSTUVWXYZabcdefghijklmnopqrstuvwxyz0123456789+/".

Definition b64_char (n : N) : ascii :=
  match String.get (N.to_nat (n mod 64)) b64_alphabet with
  | Some c => c
  | None => "="%char
  end.

Fixpoint b64encode (b : string) : string :=
  match b with
  | EmptyString => EmptyString
  | String x EmptyString =>
      let n := (Ascii.N_of_ascii x * 65536)%N in
      String (b64_char (n / 262144)) (String (b64_char (n / 4096)) "==")
  | String x (String y EmptyString) =>
      let n := (Ascii.N_of_ascii x * 65536 + Ascii.N_of_ascii y * 256)%N in
      String (b64_char (n / 262144))
        (String (b64_char (n / 4096)) (String (b64_char (n / 64)) "="))
  | String x (String y (String z rest)) =>
      let n := (Ascii.N_of_ascii x * 65536 + Ascii.N_of_ascii y * 256
                + Ascii.N_of_ascii z)%N in
      String (b64_char (n / 262144))
        (String (b64_char (n / 4096))
           (String (b64_char (n / 64))
              (String (b64_char n) (b64encode rest))))
  end.

(** ** The libraries outside *)

(** Pillow, OpenCV, the NumPy functions on whole files and arrays, the
    notebook display and [str.upper], over the store [W] of the world
    outside.  An image is the array it was made from; a video writer is
    a number. *)
Record Host (E W : Type) : Type := {
  PIL_fromarray : array_value E → result (array_value E);
  Image_save_bytes : array_value E → string → Z → result string;
  Image_save : array_value E → string → Py W unit;
  Image_save_all :
    array_value E → string → list (array_value E) → Z → Z → Py W unit;
  np_stack : list (array_value E) → result (array_value E);
  np_save : string → array_value E → Py W unit;
  cv2_VideoWriter_fourcc : string → result Z;
  cv2_VideoWriter : string → Z → Z → nat * nat → Py W nat;
  cv2_cvtColor_RGB2BGR : array_value E → result (array_value E);
  VideoWriter_write : nat → array_value E → Py W unit;
  VideoWriter_release : nat → Py W unit;
  display_HTML : string → Py W unit;
  str_upper : string → string
}.
Arguments PIL_fromarray {E W}.
Arguments Image_save_bytes {E W}.
Arguments Image_save {E W}.
Arguments Image_save_all {E W}.
Arguments np_stack {E W}.
Arguments np_save {E W}.
Arguments cv2_VideoWriter_fourcc {E W}.
Arguments cv2_VideoWriter {E W}.
Arguments cv2_cvtColor_RGB2BGR {E W}.
Arguments VideoWriter_write {E W}.
Arguments VideoWriter_release {E W}.
Arguments display_HTML {E W}.
Arguments str_upper {E W}.

(** A call that does not touch the store, and a call on the world
    outside. *)
Definition pure_call {S X : Type} (r : result X) : Py S X := λ s, (r, s).

Definition world_call {E W X : Type} (m : Py W X) : Py (store E W) X :=
  λ s, let (r, w) := m (ext s) in (r, {| heap := heap s; ext := w |}).

(** Loops: [for x in xs] over an accumulator, and a list comprehension. *)
Fixpoint for_each {S A X : Type} (xs : list A) (acc : X)
    (body : X → A → Py S X) : Py S X :=
  match xs with
  | [] => mret acc
  | x :: xs => acc ← body acc x; for_each xs acc body
  end.

Fixpoint comprehension {S A B : Type} (f : A → Py S B) (xs : list A)
    : Py S (list B) :=
  match xs with
  | [] => mret []
  | x :: xs => y ← f x; ys ← comprehension f xs; mret (y :: ys)
  end.

Section Serialize.
Context {E W : Type} (np : NumPy E) (host : Host E W).

Definition _serialize_normalized_array (array : ndarray) (fmt : string)
    (quality : Z) : Py (store E W) string :=
  dtype ← get_dtype array;
  _ ← assert (issubdtype dtype unsignedinteger);
  largest ← np_max np array;
  limit ← match iinfo_max dtype with
          | Some m => mret m
          | None => raise (ValueError ["Invalid integer data type"])
          end;
  _ ← assert (less_equal np largest (of_int np limit));
  last_axis ← match last (shape array) with
              | Some n => mret n
              | None => raise (IndexError "tuple index out of range")
              end;
  _ ← assert (Nat.ltb 1 last_axis);
  value ← get_value array;
  image ← pure_call (PIL_fromarray host value);
  pure_call (Image_save_bytes host image fmt quality).

Definition serialize_array (array : ndarray) (domain : option (E * E))
    (fmt : string) (quality : Z) : Py (store E W) string :=
  normalized ← normalize_array np array domain;
  _serialize_normalized_array normalized fmt quality.

Definition _display_html (html_str : string) : Py (store E W) unit :=
  world_call (display_HTML host html_str).

Definition _image_url (array : ndarray) (fmt mode : string) (quality : Z)
    (domain : option (E * E)) : Py (store E W) string :=
  let supported_modes := "data" in
  _ ← (if negb (str_in mode supported_modes) then
         let message := "Unsupported mode '%s', should be one of '%s'." in
         raise (ValueError [message; mode; supported_modes])
       else mret tt);
  image_data ← serialize_array array domain fmt quality;
  base64_byte_string ← pure_call (decode_ascii (b64encode image_data));
  mret ("data:image/" +:+ str_upper host fmt +:+ ";base64,"
        +:+ base64_byte_string).
End Serialize.

(** ** Display *)

(** A title or label: [None], a string, or an integer. *)
Inductive pyobj : Type :=
| PyNone
| PyStr (s : string)
| PyZ (z : Z).

Definition truthy (o : pyobj) : bool :=
  match o with
  | PyNone => false
  | PyStr s => negb (String.eqb s EmptyString)
  | PyZ z => negb (Z.eqb z 0)
  end.

(** How [str.format] and an f-string print the object. *)
Definition str (o : pyobj) : string :=
  match o with
  | PyNone => "None"
  | PyStr s => s
  | PyZ z => pretty z
  end.

(** [l[idx]] on a list or tuple. *)
Definition getitem_list {A : Type} (l : list A) (idx : Z) : result A :=
  let i := if idx <? 0 then idx + Z.of_nat (length l) else idx in
  match (if i <? 0 then None else l !! Z.to_nat i) with
  | Some x => Return x
  | None => Raise (IndexError "list index out of range")
  end.

Definition range (n : Z) : list Z := seqZ 0 n.

(** [np.ceil(np.sqrt(n)).astype(int)] *)
Definition ceil_sqrt (n : Z) : Z :=
  let r := Z.sqrt n in if r * r =? n then r else r + 1.

(** The rows and columns [_create_image_table] loops over. *)
Definition table_shape (len : Z) (n_rows : option Z) : Z * Z :=
  let n_rows := match n_rows with
                | Some n => if n =? 0 then ceil_sqrt len else n
                | None => ceil_sqrt len
                end in
  let n_cols := len `div` n_rows in
  let n_rows := if n_rows * n_cols <? len then n_rows + 1 else n_rows in
  (n_rows, n_cols).

(** The cells the two loops of [_create_image_table] fill, row by row:
    [idx = i * n_cols + j] for [i] in [range(n_rows)] and [j] in
    [range(n_cols)], where [idx < len(images)]. *)
Definition table_rows (len : Z) (n_rows : option Z) : list (list Z) :=
  let '(n_rows, n_cols) := table_shape len n_rows in
  (λ i, List.filter (λ idx, idx <? len)
                    ((λ j, i * n_cols + j) <$> range n_cols))
    <$> range n_rows.

Definition table_header : string :=
"<style>
    td:hover {
        transition: transform 0.5s;
        transform: scale(1.1);
        }
    </style>
    <table style='border-collapse: collapse;'>
    ".

Section Display.
Context {E W : Type} (np : NumPy E) (host : Host E W).

Definition _image_html (array : ndarray) (width : option Z)
    (domain : option (E * E)) (fmt : string) (title : pyobj)
    : Py (store E W) string :=
  url ← _image_url np host array fmt "data" 90 domain;
  let style := "image-rendering: pixelated;" in
  let style := match width with
               | Some width => style +:+ "width: " +:+ pretty width +:+ "px;"
               | None => style
               end in
  let title_h := if truthy title then "<h4>" +:+ str title +:+ "</h4>"
                 else EmptyString in
  mret (title_h +:+ "<img src=" +:+ dquote +:+ url +:+ dquote
        +:+ " style=" +:+ dquote +:+ style +:+ dquote
        +:+ " alt=" +:+ str title +:+ ">").

Definition _create_image_table (images : list ndarray)
    (labels : option (list pyobj)) (domain : option (E * E))
    (width : option Z) (fmt : string) (n_rows : option Z)
    : Py (store E W) string :=
  images_html ←
    for_each (table_rows (Z.of_nat (length images)) n_rows) table_header
      (λ images_html row,
         let images_html := images_html +:+ "<tr>" in
         images_html ←
           for_each row images_html
             (λ images_html idx,
                image ← pure_call (getitem_list images idx);
                title ← match labels with
                        | Some labels => pure_call (getitem_list labels idx)
                        | None =>
                            raise (TypeError "'NoneType' object is not subscriptable")
                        end;
                image_html ← _image_html image width domain fmt title;
                mret (images_html +:+ "<td style='text-align: center;'>"
                      +:+ image_html +:+ "</td>"));
         mret (images_html +:+ "</tr>"));
  mret (images_html +:+ "</table>").

Definition show_images (images : list ndarray)
    (labels : option (list pyobj)) (domain : option (E * E))
    (width : option Z) (fmt : string) (n_rows : Z)
    : Py (store E W) unit :=
  let string := "<div style=" +:+ dquote
                +:+ "display: flex; flex-direction: row;" +:+ dquote
                +:+ ">" in
  let labels := match labels with
                | Some (l :: ls) => l :: ls
                | _ => PyZ <$> seqZ 1 (Z.of_nat (length images))
                end in
  images_html ← _create_image_table images (Some labels) domain width fmt
                                    (Some n_rows);
  let string := string +:+ "<div style=" +:+ dquote
                +:+ "margin-right:10px; margin-top: 4px;" +:+ dquote
                +:+ ">" +:+ newline
                +:+ "                        " +:+ images_html +:+ newline
                +:+ "                    </div>" in
  let string := string +:+ "</div>" in
  _display_html host string.
End Display.

(** ** Saving *)

Section Save.
Context {E W : Type} (np : NumPy E) (host : Host E W).

Definition numpy_image_to_video (images : list ndarray) (fps : Z)
    (filename : string) (domain : option (E * E)) : Py (store E W) unit :=
  images ← comprehension (λ image, normalize_array np image domain) images;
  first ← pure_call (getitem_list images 0);
  hw ← match shape first with
       | [h; w; _] => mret (h, w)
       | _ :: _ :: _ :: _ :: _ =>
           raise (ValueError ["too many values to unpack (expected 3)"])
       | short =>
           raise (ValueError ["not enough values to unpack (expected 3, got "
                              +:+ pretty (length short) +:+ ")"])
       end;
  fourcc ← pure_call (cv2_VideoWriter_fourcc host "mp4v");
  out ← world_call (cv2_VideoWriter host filename fourcc fps (hw.2, hw.1));
  _ ← for_each images tt
        (λ _ image,
           value ← get_value image;
           image ← pure_call (cv2_cvtColor_RGB2BGR host value);
           world_call (VideoWriter_write host out image));
  world_call (VideoWriter_release host out).

Definition numpy_image_to_gif (images : list ndarray) (filename : string)
    (domain : option (E * E)) : Py (store E W) unit :=
  images ← comprehension (λ image, normalize_array np image domain) images;
  images ← comprehension
             (λ image, value ← get_value image;
                       pure_call (PIL_fromarray host value)) images;
  first ← pure_call (getitem_list images 0);
  world_call (Image_save_all host first filename (drop 1 images) 100 0).

(** The branch of [save_images] for [save_type == "npy"]. *)
Definition save_npy (images : list ndarray) (save_path : string)
    : Py (store E W) unit :=
  values ← comprehension get_value images;
  images_array ← pure_call (np_stack host values);
  world_call (np_save host save_path images_array).

(** The branch of [save_images] for [save_type == "png"]. *)
Definition save_png (images : list ndarray) (save_path : string)
    : Py (store E W) unit :=
  let save_path := if str_in ".png" save_path
                   then str_replace ".png" EmptyString 0 save_path
                   else save_path in
  if Nat.eqb (length images) 1 then
    first ← pure_call (getitem_list images 0);
    value ← get_value first;
    image ← pure_call (PIL_fromarray host value);
    world_call (Image_save host image (save_path +:+ ".png"))
  else
    for_each (zip (range (Z.of_nat (length images))) images) tt
      (λ _ entry,
         value ← get_value entry.2;
         image ← pure_call (PIL_fromarray host value);
         world_call (Image_save host image
                       (save_path +:+ "_" +:+ pretty entry.1 +:+ ".png"))).

Definition unsupported_save_type (save_type : string) : exn :=
  ValueError ["Unsupported save type: " +:+ save_type
              +:+ ". Only 'npy', 'png', 'mp4' and 'gif' are supported."].

Definition save_images (images : list ndarray) (save_path : string)
    (domain : option (E * E)) (fps : Z) : Py (store E W) unit :=
  let save_type := last_segment save_path EmptyString in
  images ← comprehension (λ image, normalize_array np image domain) images;
  if String.eqb save_type "npy" then save_npy images save_path
  else if String.eqb save_type "png" then save_png images save_path
  else if String.eqb save_type "mp4" then
    numpy_image_to_video images fps save_path None
  else if String.eqb save_type "gif" then
    numpy_image_to_gif images save_path None
  else raise (unsupported_save_type save_type).
End Save.

(** ** An executable instance

    Scalars are Python integers or double-precision floats, so that the
    instance computes what NumPy computes on arrays of dtype float64 and
    of the integer dtypes (an array of dtype float32 or float16 is
    rounded by NumPy to its own precision, which this instance does not
    do); the world outside is the list of what was written and
    displayed. *)

Inductive scalar : Type :=
| SInt (z : Z)
| SFloat (f : spec_float).

Definition f64_of_Z (z : Z) : spec_float := binary_normalize 53 1024 z 0 false.

Definition to_float (x : scalar) : spec_float :=
  match x with SInt z => f64_of_Z z | SFloat f => f end.

(** The integer part of a float, towards zero. *)
Definition truncate (f : spec_float) : Z :=
  match f with
  | S754_finite s m e =>
      let v := if 0 <=? e then Z.pos m * 2 ^ e else Z.pos m `div` 2 ^ (- e) in
      if s then - v else v
  | _ => 0
  end.

Definition lift2 (fz : Z → Z → Z)
    (ff : spec_float → spec_float → spec_float) (x y : scalar) : scalar :=
  match x, y with
  | SInt a, SInt b => SInt (fz a b)
  | _, _ => SFloat (ff (to_float x) (to_float y))
  end.

Definition is_nan (f : spec_float) : bool :=
  match f with S754_nan => true | _ => false end.

Definition float_min (x y : spec_float) : spec_float :=
  if is_nan x then x else if is_nan y then y
  else if SFltb y x then y else x.

Definition float_max (x y : spec_float) : spec_float :=
  if is_nan x then x else if is_nan y then y
  else if SFltb x y then y else x.

Definition numpy : NumPy scalar := {|
  isnan x := match x with SInt _ => false | SFloat f => is_nan f end;
  less x y := SFltb (to_float x) (to_float y);
  greater x y := SFltb (to_float y) (to_float x);
  less_equal x y := SFleb (to_float x) (to_float y);
  not_equal x y := negb (SFeqb (to_float x) (to_float y));
  minimum := lift2 Z.min float_min;
  maximum := lift2 Z.max float_max;
  subtract := lift2 Z.sub (SFsub 53 1024);
  multiply := lift2 Z.mul (SFmul 53 1024);
  true_divide x y := SFloat (SFdiv 53 1024 (to_float x) (to_float y));
  of_int := SInt;
  to_int x := match x with SInt z => z | SFloat f => truncate f end;
  result_type d lo hi :=
    if issubdtype d inexact then d
    else match lo, hi with SInt _, SInt _ => d | _, _ => float64 end
|}.

Inductive effect : Type :=
| Wrote (path kind : string) (frames : nat)
| Opened (path : string)
| Frame (writer : nat)
| Released (writer : nat)
| Displayed (html : string).

Definition log (e : effect) : Py (list effect) unit :=
  λ w, (Return tt, w ++ [e]).

Definition upper_char (c : ascii) : ascii :=
  let n := Ascii.N_of_ascii c in
  if ((97 <=? n) && (n <=? 122))%N then Ascii.ascii_of_N (n - 32) else c.

Fixpoint upper (s : string) : string :=
  match s with
  | EmptyString => EmptyString
  | String c rest => String (upper_char c) (upper rest)
  end.

Definition lower_char (c : ascii) : ascii :=
  let n := Ascii.N_of_ascii c in
  if ((65 <=? n) && (n <=? 90))%N then Ascii.ascii_of_N (n + 32) else c.

Fixpoint lower (s : string) : string :=
  match s with
  | EmptyString => EmptyString
  | String c rest => String (lower_char c) (lower rest)
  end.

(** [os.path.basename(path)]: what follows the last '/'. *)
Fixpoint basename (path cur : string) : string :=
  match path with
  | EmptyString => cur
  | String c rest =>
      if Ascii.eqb c "/"%char then basename rest EmptyString
      else basename rest (cur +:+ String c EmptyString)
  end.

(** [os.path.splitext(name)[1]] for a name without '/': from the last dot
    on, when a character other than a dot comes before that dot, and
    empty otherwise; [seen] says that such a character was read, [ext]
    is what was read from the last dot that counts. *)
Fixpoint extension (name : string) (seen : bool) (ext : string) : string :=
  match name with
  | EmptyString => ext
  | String c rest =>
      if Ascii.eqb c "."%char then
        extension rest seen (if seen then "." else ext)
      else
        extension rest true
          (match ext with
           | EmptyString => EmptyString
           | _ => ext +:+ String c EmptyString
           end)
  end.

(** The extensions by which [Image.save] finds the format to write, of
    the formats that Pillow registers by default, as far as they are
    common. *)
Definition pillow_extensions : list string :=
  [".png"; ".apng"; ".jpg"; ".jpeg"; ".jpe"; ".jfif"; ".gif"; ".bmp"; ".dib";
   ".tif"; ".tiff"; ".webp"; ".ppm"; ".pgm"; ".pbm"; ".pnm"; ".ico"; ".tga";
   ".pcx"; ".eps"; ".pdf"].

(** [Image.save(path)] takes the format from the extension of [path]
    and raises where it knows none. *)
Definition known_format (path : string) : result unit :=
  let ext := lower (extension (basename path EmptyString) false EmptyString) in
  if existsb (String.eqb ext) pillow_extensions then Return tt
  else Raise (ValueError ["unknown file extension: " +:+ ext]).

(** The bytes of an image, for any format: one byte per element. *)
Definition raw_bytes (v : array_value scalar) : string :=
  String.string_of_list_ascii
    ((λ x, Ascii.ascii_of_N (Z.to_N (to_int numpy x `mod` 256)))
       <$> val_data v).

Definition reference_host : Host scalar (list effect) := {|
  PIL_fromarray v := Return v;
  Image_save_bytes v fmt quality := Return (raw_bytes v);
  Image_save v path :=
    match known_format path with
    | Return _ => log (Wrote path "image" 1)
    | Raise e => raise e
    end;
  Image_save_all v path more duration loop :=
    match known_format path with
    | Return _ => log (Wrote path "animation" (S (length more)))
    | Raise e => raise e
    end;
  np_stack vs :=
    match vs with
    | [] => Raise (ValueError ["need at least one array to stack"])
    | v :: _ =>
        Return {| val_dtype := val_dtype v;
                  val_shape := length vs :: val_shape v;
                  val_data := concat (val_data <$> vs) |}
    end;
  np_save path v := log (Wrote path "array" 1);
  cv2_VideoWriter_fourcc code := Return 0;
  cv2_VideoWriter path fourcc fps size :=
    λ w, (Return (length w), w ++ [Opened path]);
  cv2_cvtColor_RGB2BGR v := Return v;
  VideoWriter_write out v := log (Frame out);
  VideoWriter_release out := log (Released out);
  display_HTML html := log (Displayed html);
  str_upper := upper
|}.

(** A store holding the arrays [bufs] and a world where nothing has
    happened yet. *)
Definition fresh_store (bufs : list (buffer scalar))
    : store scalar (list effect) :=
  {| heap := bufs; ext := [] |}.

(** A 2x2 gray image of doubles, [[0, 1], [2, 4]], with a leading axis of
    length one; an array without elements; an array of booleans. *)
Definition gray : buffer scalar :=
  {| buf_dtype := float64;
     buf_data := SFloat <$> [f64_of_Z 0; f64_of_Z 1; f64_of_Z 2; f64_of_Z 4] |}.

Definition gray_image : ndarray := {| base := 0; shape := [1; 2; 2]%nat |}.

Definition empty : buffer scalar := {| buf_dtype := float64; buf_data := [] |}.

Definition empty_array : ndarray := {| base := 0; shape := [0]%nat |}.

Definition mask : buffer scalar :=
  {| buf_dtype := bool_; buf_data := [SInt 1; SInt 0; SInt 0; SInt 1] |}.

(** What the notebook displayed last. *)
Definition last_displayed (w : list effect) : string :=
  match last w with
  | Some (Displayed html) => html
  | _ => EmptyString
  end.

(** The number of times [needle] occurs in [s]. *)
Fixpoint occurrences (needle s : string) : nat :=
  match s with
  | EmptyString => O
  | String _ rest =>
      (if String.prefix needle s then 1 else 0)%nat + occurrences needle rest
  end.

End TorchlightIO.

(** ** What a call leaves of the store *)

Module TorchlightIOMore.
Import TorchlightIO.

(** [m] only reads: whatever it returns or raises, the store is the one
    it started from. *)
Definition reads {S X : Type} (m : Py S X) : Prop :=
  ∀ s, (m s).2 = s.

(** [m] may allocate arrays, but every buffer it found is as it was, and
    so is the world outside: nothing was written or displayed. *)
Definition preserves {E W X : Type} (m : Py (store E W) X) : Prop :=
  ∀ s, unchanged (heap s) (heap (m s).2) ∧ ext (m s).2 = ext s.

(** ** What [normalize_array] computes *)

(** The shape [np.squeeze] gives. *)
Definition squeezed (sh : list nat) : list nat :=
  List.filter (λ n, negb (Nat.eqb n 1)) sh.

(** The store once [np.array] has copied the buffer [buf]. *)
Definition copied {E W : Type} (s : store E W) (buf : buffer E)
    : store E W :=
  {| heap := heap s ++ [buf]; ext := ext s |}.

(** What the last line of [normalize_array] makes of an element:
    [clip(0, 255)], then the cast to uint8. *)
Definition clip_to_uint8 {E : Type} (np : NumPy E) (v : E) : E :=
  of_int np
    (to_int np (minimum np (maximum np v (of_int np 0)) (of_int np 255))
     `mod` 256).

(** What the in-place shift and scaling of [normalize_array] make of an
    element of an inexact array, for the domain [d]. *)
Definition rescaled {E : Type} (np : NumPy E) (d : E * E) (x : E) : E :=
  let x := if not_equal np d.1 (of_int np 0) then subtract np x d.1 else x in
  if not_equal np d.1 d.2 then
    let scalar := true_divide np (of_int np 255) (subtract np d.2 d.1) in
    if not_equal np scalar (of_int np 1) then multiply np x scalar else x
  else x.

(** What [normalize_array] makes of one element [x] of an array of dtype
    [dt] whose least and greatest elements are [low] and [high]. *)
Definition normalized_element {E : Type} (np : NumPy E) (dt : dtype)
    (low high : E) (domain : option (E * E)) (x : E) : E :=
  let d := match domain with None => (low, high) | Some d => d end in
  let clip := less np low d.1 || greater np high d.2 in
  let x := if clip then minimum np (maximum np x d.1) d.2 else x in
  let dt := if clip then result_type np dt d.1 d.2 else dt in
  clip_to_uint8 np (if issubdtype dt inexact then rescaled np d x else x).

(** An array of four 64-bit integers, [[0, 1, 300, -5]]. *)
Definition counts : buffer scalar :=
  {| buf_dtype := int64; buf_data := [SInt 0; SInt 1; SInt 300; SInt (-5)] |}.

Definition counts_array : ndarray := {| base := 0; shape := [4]%nat |}.

(** An image of one pixel, [[7.0]]. *)
Definition pixel : buffer scalar :=
  {| buf_dtype := float64; buf_data := [SFloat (f64_of_Z 7)] |}.

Definition pixel_image : ndarray := {| base := 0; shape := [1; 1]%nat |}.

(** A 2x2 image of bytes, as [normalize_array] returns it. *)
Definition bytes : buffer scalar :=
  {| buf_dtype := uint8; buf_data := SInt <$> [0; 63; 127; 255] |}.

Definition bytes_image : ndarray := {| base := 0; shape := [2; 2]%nat |}.

End TorchlightIOMore.

(** * Theorems: the monad *)

Lemma bind_ext {W X Y} (m m' : Py W X) (f f' : X → Py W Y) (w : W) :
  m w = m' w → (∀ x w', f x w' = f' x w') → (m ≫= f) w = (m' ≫= f') w.
Proof.
  intros Hm Hf. unfold mbind, Py_bind. rewrite Hm.
  destruct (m' w) as [[x|e] w']; [apply Hf|reflexivity].
Qed.

Lemma bind_ret {W X Y} (x : X) (f : X → Py W Y) (w : W) :
  (mret x ≫= f) w = f x w.
Proof. reflexivity. Qed.

Lemma bind_run {W X Y} (m : Py W X) (f : X → Py W Y) (w w' : W)
    (r : result X) :
  m w = (r, w') →
  (m ≫= f) w = match r with
               | Return x => f x w'
               | Raise e => (Raise e, w')
               end.
Proof. intros Hm. unfold mbind, Py_bind. rewrite Hm. reflexivity. Qed.


(** * Theorems: the InceptionV1 graph *)

Module InceptionV1Facts.
Import InceptionV1.

(** The recorded run, evaluated once, for either choice of activation. *)
Ltac evaluate_run b :=
  destruct b;
  match goal with
  | |- context [recorded ?b] =>
      let tr := fresh "tr" in
      set (tr := recorded b) in *; vm_compute in tr
  end.



(** *** The two activations *)

Lemma setattrs_fmap (f : Module → Module) (self : gmap string Module)
    (assignments : list (string * Module)) :
  f <$> setattrs self assignments =
  setattrs (f <$> self) ((λ a, (a.1, f a.2)) <$> assignments).
Proof.
  revert self. induction assignments as [|a l IH]; intros self; simpl.
  - reflexivity.
  - rewrite IH, fmap_insert. reflexivity.
Qed.

Lemma init_redirect : init true = redirect <$> init false.
Proof.
  unfold init, add_layers. rewrite !setattrs_fmap, fmap_empty.
  f_equal.
Qed.

Section Activations.
Context {T W : Type} (fw : Framework T W).
Hypothesis relu_is_clamp :
  ∀ t w, F_relu fw t w = Tensor_clamp fw t (Some (PyInt 0)) None w.

Lemma RedirectedReLU_apply_clamp (tensor : T) (w : W) :
  RedirectedReLU_apply fw tensor w =
  Tensor_clamp fw tensor (Some (PyInt 0)) None w.
Proof.
  unfold RedirectedReLU_apply, RedirectedReLU_forward, mbind, Py_bind, mret,
    Py_ret.
  destruct (Tensor_clamp fw tensor (Some (PyInt 0)) None w) as [[x|e] w'];
    reflexivity.
Qed.

Lemma layer_forward_redirect (tensor : T) (w : W) :
  RedirectedReluLayer_forward fw tensor w = ReluLayer_forward fw tensor w.
Proof.
  unfold RedirectedReluLayer_forward, ReluLayer_forward.
  rewrite RedirectedReLU_apply_clamp. symmetry. apply relu_is_clamp.
Qed.

Lemma call_redirect (name : string) (tensor : T) (w : W) :
  call fw (init true) name tensor w = call fw (init false) name tensor w.
Proof.
  unfold call. rewrite init_redirect, lookup_fmap.
  destruct (init false !! name) as [m|]; [|reflexivity].
  destruct m; simpl; try reflexivity.
  apply bind_ext; [apply layer_forward_redirect|reflexivity].
Qed.

Lemma call_pool_redirect name tensor kernel_size stride padding ceil_mode w :
  call_pool fw (init true) name tensor kernel_size stride padding ceil_mode w
  = call_pool fw (init false) name tensor kernel_size stride padding
      ceil_mode w.
Proof.
  unfold call_pool. rewrite init_redirect, lookup_fmap.
  destruct (init false !! name) as [m|]; [|reflexivity].
  destruct m; reflexivity.
Qed.

Lemma call_cat_redirect name tensor_list dim w :
  call_cat fw (init true) name tensor_list dim w =
  call_cat fw (init false) name tensor_list dim w.
Proof.
  unfold call_cat. rewrite init_redirect, lookup_fmap.
  destruct (init false !! name) as [m|]; [|reflexivity].
  destruct m; reflexivity.
Qed.

(** [forward] reads [self] through its module calls only. *)
Lemma forward_ext (self1 self2 : gmap string Module) :
  (∀ name t w, call fw self1 name t w = call fw self2 name t w) →
  (∀ name t k s p c w,
     call_pool fw self1 name t k s p c w =
     call_pool fw self2 name t k s p c w) →
  (∀ name ts dim w,
     call_cat fw self1 name ts dim w = call_cat fw self2 name ts dim w) →
  ∀ x w, forward fw self1 x w = forward fw self2 x w.
Proof.
  intros Hcall Hpool Hcat x w. unfold forward.
  repeat (apply bind_ext;
          [lazymatch goal with
           | |- call _ _ _ _ _ = _ => apply Hcall
           | |- call_pool _ _ _ _ _ _ _ _ _ = _ => apply Hpool
           | |- call_cat _ _ _ _ _ _ = _ => apply Hcat
           | |- _ => reflexivity
           end
          |intros ? ?; cbv beta]).
  reflexivity.
Qed.

Lemma forward_redirect (x : T) (w : W) :
  forward fw (init true) x w = forward fw (init false) x w.
Proof.
  apply forward_ext; intros.
  - apply call_redirect.
  - apply call_pool_redirect.
  - apply call_cat_redirect.
Qed.
End Activations.

(** C2: the redirected activation changes the forward pass in nothing.
    In every framework whose ReLU is clamp(min=0), [RedirectedReLU.forward]
    saves its input and returns clamp(min=0) of it, which is what
    [ReluLayer] returns, and the network built with redirected_ReLU=True
    computes, on every input and from every store, what the network built
    with redirected_ReLU=False computes. *)
Theorem redirected_relu_same_forward {T W : Type} (fw : Framework T W)
    (relu_is_clamp :
       ∀ t w, F_relu fw t w = Tensor_clamp fw t (Some (PyInt 0)) None w) :
  (∀ ctx x w,
     RedirectedReLU_forward fw ctx x w =
     (Tensor_clamp fw x (Some (PyInt 0)) None ≫= λ out, mret ([x], out)) w) ∧
  (∀ x w, RedirectedReluLayer_forward fw x w = ReluLayer_forward fw x w) ∧
  (∀ x w, forward fw (init true) x w = forward fw (init false) x w).
Proof.
  split; [reflexivity|].
  split; [apply layer_forward_redirect, relu_is_clamp|].
  apply forward_redirect, relu_is_clamp.
Qed.

Lemma redirected_relu_same_forward_witness :
  (∀ x w, RedirectedReluLayer_forward elementwise x w =
          ReluLayer_forward elementwise x w) ∧
  forward elementwise (init true) [-3; 0; 5] tt =
  forward elementwise (init false) [-3; 0; 5] tt.
Proof.
  pose proof (redirected_relu_same_forward elementwise
                (λ t w, eq_refl)) as (_ & Hlayer & Hforward).
  split; [exact Hlayer|apply Hforward].
Defined.

(** *** The backward pass *)

Section BackwardFacts.
Context {E : Type} `{Scalar E} {W : Type}.

Lemma select_length (t : list E) (mask : list bool) :
  (length (select t mask) ≤ length t)%nat.
Proof.
  revert mask. induction t as [|v t IH]; intros [|[] mask]; simpl;
    try lia; specialize (IH mask); lia.
Qed.

(** Writing [f] of the selected elements back under the same mask
    applies [f] under the mask. *)
Lemma scatter_select (f : E → E) (t : list E) (mask : list bool) :
  length mask = length t →
  scatter t mask (f <$> select t mask) =
  zip_with (λ (b : bool) v, if b then f v else v) mask t.
Proof.
  revert mask. induction t as [|v t IH]; intros [|b mask] Hlen;
    simpl in *; try discriminate; [reflexivity|].
  destruct b; simpl; rewrite IH by lia; reflexivity.
Qed.

Lemma backward_zip (input_tensor grad_output : list E) (w : W) :
  length input_tensor = length grad_output →
  RedirectedReLU_backward [input_tensor] grad_output w =
  (Return (zip_with (λ x g, if scalar_lt x (of_pynum (PyInt 0))
                            then scalar_mul g (of_pynum (PyFloat 1 (-1)))
                            else g) input_tensor grad_output), w).
Proof.
  intros Hlen.
  unfold RedirectedReLU_backward, getitem, setitem, clone, mul_scalar,
    lt_scalar.
  assert (Hmask : length ((λ v, scalar_lt v (of_pynum (PyInt 0))) <$>
                           input_tensor) = length grad_output)
    by (rewrite length_fmap; exact Hlen).
  cbn [mbind Py_bind]. unfold mbind, Py_bind, mret, Py_ret.
  rewrite Hmask, Nat.eqb_refl. cbn.
  rewrite length_fmap, Nat.eqb_refl. cbn.
  rewrite scatter_select by exact Hmask.
  rewrite zip_with_fmap_l. reflexivity.
Qed.
End BackwardFacts.

(** C3, as the code has it: for a saved input and an incoming gradient of
    one shape, [RedirectedReLU.backward] returns a gradient of that shape
    whose element is the incoming one multiplied by 1e-1 exactly where the
    saved input is strictly negative, and the incoming one unchanged at
    every other element, also where the input is zero. *)
Theorem backward_scales_negative_inputs {E : Type} `{Scalar E} {W : Type}
    (input_tensor grad_output : list E) (w : W) :
  length input_tensor = length grad_output →
  ∃ grad_input : list E,
    RedirectedReLU_backward [input_tensor] grad_output w
      = (Return grad_input, w) ∧
    length grad_input = length grad_output ∧
    ∀ (i : nat) (x g : E),
      input_tensor !! i = Some x → grad_output !! i = Some g →
      grad_input !! i =
        Some (if scalar_lt x (of_pynum (PyInt 0))
              then scalar_mul g (of_pynum (PyFloat 1 (-1)))
              else g).
Proof.
  intros Hlen. eexists. split; [apply backward_zip, Hlen|]. split.
  - rewrite length_zip_with. lia.
  - intros i x g Hx Hg. rewrite lookup_zip_with, Hx, Hg. reflexivity.
Qed.

Lemma backward_scales_negative_inputs_witness :
  ∃ grad_input : list spec_float,
    RedirectedReLU_backward
      [[f32_of_Z (-3); f32_of_Z 0; f32_of_Z 2]]
      [f32_of_Z 1; f32_of_Z 1; f32_of_Z 1] tt = (Return grad_input, tt) ∧
    length grad_input = 3%nat ∧
    grad_input !! 0%nat = Some (S754_finite false 13421773 (-27)) ∧
    grad_input !! 1%nat = Some (f32_of_Z 1) ∧
    grad_input !! 2%nat = Some (f32_of_Z 1).
Proof.
  destruct (backward_scales_negative_inputs
              [f32_of_Z (-3); f32_of_Z 0; f32_of_Z 2]
              [f32_of_Z 1; f32_of_Z 1; f32_of_Z 1] tt eq_refl)
    as (grad_input & Hrun & Hlen & Helt).
  exists grad_input. split; [exact Hrun|]. split; [exact Hlen|].
  split; [|split].
  - apply (Helt 0%nat _ _ eq_refl eq_refl).
  - apply (Helt 1%nat _ _ eq_refl eq_refl).
  - apply (Helt 2%nat _ _ eq_refl eq_refl).
Defined.

(** C3, as stated, fails at a saved input that is exactly zero: the
    gradient of the standard ReLU vanishes there, yet [backward] returns
    the incoming gradient 1.0 and not 1.0 multiplied by 1e-1. *)
Lemma backward_zero_input_not_scaled :
  let zero := f32_of_Z 0 in
  let one := f32_of_Z 1 in
  relu_gradient_vanishes zero = true ∧
  RedirectedReLU_backward [[zero]] [one] tt = (Return [one], tt) ∧
  one ≠ scalar_mul one (of_pynum (PyFloat 1 (-1))).
Proof. vm_compute. repeat split; discriminate. Qed.

(** C4: every mixed block's concatenated output has the sum of its four
    branches' out_channels as channel count, namely 256, 480, 508, 512,
    512, 528, 832, 832 and 1024; the convolutions that consume the output
    of a block are the four entry convolutions of the next block, each
    declared with exactly that in_channels; and the output of mixed5b is
    consumed by the linear layer softmax2_pre_activation_matmul, declared
    with in_features 1024. *)
Theorem mixed_blocks_channel_consistent (redirected_ReLU : bool) :
  let tr := recorded redirected_ReLU in
  let self := init redirected_ReLU in
  (λ c, (c.1.1, out_dim1 <$> node_of tr c.2)) <$> cat_calls tr =
    [("mixed3a", Some 256); ("mixed3b", Some 480); ("mixed4a", Some 508);
     ("mixed4b", Some 512); ("mixed4c", Some 512); ("mixed4d", Some 528);
     ("mixed4e", Some 832); ("mixed5a", Some 832); ("mixed5b", Some 1024)] ∧
  (λ c, (c.1.1, fst <$> consumers tr c.2)) <$> cat_calls tr =
    [("mixed3a", entry_convs "mixed3b"); ("mixed3b", entry_convs "mixed4a");
     ("mixed4a", entry_convs "mixed4b"); ("mixed4b", entry_convs "mixed4c");
     ("mixed4c", entry_convs "mixed4d"); ("mixed4d", entry_convs "mixed4e");
     ("mixed4e", entry_convs "mixed5a"); ("mixed5a", entry_convs "mixed5b");
     ("mixed5b", ["softmax2_pre_activation_matmul"])] ∧
  self !! "softmax2_pre_activation_matmul" = Some (Linear 1024 1008 true) ∧
  Forall (channel_consistent self tr) (cat_calls tr).
Proof.
  intros tr self. subst tr self.
  evaluate_run redirected_ReLU.
  all: split; [vm_compute; reflexivity|].
  all: split; [vm_compute; reflexivity|].
  all: split; [vm_compute; reflexivity|].
  all: let l := eval vm_compute in (cat_calls tr) in
       change (cat_calls tr) with l.
  all: repeat (constructor;
         [eexists _, _; split; [vm_compute; reflexivity|];
          split; [reflexivity|]; split; [vm_compute; reflexivity|];
          split; [vm_compute; discriminate|];
          match goal with
          | |- Forall _ ?l => let l' := eval vm_compute in l in change l with l'
          end;
          repeat (constructor; [split; vm_compute; reflexivity|]);
          constructor|]).
  all: constructor.
Qed.

(** C5: local-response normalisation runs exactly twice in the forward
    pass, on the output of maxpool0, which is the first max-pool, and on
    the output of conv2d2, both times with size 9, alpha 9.99999974738e-05,
    beta 0.5 and k 1; no other kernel call of the pass is a local-response
    normalisation. *)
Theorem local_response_norm_twice (redirected_ReLU : bool) :
  let tr := recorded redirected_ReLU in
  let lrn :=
    KLocalResponseNorm 9 (PyFloat 999999974738 (-16)) (PyFloat 5 (-1))
                       (PyInt 1) in
  lrn_calls tr = [(lrn, Some "maxpool0"); (lrn, Some "conv2d2")] ∧
  head (maxpool_calls tr) = Some "maxpool0" ∧
  length (List.filter (λ n, is_lrn (kern n)) (nodes tr)) = 2%nat.
Proof.
  intros tr lrn. subst tr lrn.
  destruct redirected_ReLU; vm_compute; repeat split; reflexivity.
Qed.

End InceptionV1Facts.

(** * Theorems: the image I/O helpers *)

Module TorchlightIOFacts.
Import TorchlightIO.

(** ** A small program logic for [Py] *)

Section Logic.
Context {S : Type}.
Implicit Types (P R : S → Prop).

Lemma triple_ret {X} P (Q : X → S → Prop) R (x : X) :
  (∀ s, P s → Q x s) → triple P (mret x) Q R.
Proof. intros HQ s HP. apply HQ, HP. Qed.

Lemma triple_raise {X} P (Q : X → S → Prop) R (e : exn) :
  (∀ s, P s → R s) → triple P (raise e) Q R.
Proof. intros HR s HP. apply HR, HP. Qed.

Lemma triple_bind {X Y} P (m : Py S X) (f : X → Py S Y)
    (Q : X → S → Prop) (Q' : Y → S → Prop) R :
  triple P m Q R → (∀ x, triple (Q x) (f x) Q' R) →
  triple P (m ≫= f) Q' R.
Proof.
  intros Hm Hf s HP. specialize (Hm s HP).
  unfold mbind, Py_bind. destruct (m s) as [[x|e] s'].
  - apply Hf, Hm.
  - exact Hm.
Qed.

Lemma triple_weaken {X} P P' (m : Py S X) (Q Q' : X → S → Prop) R R' :
  triple P' m Q' R' →
  (∀ s, P s → P' s) → (∀ x s, Q' x s → Q x s) → (∀ s, R' s → R s) →
  triple P m Q R.
Proof.
  intros Hm HP HQ HR s Hs. specialize (Hm s (HP s Hs)).
  destruct (m s) as [[x|e] s']; auto.
Qed.

Lemma triple_pre {X} P P' (m : Py S X) (Q : X → S → Prop) R :
  triple P' m Q R → (∀ s, P s → P' s) → triple P m Q R.
Proof. intros Hm HP. eapply triple_weaken; eauto. Qed.

Lemma triple_post {X} P (m : Py S X) (Q Q' : X → S → Prop) R :
  triple P m Q' R → (∀ x s, Q' x s → Q x s) → triple P m Q R.
Proof. intros Hm HQ. eapply triple_weaken; eauto. Qed.

Lemma triple_bind_ret {X Y} P (x : X) (f : X → Py S Y)
    (Q : Y → S → Prop) R :
  triple P (f x) Q R → triple P (mret x ≫= f) Q R.
Proof. intros Hf s HP. apply (Hf s HP). Qed.

Lemma triple_exists {X A} (P : A → S → Prop) (m : Py S X)
    (Q : X → S → Prop) R :
  (∀ a, triple (P a) m Q R) → triple (λ s, ∃ a, P a s) m Q R.
Proof. intros Hm s [a HP]. apply (Hm a), HP. Qed.

(** A pure fact of the precondition may be used in the proof. *)
Lemma triple_pure {X} (φ : Prop) P (m : Py S X) (Q : X → S → Prop) R :
  (∀ s, P s → φ) → (φ → triple P m Q R) → triple P m Q R.
Proof. intros Hφ Hm s HP. apply (Hm (Hφ s HP)), HP. Qed.

Lemma triple_assert P R (b : bool) :
  (b = false → ∀ s, P s → R s) →
  triple P (assert b) (λ _ s, P s ∧ b = true) R.
Proof.
  intros HR s HP. destruct b; simpl.
  - split; [exact HP|reflexivity].
  - apply HR; [reflexivity|exact HP].
Qed.
End Logic.

(** ** [normalize_array] *)

Section Normalize.
Context {E W : Type} (np : NumPy E).
Context (h0 : list (buffer E)) (w0 : W).

Local Abbreviation kept := (TorchlightIO.kept h0 w0) (only parsing).
Local Abbreviation owns := (TorchlightIO.owns h0 w0) (only parsing).
Local Abbreviation initial := (TorchlightIO.initial h0 w0) (only parsing).

Lemma kept_unchanged (s : store E W) : kept s → unchanged h0 (heap s).
Proof.
  intros [_ [extra ->]] l b Hl. apply lookup_app_l_Some, Hl.
Qed.

Lemma get_buffer_spec (P : store E W → Prop) (a : ndarray) (buf : buffer E)
    (R : store E W → Prop) :
  (∀ s, P s → heap s !! base a = Some buf) →
  triple P (get_buffer a) (λ b s, P s ∧ b = buf) R.
Proof.
  intros Hbuf s HP. unfold get_buffer. rewrite (Hbuf s HP). auto.
Qed.

Lemma allocate_spec (b : buffer E) (sh : list nat) R :
  triple kept (allocate b sh) (λ a s, owns a b s ∧ shape a = sh) R.
Proof.
  intros s [Hext [extra Hheap]]. unfold allocate, owns, kept; simpl.
  repeat split; auto.
  - exists (extra ++ [b]). rewrite Hheap, app_assoc. reflexivity.
  - rewrite Hheap, length_app. lia.
  - apply list_lookup_middle. reflexivity.
Qed.

Lemma set_buffer_spec (a : ndarray) (buf b : buffer E) R :
  triple (owns a buf) (set_buffer (base a) b) (λ _, owns a b) R.
Proof.
  intros s [[Hext [extra Hheap]] [Hfresh Hbuf]].
  unfold set_buffer, owns, kept; simpl.
  apply lookup_lt_Some in Hbuf as Hlt.
  repeat split; auto.
  - rewrite Hheap, insert_app_r_alt by exact Hfresh. eauto.
  - apply list_lookup_insert_eq, Hlt.
Qed.

Lemma update_in_place_spec (a : ndarray) (buf : buffer E) (f : E → E) R :
  triple (owns a buf) (update_in_place a f)
         (λ _, owns a {| buf_dtype := buf_dtype buf;
                         buf_data := f <$> buf_data buf |}) R.
Proof.
  unfold update_in_place. eapply triple_bind.
  - apply (get_buffer_spec _ a buf). intros s Hs. apply Hs.
  - intros b. apply (triple_pure (b = buf)); [intros s Hs; apply Hs|].
    intros ->. eapply triple_pre; [apply set_buffer_spec|].
    intros s Hs. apply Hs.
Qed.

Lemma new_array_spec (a : ndarray) (buf : buffer E)
    (g : buffer E → buffer E) R :
  triple (owns a buf) (b ← get_buffer a; allocate (g b) (shape a))
         (λ a', owns a' (g buf)) R.
Proof.
  eapply triple_bind.
  - apply (get_buffer_spec _ a buf). intros s Hs. apply Hs.
  - intros b. apply (triple_pure (b = buf)); [intros s Hs; apply Hs|].
    intros ->. eapply triple_post; [eapply triple_pre|].
    + apply allocate_spec.
    + intros s Hs. apply Hs.
    + intros a' s Hs. apply Hs.
Qed.

Lemma read_spec {X} (a : ndarray) (buf : buffer E) (g : buffer E → X) R :
  triple (owns a buf) (b ← get_buffer a; mret (g b))
         (λ x s, owns a buf s ∧ x = g buf) R.
Proof.
  eapply triple_bind.
  - apply (get_buffer_spec _ a buf). intros s Hs. apply Hs.
  - intros b. apply (triple_pure (b = buf)); [intros s Hs; apply Hs|].
    intros ->. apply triple_ret. intros s Hs. split; [apply Hs|reflexivity].
Qed.

Lemma reduce_spec (f : E → E → E) (a : ndarray) (buf : buffer E)
    (name : string) (R : store E W → Prop) :
  (buf_data buf = [] → ∀ s, owns a buf s → R s) →
  triple (owns a buf) (reduce f a name) (λ _, owns a buf) R.
Proof.
  intros HR. unfold reduce. eapply triple_bind.
  - apply (get_buffer_spec _ a buf). intros s Hs. apply Hs.
  - intros b. apply (triple_pure (b = buf)); [intros s Hs; apply Hs|].
    intros ->. destruct (buf_data buf) as [|v vs].
    + apply triple_raise. intros s Hs. apply HR; [reflexivity|apply Hs].
    + apply triple_ret. intros s Hs. apply Hs.
Qed.

Context (a0 : ndarray) (domain0 : option (E * E)).

Local Abbreviation refused := (TorchlightIO.refused np h0 w0 a0) (only parsing).

Lemma initial_kept (s : store E W) : initial s → kept s.
Proof. intros [Hh Hw]. split; [exact Hw|]. exists []. rewrite app_nil_r. exact Hh. Qed.

Lemma np_array_spec :
  triple initial (np_array a0)
         (λ a s, ∃ buf, h0 !! base a0 = Some buf ∧ owns a buf s ∧
                        shape a = shape a0) refused.
Proof.
  unfold np_array. destruct (h0 !! base a0) as [buf|] eqn:Hbuf.
  - eapply triple_bind.
    + apply (get_buffer_spec _ a0 buf). intros s [-> _]. exact Hbuf.
    + intros b. apply (triple_pure (b = buf)); [intros s Hs; apply Hs|].
      intros ->. eapply triple_post; [eapply triple_pre|].
      * apply allocate_spec.
      * intros s [Hs _]. apply initial_kept, Hs.
      * intros a s [Hown Hshape]. eauto.
  - intros s Hs. unfold mbind, Py_bind, get_buffer.
    destruct Hs as [Hh Hw]. rewrite Hh, Hbuf. split.
    + apply initial_kept. split; assumption.
    + intros (buf & Hsome & _). congruence.
Qed.

(** The part of [normalize_array] after the array is clipped to the
    domain: rescaling in place, clipping to the range of uint8 and the
    cast. *)
Lemma rescale_spec (array : ndarray) (domain : E * E) R :
  triple (λ s, ∃ buf, owns array buf s)
    (dt ← get_dtype array;
     _ ← (if issubdtype dt inexact then
            let offset := domain.1 in
            _ ← (if not_equal np offset (of_int np 0)
                 then isub np array offset else mret tt);
            if not_equal np domain.1 domain.2 then
              let scalar :=
                true_divide np (of_int np 255)
                            (subtract np domain.2 domain.1) in
              if not_equal np scalar (of_int np 1) then imul np array scalar
              else mret tt
            else mret tt
          else mret tt);
     clipped ← ndarray_clip np array (of_int np 0) (of_int np 255);
     astype_uint8 np clipped)
    (λ out s, kept s ∧ uint8_image np (heap s) out) R.
Proof.
  apply triple_exists. intros buf.
  eapply triple_bind; [apply read_spec|]. intros dt.
  eapply triple_bind with (Q := λ _ s, ∃ buf', owns array buf' s).
  - eapply triple_pre with (P' := owns array buf);
      [|intros s Hs; apply Hs].
    destruct (issubdtype dt inexact); [|apply triple_ret; intros s Hs; eexists; exact Hs].
    eapply triple_bind with (Q := λ _ s, ∃ buf', owns array buf' s).
    + destruct (not_equal np domain.1 (of_int np 0)).
      * eapply triple_post; [apply update_in_place_spec|].
        intros ? s Hs; eexists; exact Hs.
      * apply triple_ret. intros s Hs; eexists; exact Hs.
    + intros _. apply triple_exists. intros buf1.
      destruct (not_equal np domain.1 domain.2); [|apply triple_ret; intros s Hs; eexists; exact Hs].
      cbv zeta.
      destruct (not_equal np _ (of_int np 1)); [|apply triple_ret; intros s Hs; eexists; exact Hs].
      eapply triple_post; [apply update_in_place_spec|].
        intros ? s Hs; eexists; exact Hs.
  - intros _. apply triple_exists. intros buf1.
    eapply triple_bind; [apply new_array_spec|]. intros clipped.
    eapply triple_post; [apply new_array_spec|].
    intros out s (Hkept & _ & Hout). split; [exact Hkept|].
    eexists (_ <$> _). cbn in Hout. rewrite <- list_fmap_compose.
    split; [exact Hout|].
    apply Forall_fmap, Forall_forall. intros v _. cbn.
    pose proof (Z.mod_pos_bound (to_int np v) 256). lia.
Qed.

Lemma normalize_array_spec :
  triple initial (normalize_array np a0 domain0)
         (λ out s, kept s ∧ uint8_image np (heap s) out) refused.
Proof.
  unfold normalize_array.
  eapply triple_bind; [apply np_array_spec|]. intros a1.
  apply triple_exists. intros buf.
  apply (triple_pure (h0 !! base a0 = Some buf ∧ shape a1 = shape a0));
    [intros s Hs; split; apply Hs|]. intros [Hbuf Hshape].
  eapply triple_pre with (P' := owns a1 buf); [|intros s Hs; apply Hs].
  assert (Hrefuse : ¬ accepted np h0 a0 → ∀ s, owns a1 buf s → refused s)
    by (intros Hno s Hs; split; [apply Hs|exact Hno]).
  unfold np_squeeze. apply triple_bind_ret.
  set (a2 := {| base := base a1; shape := _ |}).
  change (owns a1 buf) with (owns a2 buf) in *.
  (* the three assertions *)
  eapply triple_bind; [apply triple_assert|intros ?; cbv beta].
  { intros Hrank. apply Hrefuse. intros (buf' & _ & _ & Hle & _).
    apply Nat.leb_gt in Hrank. cbn in Hrank. rewrite Hshape in Hrank. lia. }
  apply (triple_pure (length (shape a2) ≤ 3)%nat);
    [intros s [_ Hs]; apply Nat.leb_le, Hs|]. intros Hrank.
  eapply triple_pre with (P' := owns a2 buf); [|intros s Hs; apply Hs].
  eapply triple_bind; [apply read_spec|]. intros dt.
  apply (triple_pure (dt = buf_dtype buf)); [intros s Hs; apply Hs|].
  intros ->.
  eapply triple_pre with (P' := owns a2 buf); [|intros s Hs; apply Hs].
  eapply triple_bind; [apply triple_assert|intros ?; cbv beta].
  { intros Hnum. apply Hrefuse. intros (buf' & Hbuf' & Hnum' & _).
    congruence. }
  eapply triple_pre with (P' := owns a2 buf); [|intros s Hs; apply Hs].
  eapply triple_bind; [apply read_spec|]. intros nan.
  apply (triple_pure (nan = existsb (isnan np) (buf_data buf)));
    [intros s Hs; apply Hs|]. intros ->.
  eapply triple_pre with (P' := owns a2 buf); [|intros s Hs; apply Hs].
  eapply triple_bind; [apply triple_assert|intros ?; cbv beta].
  { intros Hnan. apply Hrefuse. intros (buf' & Hbuf' & _ & _ & Hnan' & _).
    apply negb_false_iff in Hnan. congruence. }
  eapply triple_pre with (P' := owns a2 buf); [|intros s Hs; apply Hs].
  (* the measured range *)
  assert (Hempty : buf_data buf = [] → ∀ s, owns a2 buf s → refused s).
  { intros Hnil. apply Hrefuse. intros (buf' & Hbuf' & _ & _ & _ & Hne).
    congruence. }
  eapply triple_bind; [apply reduce_spec, Hempty|]. intros low.
  eapply triple_bind; [apply reduce_spec, Hempty|]. intros high.
  cbv zeta.
  set (domain := match domain0 with Some d => d | None => (low, high) end).
  (* clipping to the domain *)
  eapply triple_bind with (Q := λ a s, ∃ buf', owns a buf' s).
  { destruct (less np low domain.1 || greater np high domain.2).
    - eapply triple_post; [apply new_array_spec|].
      intros a s Hs. eexists. exact Hs.
    - apply triple_ret. intros s Hs. eexists. exact Hs. }
  intros a3. apply rescale_spec.
Qed.
End Normalize.

(** Whether it returns or raises, [normalize_array] leaves every buffer
    it found, and the world outside, as they were. *)
Lemma normalize_array_keeps {E W : Type} (np : NumPy E) (array : ndarray)
    (domain : option (E * E)) (s s' : store E W) (r : result ndarray) :
  normalize_array np array domain s = (r, s') →
  unchanged (heap s) (heap s') ∧ ext s' = ext s.
Proof.
  intros Hrun.
  pose proof (normalize_array_spec np (heap s) (ext s) array domain s
                (conj eq_refl eq_refl)) as Hspec.
  rewrite Hrun in Hspec.
  assert (Hkept : kept (heap s) (ext s) s')
    by (destruct r; apply Hspec).
  split; [eapply kept_unchanged, Hkept|apply Hkept].
Qed.

Lemma normalize_array_accepts {E W : Type} (np : NumPy E) (array : ndarray)
    (domain : option (E * E)) (s : store E W) :
  accepted np (heap s) array →
  ∃ out s', normalize_array np array domain s = (Return out, s') ∧
            uint8_image np (heap s') out.
Proof.
  intros Hacc.
  pose proof (normalize_array_spec np (heap s) (ext s) array domain s
                (conj eq_refl eq_refl)) as Hspec.
  destruct (normalize_array np array domain s) as [[out|e] s1].
  - exists out, s1. split; [reflexivity|apply Hspec].
  - destruct Hspec as [_ Hno]. contradiction.
Qed.

(** C8, as the code has it: [normalize_array] never changes a buffer
    that existed before the call, nor the world outside, whether it
    returns or raises; and for every array with at least one element, of
    numeric dtype, of rank at most three once squeezed and without NaN, it
    returns an array of dtype uint8 whose every element is an integer from
    0 to 255. *)
Theorem normalize_array_returns_image {E W : Type} (np : NumPy E)
    (array : ndarray) (domain : option (E * E)) (s : store E W) :
  (∀ r s', normalize_array np array domain s = (r, s') →
           unchanged (heap s) (heap s') ∧ ext s' = ext s) ∧
  (accepted np (heap s) array →
   ∃ out s', normalize_array np array domain s = (Return out, s') ∧
             uint8_image np (heap s') out).
Proof.
  split.
  - intros r s'. apply normalize_array_keeps.
  - apply normalize_array_accepts.
Qed.

Lemma normalize_array_returns_image_witness :
  accepted numpy [gray] gray_image ∧
  ∃ out s', normalize_array numpy gray_image None (fresh_store [gray])
              = (Return out, s') ∧
            uint8_image numpy (heap s') out ∧
            heap s' !! 0%nat = Some gray.
Proof.
  assert (Hacc : accepted numpy [gray] gray_image).
  { exists gray. repeat split; try reflexivity; [cbn; lia|discriminate]. }
  split; [exact Hacc|].
  destruct (normalize_array_returns_image numpy gray_image None
              (fresh_store [gray])) as [Hkeep Hret].
  destruct (Hret Hacc) as (out & s' & Hrun & Himage).
  exists out, s'. split; [exact Hrun|]. split; [exact Himage|].
  apply (Hkeep _ _ Hrun). reflexivity.
Defined.

(** C8, as stated, fails on an array without elements: it is of numeric
    dtype, of rank one and without NaN, and [normalize_array] raises the
    ValueError of the reduction [np.min]. *)
Lemma normalize_array_empty_raises :
  issubdtype (buf_dtype empty) number = true ∧
  (length (List.filter (λ n, negb (Nat.eqb n 1)) (shape empty_array)) ≤ 3)%nat ∧
  existsb (isnan numpy) (buf_data empty) = false ∧
  (normalize_array numpy empty_array None (fresh_store [empty])).1 =
    Raise (ValueError ["zero-size array to reduction operation minimum which has no identity"]).
Proof. repeat split. cbn. lia. Qed.

(** ** The data URL *)

Lemma b64_char_ascii (n : N) : is_ascii (b64_char n) = true.
Proof.
  unfold b64_char.
  assert (Hlt : (N.to_nat (n mod 64) < 64)%nat)
    by (pose proof (N.mod_lt n 64); lia).
  revert Hlt. generalize (N.to_nat (n mod 64)). intros k Hk.
  do 64 (destruct k as [|k]; [reflexivity|]). lia.
Qed.

Lemma b64encode_ascii (b : string) : all_ascii (b64encode b) = true.
Proof.
  assert (H : ∀ (n : nat) (b : string),
             (String.length b ≤ n)%nat → all_ascii (b64encode b) = true).
  { intros n. induction n as [|n IH]; intros [|x [|y [|z rest]]] Hlen;
      cbn [String.length] in Hlen; cbn [b64encode all_ascii]; cbv zeta;
      rewrite ?b64_char_ascii; try reflexivity; try lia.
    apply IH. lia. }
  apply (H (String.length b)). lia.
Qed.

(** With mode 'data', [_image_url] is [serialize_array] followed by the
    concatenation of 'data:image/', [fmt.upper()], ';base64,' and the
    base64 encoding of the bytes, read as ASCII, which never fails; where
    [serialize_array] raises, it raises the same, from the same store. *)
Lemma image_url_data {E W : Type} (np : NumPy E) (host : Host E W)
    (array : ndarray) (fmt : string) (quality : Z) (domain : option (E * E))
    (s : store E W) :
  _image_url np host array fmt "data" quality domain s =
  (image_data ← serialize_array np host array domain fmt quality;
   mret ("data:image/" +:+ str_upper host fmt +:+ ";base64,"
         +:+ b64encode image_data)) s.
Proof.
  unfold _image_url.
  change (str_in "data" "data") with true. cbn [negb]. rewrite bind_ret.
  apply bind_ext; [reflexivity|]. intros image_data s'.
  unfold pure_call, decode_ascii, mbind, Py_bind.
  rewrite b64encode_ascii. reflexivity.
Qed.

(** The mode test of [_image_url] is a substring test. *)
Lemma image_url_mode_test {E W : Type} (np : NumPy E) (host : Host E W)
    (array : ndarray) (fmt mode : string) (quality : Z)
    (domain : option (E * E)) (s : store E W) :
  _image_url np host array fmt mode quality domain s =
  if str_in mode "data"
  then _image_url np host array fmt "data" quality domain s
  else (Raise (ValueError ["Unsupported mode '%s', should be one of '%s'.";
                           mode; "data"]), s).
Proof.
  unfold _image_url. change (str_in "data" "data") with true.
  destruct (str_in mode "data"); reflexivity.
Qed.

(** C9, where the code departs from it: the modes 'dat', 'a' and the
    empty string are not the mode 'data', and [_image_url] does not raise
    the ValueError for them but does what it does for 'data'; on the 2x2
    gray image it returns the data URL. *)
Theorem image_url_accepts_substrings_of_data {E W : Type} (np : NumPy E)
    (host : Host E W) (array : ndarray) (fmt : string) (quality : Z)
    (domain : option (E * E)) (s : store E W) :
  let url := λ mode, _image_url np host array fmt mode quality domain s in
  url "dat" = url "data" ∧ url "a" = url "data" ∧
  url EmptyString = url "data" ∧
  (_image_url numpy reference_host gray_image "png" "dat" 90 None
              (fresh_store [gray])).1
    = Return "data:image/PNG;base64,AD9//w==".
Proof.
  intros url. subst url. cbv beta.
  rewrite !(image_url_mode_test _ _ _ _ "dat"),
    !(image_url_mode_test _ _ _ _ "a"),
    !(image_url_mode_test _ _ _ _ EmptyString).
  repeat split.
Qed.

(** ** The table of images *)

(** With one row, which is what [show_image] and the default of
    [show_images] ask for, the table has every image once, in order. *)
Lemma table_rows_one_row (len : Z) :
  0 < len → table_rows len (Some 1) = [seqZ 0 len].
Proof.
  intros Hlen. unfold table_rows, table_shape.
  change (1 =? 0) with false. cbv iota. rewrite Z.div_1_r, Z.mul_1_l, Z.ltb_irrefl.
  change (range 1) with [0]. cbn [fmap list_fmap].
  f_equal. unfold range.
  rewrite (list_fmap_ext (λ j, 0 * len + j) id (seqZ 0 len)),
    list_fmap_id by (intros; unfold id; lia).
  apply forallb_filter_id, forallb_forall. intros idx Hin.
  apply Z.ltb_lt. apply list_elem_of_In, elem_of_seqZ in Hin. lia.
Qed.







(** C10, where the code departs from it: of seven images in a table of
    four rows only the first five get a cell, in the rows the loops make,
    in the HTML that [_create_image_table] returns and in what
    [show_images] displays. *)
Theorem create_image_table_drops_images :
  let images := replicate 7 gray_image in
  let labels := Some (PyZ <$> seqZ 1 7) in
  table_shape 7 (Some 4) = (5, 1) ∧
  concat (table_rows 7 (Some 4)) = [0; 1; 2; 3; 4] ∧
  match (_create_image_table numpy reference_host images labels None None
                             "png" (Some 4) (fresh_store [gray])).1 with
  | Return html => occurrences "<img" html = 5%nat
  | Raise _ => False
  end ∧
  occurrences "<img"
    (last_displayed
       (ext (show_images numpy reference_host images None None None "png" 4
                         (fresh_store [gray])).2)) = 5%nat.
Proof. vm_compute. repeat split. Qed.

(** ** Saving *)

Lemma normalize_all_ext {E W : Type} (np : NumPy E) (domain : option (E * E))
    (images : list ndarray) (s : store E W) (r : result (list ndarray))
    (s1 : store E W) :
  comprehension (λ image, normalize_array np image domain) images s = (r, s1) →
  ext s1 = ext s.
Proof.
  revert s r s1. induction images as [|image images IH]; intros s r s1 Hrun.
  - injection Hrun as <- <-. reflexivity.
  - cbn [comprehension] in Hrun.
    destruct (normalize_array np image domain s) as [x s2] eqn:Hfirst.
    rewrite (bind_run _ _ _ _ _ Hfirst) in Hrun.
    apply normalize_array_keeps in Hfirst as [_ Hext].
    destruct x as [x|e]; [|injection Hrun as <- <-; exact Hext].
    destruct (comprehension (λ image, normalize_array np image domain)
                            images s2) as [ys s3] eqn:Hrest.
    rewrite (bind_run _ _ _ _ _ Hrest) in Hrun.
    apply IH in Hrest.
    destruct ys; injection Hrun as <- <-; congruence.
Qed.

(** C6, as the code has it: [save_images] first normalizes every image,
    which writes no file, and raises what [normalize_array] raises; once
    all are normalized it dispatches on what follows the last '.' of
    save_path: 'npy' saves the stacked arrays with np.save, 'png' saves
    PNG files, 'mp4' runs numpy_image_to_video, 'gif' runs
    numpy_image_to_gif, and anything else raises the ValueError
    'Unsupported save type' with no file written. *)
Theorem save_images_dispatch {E W : Type} (np : NumPy E) (host : Host E W)
    (images : list ndarray) (save_path : string) (domain : option (E * E))
    (fps : Z) (s : store E W) (r : result (list ndarray)) (s1 : store E W) :
  comprehension (λ image, normalize_array np image domain) images s = (r, s1) →
  let save_type := last_segment save_path EmptyString in
  let run := save_images np host images save_path domain fps s in
  ext s1 = ext s ∧
  match r with
  | Raise e => run = (Raise e, s1)
  | Return normalized =>
      (save_type = "npy" → run = save_npy host normalized save_path s1) ∧
      (save_type = "png" → run = save_png host normalized save_path s1) ∧
      (save_type = "mp4" →
       run = numpy_image_to_video np host normalized fps save_path None s1) ∧
      (save_type = "gif" →
       run = numpy_image_to_gif np host normalized save_path None s1) ∧
      (save_type ∉ ["npy"; "png"; "mp4"; "gif"] →
       run = (Raise (unsupported_save_type save_type), s1))
  end.
Proof.
  intros Hnorm save_type run. split; [eapply normalize_all_ext, Hnorm|].
  subst run. unfold save_images. fold save_type.
  rewrite (bind_run _ _ _ _ _ Hnorm).
  destruct r as [normalized|e]; [|reflexivity].
  repeat split.
  - intros ->. reflexivity.
  - intros ->. reflexivity.
  - intros ->. reflexivity.
  - intros ->. reflexivity.
  - intros Hnone. clearbody save_type.
    destruct (String.eqb_spec save_type "npy") as [->|_];
      [exfalso; apply Hnone; repeat constructor|].
    destruct (String.eqb_spec save_type "png") as [->|_];
      [exfalso; apply Hnone; repeat constructor|].
    destruct (String.eqb_spec save_type "mp4") as [->|_];
      [exfalso; apply Hnone; repeat constructor|].
    destruct (String.eqb_spec save_type "gif") as [->|_];
      [exfalso; apply Hnone; repeat constructor|].
    reflexivity.
Qed.

Lemma save_images_dispatch_witness :
  save_images numpy reference_host [gray_image] "frames.txt" None 5
              (fresh_store [gray])
  = (Raise (unsupported_save_type "txt"),
     (comprehension (λ image, normalize_array numpy image None) [gray_image]
                    (fresh_store [gray])).2) ∧
  ext (save_images numpy reference_host [gray_image] "frames.txt" None 5
                   (fresh_store [gray])).2 = [].
Proof.
  destruct (save_images_dispatch numpy reference_host [gray_image]
              "frames.txt" None 5 (fresh_store [gray]) _ _ eq_refl)
    as (Hext & _ & _ & _ & _ & Hraise).
  assert (Hother : "txt" ∉ ["npy"; "png"; "mp4"; "gif"]).
  { intros H. repeat (apply elem_of_cons in H as [H|H]; [discriminate H|]).
    inversion H. }
  assert (Hrun := Hraise Hother).
  split; [exact Hrun|]. rewrite Hrun. exact Hext.
Defined.

(** C6, as stated, fails in both directions.  With a save_path ending in
    '.txt' and an image of booleans, what is raised is the AssertionError
    of [normalize_array], not a ValueError; with a save_path ending in
    '.mp4' and a gray image of rank two, the ValueError of unpacking its
    shape is raised although 'mp4' is a supported type. *)
Lemma save_images_error_not_by_type_alone :
  last_segment "out.txt" EmptyString = "txt" ∧
  (save_images numpy reference_host [{| base := 0; shape := [2; 2]%nat |}]
               "out.txt" None 5 (fresh_store [mask])).1
    = Raise AssertionError ∧
  last_segment "out.mp4" EmptyString = "mp4" ∧
  (save_images numpy reference_host [gray_image] "out.mp4" None 5
               (fresh_store [gray])).1
    = Raise (ValueError ["not enough values to unpack (expected 3, got 2)"]).
Proof. vm_compute. repeat split. Qed.

End TorchlightIOFacts.

(** * More theorems: the InceptionV1 graph *)

Module InceptionV1GraphFacts.
Import InceptionV1 InceptionV1Graph.

Ltac evaluate_recorded b :=
  destruct b;
  match goal with
  | |- context [recorded ?b] =>
      let tr := fresh "tr" in
      set (tr := recorded b) in *; vm_compute in tr
  end.

(** X1: forward calls every module that [__init__] and [add_layers]
    assigned, and calls each exactly once: the 138 names it calls are
    distinct, each is assigned, and 138 modules are assigned. *)
Theorem every_module_called_once (redirected_ReLU : bool) :
  let names := called (recorded redirected_ReLU) in
  NoDup names ∧
  Forall (λ name, is_Some (init redirected_ReLU !! name)) names ∧
  length names = size (init redirected_ReLU).
Proof.
  intros names. subst names.
  destruct redirected_ReLU.
  all: split; [refine (bool_decide_unpack _ _); vm_compute; reflexivity|].
  all: split; [|vm_compute; reflexivity].
  all: refine (bool_decide_unpack _ _); vm_compute; reflexivity.
Qed.

(** A property decided on every element of a list holds of each. *)
Lemma Forall_by_computation {A : Type} (p : A → bool) (l : list A) :
  forallb p l = true → Forall (λ x, p x = true) l.
Proof.
  intros Hall. apply Forall_forall. intros x Hx.
  apply list_elem_of_In in Hx. revert x Hx. apply forallb_forall, Hall.
Qed.

(** X2: each of the 57 activations is applied to the output of the
    convolution whose name is the activation's name followed by
    _pre_relu_conv, and that output is read by nothing else. *)
Theorem activations_follow_convs (redirected_ReLU : bool) :
  let tr := recorded redirected_ReLU in
  length (activation_calls tr) = 57%nat ∧
  Forall (λ c, follows_its_conv tr c = true) (activation_calls tr).
Proof.
  intros tr. subst tr.
  destruct redirected_ReLU; (split; [vm_compute; reflexivity|]).
  all: apply Forall_by_computation; vm_compute; reflexivity.
Qed.

(** X3: every max-pool of the forward pass reads a tensor padded with
    minus infinity, never with zeros, and every convolution with a kernel
    larger than 1x1 reads a tensor padded with zeros: by (k - 1) / 2 on
    every side at stride one, by two and three for the 7x7 convolution of
    stride two; the 1x1 convolutions read their input unpadded. *)
Theorem pools_and_convs_well_padded (redirected_ReLU : bool) :
  let tr := recorded redirected_ReLU in
  Forall (λ n, well_padded tr n = true) (nodes tr).
Proof.
  intros tr. subst tr.
  destruct redirected_ReLU; apply Forall_by_computation; vm_compute;
    reflexivity.
Qed.

(** *** Every module call of [forward] finds its module *)

Lemma returns_bind {W X Y} (m : Py W X) (f : X → Py W Y) (w : W) :
  returns (m w).1 = true → (∀ x w', returns (f x w').1 = true) →
  returns ((m ≫= f) w).1 = true.
Proof.
  intros Hm Hf. unfold mbind, Py_bind.
  destruct (m w) as [[x|e] w']; [apply Hf|discriminate Hm].
Qed.

Section Returns.
Context {T W : Type} (fw : Framework T W).
Hypothesis Hfw : kernels_return fw.

Lemma call_returns (self : gmap string Module) (name : string) (t : T)
    (w : W) :
  callable self name = true → returns (call fw self name t w).1 = true.
Proof.
  destruct Hfw as (_ & Hrelu & Hclamp & Hpool & _ & _ & _ & _ & Hsoft & Hconv
                   & Hlin & Hhook).
  unfold callable, call. destruct (self !! name) as [m|]; [|discriminate].
  intros Hm. apply returns_bind.
  - destruct m; try discriminate Hm; cbn.
    + apply Hconv.
    + apply Hlin.
    + apply Hpool.
    + apply Hrelu.
    + unfold RedirectedReluLayer_forward, RedirectedReLU_apply,
        RedirectedReLU_forward.
      apply returns_bind; [|reflexivity].
      apply returns_bind; [apply Hclamp|reflexivity].
    + apply Hsoft.
  - intros out w'. apply returns_bind; [apply Hhook|reflexivity].
Qed.

Lemma call_pool_returns (self : gmap string Module) (name : string) (t : T)
    (k s : Z * Z) (p : Z) (c : bool) (w : W) :
  callable_pool self name = true →
  returns (call_pool fw self name t k s p c w).1 = true.
Proof.
  destruct Hfw as (_ & _ & _ & Hpool & _ & _ & _ & _ & _ & _ & _ & Hhook).
  unfold callable_pool, call_pool.
  destruct (self !! name) as [[]|]; try discriminate. intros _.
  apply returns_bind; [apply Hpool|]. intros out w'.
  apply returns_bind; [apply Hhook|reflexivity].
Qed.

Lemma call_cat_returns (self : gmap string Module) (name : string)
    (ts : list T) (dim : Z) (w : W) :
  callable_cat self name = true →
  returns (call_cat fw self name ts dim w).1 = true.
Proof.
  destruct Hfw as (_ & _ & _ & _ & _ & Hcat & _ & _ & _ & _ & _ & Hhook).
  unfold callable_cat, call_cat.
  destruct (self !! name) as [[]|]; try discriminate. intros _.
  apply returns_bind; [apply Hcat|]. intros out w'.
  apply returns_bind; [apply Hhook|reflexivity].
Qed.

Lemma forward_returns_aux (redirected_ReLU : bool) (x : T) (w : W) :
  returns (forward fw (init redirected_ReLU) x w).1 = true.
Proof.
  pose proof Hfw as (Hpad & _ & _ & _ & Hlrn & _ & Havg & Hreshape & _).
  destruct redirected_ReLU; unfold forward.
  all: repeat (apply returns_bind;
         [lazymatch goal with
          | |- returns (call _ _ _ _ _).1 = true =>
              apply call_returns; vm_compute; reflexivity
          | |- returns (call_pool _ _ _ _ _ _ _ _ _).1 = true =>
              apply call_pool_returns; vm_compute; reflexivity
          | |- returns (call_cat _ _ _ _ _ _).1 = true =>
              apply call_cat_returns; vm_compute; reflexivity
          | |- returns (F_pad _ _ _ _ _).1 = true => apply Hpad
          | |- returns (F_local_response_norm _ _ _ _ _ _ _).1 = true =>
              apply Hlrn
          | |- returns (F_avg_pool2d _ _ _ _ _ _ _ _).1 = true => apply Havg
          | |- returns (torch_reshape _ _ _ _).1 = true => apply Hreshape
          end
         |intros ? ?; cbv beta]).
  all: reflexivity.
Qed.
End Returns.

(** X4: in a framework whose kernels return, forward returns, for either
    activation, on every input and from every store: every [self.name]
    that forward calls was assigned by [__init__] or [add_layers], to a
    module whose [forward] takes the arguments of the call, so that no
    AttributeError and no TypeError is raised. *)
Theorem forward_returns {T W : Type} (fw : Framework T W)
    (redirected_ReLU : bool) (x : T) (w : W) :
  kernels_return fw →
  returns (forward fw (init redirected_ReLU) x w).1 = true.
Proof. intros Hfw. apply forward_returns_aux, Hfw. Qed.

Lemma forward_returns_witness :
  kernels_return elementwise ∧
  returns (forward elementwise (init true) [-3; 0; 5] tt).1 = true.
Proof.
  assert (Hfw : kernels_return elementwise) by (repeat split).
  split; [exact Hfw|apply (forward_returns elementwise true), Hfw].
Defined.

(** *** The shapes of a batch *)

Ltac lia_div := Z.to_euclidean_division_equations; lia.

Lemma batch_rows_mod (n c h w : Z) :
  c ≠ 0 → (n * (c * (h * (w * 1)))) `mod` (c * 1) = 0.
Proof.
  intros Hc. replace (n * (c * (h * (w * 1)))) with (n * h * w * (c * 1))
    by ring. apply Z_mod_mult.
Qed.

Lemma batch_rows_div (n c h w : Z) :
  c ≠ 0 → (n * (c * (h * (w * 1)))) `div` (c * 1) = n * h * w.
Proof.
  intros Hc. replace (n * (c * (h * (w * 1)))) with (n * h * w * (c * 1))
    by ring. apply Z_div_mult_full. lia.
Qed.

Lemma outcome_bind {X Y : Type} (G : result Y * unit → Prop)
    (m : Py unit X) (f : X → Py unit Y) :
  (∀ r, m tt = r →
        G (match r with
           | (Return x, w) => f x w
           | (Raise e, w) => (Raise e, w)
           end)) →
  G ((m ≫= f) tt).
Proof. intros HG. apply (HG (m tt) eq_refl). Qed.

(** *** The kernels on shapes

    An axis is written [h + a]: a length and what the paddings and
    windows so far have added to it. *)
Ltac shape_cbv :=
  cbv -[Z.add Z.sub Z.mul Z.div Z.modulo Z.ltb Z.leb Z.eqb Z.opp negb orb].

Lemma pad_shape (n c h w a a' l r t b a2 a2' : Z) (value : option pynum) :
  a2 = a + t + b → a2' = a' + l + r →
  F_pad shapes [n; c; h + a; w + a'] [l; r; t; b] value tt =
  if (w + a2' <? 0) || (h + a2 <? 0)
  then (Raise (RuntimeError "Padding does not fit the input"), tt)
  else (Return [n; c; h + a2; w + a2'], tt).
Proof.
  intros -> ->. shape_cbv.
  replace (w + a' + l + r) with (w + (a' + l + r)) by lia.
  replace (h + a + t + b) with (h + (a + t + b)) by lia.
  destruct (w + (a' + l + r) <? 0); [reflexivity|].
  destruct (h + (a + t + b) <? 0); reflexivity.
Qed.

Section Shapes.
Variable self : gmap string Module.

Lemma conv_shape (name : string) (i o k1 k2 g : Z) (b : bool)
    (n h w a a' a2 a2' : Z) :
  self !! name = Some (Conv2d i o (k1, k2) (1, 1) g b) →
  a2 = a - k1 + 1 → a2' = a' - k2 + 1 →
  call shapes self name [n; i; h + a; w + a'] tt =
  if (h + a <? k1) || (w + a' <? k2)
  then (Raise (RuntimeError
                 "Kernel size can't be greater than actual input size"), tt)
  else (Return [n; o; h + a2; w + a2'], tt).
Proof.
  intros Hm -> ->. unfold call. rewrite Hm. shape_cbv.
  rewrite Z.eqb_refl. shape_cbv.
  destruct ((h + a <? k1) || (w + a' <? k2)); [reflexivity|].
  rewrite !Z.div_1_r.
  replace (h + a - k1 + 1) with (h + (a - k1 + 1)) by lia.
  replace (w + a' - k2 + 1) with (w + (a' - k2 + 1)) by lia.
  reflexivity.
Qed.

Lemma conv_halving_shape (name : string) (i o k1 k2 g : Z) (b : bool)
    (n h w a a' : Z) :
  self !! name = Some (Conv2d i o (k1, k2) (2, 2) g b) →
  a - k1 = -2 → a' - k2 = -2 →
  call shapes self name [n; i; h + a; w + a'] tt =
  if (h + a <? k1) || (w + a' <? k2)
  then (Raise (RuntimeError
                 "Kernel size can't be greater than actual input size"), tt)
  else (Return [n; o; h `div` 2 + 0; w `div` 2 + 0], tt).
Proof.
  intros Hm Ha Ha'. unfold call. rewrite Hm. shape_cbv.
  rewrite Z.eqb_refl. shape_cbv.
  destruct ((h + a <? k1) || (w + a' <? k2)); [reflexivity|].
  replace ((h + a - k1) `div` 2 + 1) with (h `div` 2 + 0) by lia_div.
  replace ((w + a' - k2) `div` 2 + 1) with (w `div` 2 + 0) by lia_div.
  reflexivity.
Qed.

Lemma relu_shape (name : string) (t : list Z) :
  self !! name = Some ReluLayer →
  call shapes self name t tt = (Return t, tt).
Proof. intros Hm. unfold call. rewrite Hm. reflexivity. Qed.

Lemma softmax_shape (name : string) (t : list Z) :
  self !! name = Some SoftMaxLayer →
  call shapes self name t tt = (Return t, tt).
Proof. intros Hm. unfold call. rewrite Hm. reflexivity. Qed.

Lemma linear_shape (name : string) (i o : Z) (b : bool) (rows : Z) :
  self !! name = Some (Linear i o b) →
  call shapes self name [rows; i] tt = (Return [rows; o], tt).
Proof.
  intros Hm. unfold call. rewrite Hm. shape_cbv.
  rewrite Z.eqb_refl. reflexivity.
Qed.

Lemma pool_shape_same (name : string) (k1 k2 n c h w a a' a2 a2' : Z) :
  self !! name = Some MaxPool2dLayer →
  a2 = a - k1 + 1 → a2' = a' - k2 + 1 →
  call_pool shapes self name [n; c; h + a; w + a'] (k1, k2) (1, 1) 0 false
    tt =
  if (h + a2 <? 1) || (w + a2' <? 1)
  then (Raise (RuntimeError "Output size is too small"), tt)
  else (Return [n; c; h + a2; w + a2'], tt).
Proof.
  intros Hm -> ->. unfold call_pool. rewrite Hm. shape_cbv.
  rewrite !Z.div_1_r.
  replace (h + a + 2 * 0 - k1 + 0 + 1) with (h + (a - k1 + 1)) by lia.
  replace (w + a' + 2 * 0 - k2 + 0 + 1) with (w + (a' - k2 + 1)) by lia.
  destruct ((h + (a - k1 + 1) <? 1) || (w + (a' - k2 + 1) <? 1));
    reflexivity.
Qed.

Lemma pool_shape_halving (name : string) (k1 k2 n c h w a a' : Z) :
  self !! name = Some MaxPool2dLayer →
  a - k1 = -2 → a' - k2 = -2 →
  call_pool shapes self name [n; c; h + a; w + a'] (k1, k2) (2, 2) 0 false
    tt =
  if (h `div` 2 + 0 <? 1) || (w `div` 2 + 0 <? 1)
  then (Raise (RuntimeError "Output size is too small"), tt)
  else (Return [n; c; h `div` 2 + 0; w `div` 2 + 0], tt).
Proof.
  intros Hm Ha Ha'. unfold call_pool. rewrite Hm. shape_cbv.
  replace ((h + a + 2 * 0 - k1 + 0) `div` 2 + 1) with (h `div` 2 + 0)
    by lia_div.
  replace ((w + a' + 2 * 0 - k2 + 0) `div` 2 + 1) with (w `div` 2 + 0)
    by lia_div.
  destruct ((h `div` 2 + 0 <? 1) || (w `div` 2 + 0 <? 1)); reflexivity.
Qed.

Lemma shapes_eqb_refl (s : list Z) : shapes_eqb s s = true.
Proof.
  unfold shapes_eqb. rewrite Nat.eqb_refl. simpl.
  induction s as [|d s IH]; [reflexivity|].
  simpl. rewrite Z.eqb_refl. exact IH.
Qed.

Lemma cat_shape (name : string) (n c1 c2 c3 c4 c : Z) (rest : list Z) :
  self !! name = Some CatLayer →
  c = c1 + (c2 + (c3 + (c4 + 0))) →
  call_cat shapes self name
    [n :: c1 :: rest; n :: c2 :: rest; n :: c3 :: rest; n :: c4 :: rest] 1
    tt =
  (Return (n :: c :: rest), tt).
Proof.
  intros Hm ->. unfold call_cat. rewrite Hm.
  unfold CatLayer_forward, shapes, torch_cat, cat_axis1, forallb.
  rewrite !Z.eqb_refl, !shapes_eqb_refl. reflexivity.
Qed.
End Shapes.

Lemma avg_pool_shape (k1 k2 n c h w a a' a2 a2' : Z) :
  a2 = a - k1 + 1 → a2' = a' - k2 + 1 →
  F_avg_pool2d shapes [n; c; h + a; w + a'] (k1, k2) (1, 1) [0] false false
    tt =
  if (h + a2 <? 1) || (w + a2' <? 1)
  then (Raise (RuntimeError "Output size is too small"), tt)
  else (Return [n; c; h + a2; w + a2'], tt).
Proof.
  intros -> ->. shape_cbv.
  rewrite !Z.div_1_r.
  replace (h + a + 2 * 0 - k1 + 0 + 1) with (h + (a - k1 + 1)) by lia.
  replace (w + a' + 2 * 0 - k2 + 0 + 1) with (w + (a' - k2 + 1)) by lia.
  destruct ((h + (a - k1 + 1) <? 1) || (w + (a' - k2 + 1) <? 1));
    reflexivity.
Qed.

Lemma reshape_rows_shape (n c h w : Z) :
  0 < c →
  torch_reshape shapes [n; c; h; w] [-1; c] tt = (Return [n * h * w; c], tt).
Proof.
  intros Hc. unfold shapes, torch_reshape, reshape_to.
  assert ((c <? -1) = false) as Hlt by lia.
  assert ((c =? -1) = false) as Heq by lia.
  assert ((c * 1 =? 0) = false) as Hz by lia.
  unfold existsb, List.filter, numel.
  change (-1 <? -1) with false. change (-1 =? -1) with true.
  rewrite Hlt, Heq. cbn [negb orb length foldr].
  rewrite Hz, batch_rows_mod by lia. cbn [negb orb].
  change (0 =? 0) with true. cbn [negb orb fmap list_fmap].
  change (-1 =? -1) with true. rewrite Heq, batch_rows_div by lia.
  reflexivity.
Qed.

(** One statement of [forward] on shapes: the kernel's lemma rewrites the
    call, with the module found by evaluating the lookup. *)
Ltac shape_call Hr self name t :=
  let v := eval vm_compute in (self !! name) in
  let Hm := fresh "Hm" in
  assert (self !! name = v) as Hm by (vm_compute; reflexivity);
  lazymatch v with
  | Some (Conv2d _ _ (?k1, ?k2) (1, 1) _ _) =>
      lazymatch t with
      | [_; _; _ + ?a; _ + ?a'] =>
          let a2 := eval vm_compute in (a - k1 + 1) in
          let a2' := eval vm_compute in (a' - k2 + 1) in
          rewrite (conv_shape self name _ _ k1 k2 _ _ _ _ _ a a' a2 a2'
                     Hm eq_refl eq_refl) in Hr
      end
  | Some (Conv2d _ _ (?k1, ?k2) (2, 2) _ _) =>
      lazymatch t with
      | [_; _; _ + ?a; _ + ?a'] =>
          rewrite (conv_halving_shape self name _ _ k1 k2 _ _ _ _ _ a a'
                     Hm eq_refl eq_refl) in Hr
      end
  | Some ReluLayer => rewrite (relu_shape self name _ Hm) in Hr
  | Some SoftMaxLayer => rewrite (softmax_shape self name _ Hm) in Hr
  | Some (Linear _ _ _) => rewrite (linear_shape self name _ _ _ _ Hm) in Hr
  end;
  clear Hm.

Ltac shape_rewrite Hr :=
  lazymatch type of Hr with
  | F_pad shapes [_; _; _ + ?a; _ + ?a'] [?l; ?r; ?t; ?b] _ _ = _ =>
      let a2 := eval vm_compute in (a + t + b) in
      let a2' := eval vm_compute in (a' + l + r) in
      rewrite (pad_shape _ _ _ _ a a' l r t b a2 a2' _ eq_refl eq_refl)
        in Hr
  | F_local_response_norm shapes ?t _ _ _ _ _ = ?r =>
      change ((Return t, tt) = r) in Hr
  | call shapes ?self ?name ?t _ = _ => shape_call Hr self name t
  | call_pool shapes ?self ?name [_; _; _ + ?a; _ + ?a'] (?k1, ?k2) (1, 1)
      _ _ _ = _ =>
      let a2 := eval vm_compute in (a - k1 + 1) in
      let a2' := eval vm_compute in (a' - k2 + 1) in
      rewrite (pool_shape_same self name k1 k2 _ _ _ _ a a' a2 a2'
                 ltac:(vm_compute; reflexivity) eq_refl eq_refl) in Hr
  | call_pool shapes ?self ?name [_; _; _ + ?a; _ + ?a'] (?k1, ?k2) (2, 2)
      _ _ _ = _ =>
      rewrite (pool_shape_halving self name k1 k2 _ _ _ _ a a'
                 ltac:(vm_compute; reflexivity) eq_refl eq_refl) in Hr
  | call_cat shapes ?self ?name
      [_ :: ?c1 :: _; _ :: ?c2 :: _; _ :: ?c3 :: _; _ :: ?c4 :: _] _ _ = _ =>
      let c := eval vm_compute in (c1 + (c2 + (c3 + (c4 + 0)))) in
      rewrite (cat_shape self name _ c1 c2 c3 c4 c _
                 ltac:(vm_compute; reflexivity) eq_refl) in Hr
  | F_avg_pool2d shapes [_; _; _ + ?a; _ + ?a'] (?k1, ?k2) _ _ _ _ _ = _ =>
      let a2 := eval vm_compute in (a - k1 + 1) in
      let a2' := eval vm_compute in (a' - k2 + 1) in
      rewrite (avg_pool_shape k1 k2 _ _ _ _ a a' a2 a2' eq_refl eq_refl)
        in Hr
  | torch_reshape shapes _ _ _ = _ =>
      rewrite reshape_rows_shape in Hr by reflexivity
  end.

Ltac shape_raised :=
  split; [intros [? ?]; exfalso; lia_div|intros _; reflexivity].

(** A test of the kernel is met in both ways: where it raises, the
    lengths are below 224; where it passes, the run goes on ([keep] says
    whether what the test has shown is kept). *)
Ltac shape_step keep :=
  apply outcome_bind;
  let r := fresh "r" in
  let Hr := fresh "Hr" in
  intros r Hr; shape_rewrite Hr;
  lazymatch type of Hr with
  | (if ?c then _ else _) = _ =>
      let Hc := fresh "Hc" in
      destruct c eqn:Hc; subst r; cbv beta iota;
      [shape_raised|lazymatch keep with false => clear Hc | true => idtac end]
  | _ => subst r; cbv beta iota
  end.

Lemma forward_shape_plain (N H W : Z) :
  shape_outcome N H W (forward shapes (init false) [N; 3; H; W] tt).
Proof.
  replace [N; 3; H; W] with [N; 3; H + 0; W + 0]
    by (rewrite !Z.add_0_r; reflexivity).
  unfold forward.
  do 171 shape_step false.
  shape_step true. do 3 shape_step false.
  split.
  - intros [? ?].
    match goal with
    | |- context [N * ?h * ?w] =>
        replace h with (H `div` 32 - 6) by lia_div;
        replace w with (W `div` 32 - 6) by lia_div
    end.
    reflexivity.
  - intros ?. exfalso. lia_div.
Qed.

(** X5: on the shape (N, 3, H, W) of a batch of N images, forward (with
    either activation) returns the shape
    (N * (H // 32 - 6) * (W // 32 - 6), 1008) when both H and W are at
    least 224, so N rows only when both are below 256, and raises when H
    or W is below 224. *)
Theorem forward_shape (redirected_ReLU : bool) (N H W : Z) :
  1 ≤ N → 0 ≤ H → 0 ≤ W →
  shape_outcome N H W
    (forward shapes (init redirected_ReLU) [N; 3; H; W] tt).
Proof.
  intros _ _ _. destruct redirected_ReLU; [|apply forward_shape_plain].
  rewrite InceptionV1Facts.forward_redirect by reflexivity.
  apply forward_shape_plain.
Qed.

Lemma forward_shape_witness :
  shape_outcome 8 256 224 (forward shapes (init true) [8; 3; 256; 224] tt).
Proof. apply (forward_shape true 8 256 224); lia. Defined.

End InceptionV1GraphFacts.

(** * More theorems: the image I/O helpers *)

Module TorchlightIOMoreFacts.
Import TorchlightIO TorchlightIOMore TorchlightIOFacts.

Lemma bind_assoc {S X Y Z : Type} (m : Py S X) (f : X → Py S Y)
    (g : Y → Py S Z) (s : S) :
  ((m ≫= f) ≫= g) s = (m ≫= λ x, f x ≫= g) s.
Proof.
  unfold mbind, Py_bind. destruct (m s) as [[x|e] s1]; reflexivity.
Qed.

(** ** The table of images *)



(** ** The path of a PNG file *)

Lemma prefix_png_app (c0 : ascii) (stem : string) :
  String.prefix ".png" (String c0 stem) = false →
  String.prefix ".png" (String c0 stem +:+ ".png") = false.
Proof.
  destruct stem as [|c1 [|c2 [|c3 rest]]];
    cbv [String.append]; cbn [String.prefix].
  all: repeat match goal with
              | |- context [Ascii.ascii_dec ?a ?b] =>
                  destruct (Ascii.ascii_dec a b) as [<-|?];
                  cbn [String.prefix]
              end; try reflexivity; try discriminate.
  destruct rest; discriminate.
Qed.

Lemma str_replace_png (stem : string) :
  str_in ".png" stem = false →
  str_replace ".png" EmptyString 0 (stem +:+ ".png") = stem.
Proof.
  induction stem as [|c rest IH]; [reflexivity|].
  intros Hin. cbn [str_in] in Hin. apply orb_false_elim in Hin as [Hp Hin].
  change (String c rest +:+ ".png") with (String c (rest +:+ ".png")).
  cbn [str_replace].
  change (String c (rest +:+ ".png")) with (String c rest +:+ ".png").
  rewrite (prefix_png_app _ _ Hp), (IH Hin). reflexivity.
Qed.

Lemma str_in_png (stem : string) : str_in ".png" (stem +:+ ".png") = true.
Proof.
  induction stem as [|c rest IH]; [reflexivity|].
  change (String c rest +:+ ".png") with (String c (rest +:+ ".png")).
  cbn [str_in]. rewrite IH. apply orb_true_r.
Qed.

Lemma last_segment_png (stem cur : string) :
  last_segment (stem +:+ ".png") cur = "png".
Proof.
  revert cur. induction stem as [|c rest IH]; intros cur; [reflexivity|].
  change (String c rest +:+ ".png") with (String c (rest +:+ ".png")).
  cbn [last_segment]. destruct (Ascii.eqb c "."); apply IH.
Qed.

(** X16: [save_images] with one image and a path [stem + '.png'] whose
    stem does not contain '.png' normalizes the image and then makes one
    call on the world outside, [Image.save] of the normalized image on
    the very path it was given: removing '.png' from the path and
    appending it again gives the path back. Whether that call writes the
    file is PIL's: it raises on a path that has no file name before
    '.png'. *)
Theorem save_images_png_path {E W : Type} (np : NumPy E) (host : Host E W)
    (image : ndarray) (stem : string) (domain : option (E * E)) (fps : Z)
    (s : store E W) :
  str_in ".png" stem = false →
  save_images np host [image] (stem +:+ ".png") domain fps s =
  (normalized ← normalize_array np image domain;
   value ← get_value normalized;
   picture ← pure_call (PIL_fromarray host value);
   world_call (Image_save host picture (stem +:+ ".png"))) s.
Proof.
  intros Hstem. unfold save_images. rewrite last_segment_png.
  change (String.eqb "png" "npy") with false.
  change (String.eqb "png" "png") with true. cbv iota.
  cbn [comprehension]. rewrite bind_assoc.
  apply bind_ext; [reflexivity|]. intros normalized s1.
  rewrite bind_assoc, bind_ret, bind_ret.
  unfold save_png. rewrite str_in_png, (str_replace_png _ Hstem).
  cbn [length Nat.eqb].
  unfold mbind at 1, Py_bind at 1.
  change (pure_call (getitem_list [normalized] 0) s1)
    with (Return normalized, s1).
  reflexivity.
Qed.

Lemma save_images_png_path_witness :
  ext (save_images numpy reference_host [gray_image]
                   ("out/figure" +:+ ".png") None 5 (fresh_store [gray])).2
    = [Wrote "out/figure.png" "image" 1] ∧
  (save_images numpy reference_host [gray_image]
               (EmptyString +:+ ".png") None 5 (fresh_store [gray])).1
    = Raise (ValueError ["unknown file extension: "]).
Proof.
  split.
  - rewrite (save_images_png_path numpy reference_host gray_image
               "out/figure" None 5 (fresh_store [gray]) eq_refl).
    vm_compute. reflexivity.
  - rewrite (save_images_png_path numpy reference_host gray_image
               EmptyString None 5 (fresh_store [gray]) eq_refl).
    vm_compute. reflexivity.
Defined.

(** ** Saving no image *)

(** X7: [save_images] on an empty list of images, from any store: for
    'png' it returns and writes nothing, for 'mp4' and 'gif' it raises the
    IndexError of [images[0]] before anything is written, for 'npy' it
    passes the empty list to np.stack, and for any other type it raises
    the ValueError of the unsupported type. *)
Theorem save_images_of_no_images {E W : Type} (np : NumPy E)
    (host : Host E W) (save_path : string) (domain : option (E * E))
    (fps : Z) (s : store E W) :
  let save_type := last_segment save_path EmptyString in
  save_images np host [] save_path domain fps s =
  if String.eqb save_type "npy" then
    match np_stack host [] with
    | Return stacked =>
        let (r, w) := np_save host save_path stacked (ext s) in
        (r, {| heap := heap s; ext := w |})
    | Raise e => (Raise e, s)
    end
  else if String.eqb save_type "png" then (Return tt, s)
  else if String.eqb save_type "mp4" || String.eqb save_type "gif" then
    (Raise (IndexError "list index out of range"), s)
  else (Raise (unsupported_save_type save_type), s).
Proof.
  intros save_type. unfold save_images. fold save_type. clearbody save_type.
  cbn [comprehension]. rewrite bind_ret.
  destruct (String.eqb save_type "npy").
  { unfold save_npy. cbn [comprehension]. rewrite bind_ret.
    unfold pure_call, world_call, mbind, Py_bind.
    destruct (np_stack host []); reflexivity. }
  destruct (String.eqb save_type "png").
  { unfold save_png. cbn [length Nat.eqb].
    destruct (str_in ".png" save_path); reflexivity. }
  destruct (String.eqb save_type "mp4"); [reflexivity|].
  destruct (String.eqb save_type "gif"); reflexivity.
Qed.

(** ** What building a table leaves of the store *)

Lemma reads_ret {S X : Type} (x : X) : reads (mret x : Py S X).
Proof. intros s. reflexivity. Qed.

Lemma reads_raise {S X : Type} (e : exn) : reads (raise e : Py S X).
Proof. intros s. reflexivity. Qed.

Lemma reads_pure_call {S X : Type} (r : result X) :
  reads (pure_call r : Py S X).
Proof. intros s. reflexivity. Qed.

Lemma reads_assert {S : Type} (b : bool) : reads (assert b : Py S unit).
Proof. intros s. destruct b; reflexivity. Qed.

Lemma reads_bind {S X Y : Type} (m : Py S X) (f : X → Py S Y) :
  reads m → (∀ x, reads (f x)) → reads (m ≫= f).
Proof.
  intros Hm Hf s. unfold mbind, Py_bind. specialize (Hm s).
  destruct (m s) as [[x|e] s1]; cbn in Hm; subst s1; [apply Hf|reflexivity].
Qed.

Lemma reads_get_buffer {E W : Type} (a : ndarray) :
  reads (get_buffer a : Py (store E W) (buffer E)).
Proof. intros s. unfold get_buffer. destruct (heap s !! base a); reflexivity. Qed.

Lemma reads_preserves {E W X : Type} (m : Py (store E W) X) :
  reads m → preserves m.
Proof. intros Hm s. rewrite Hm. split; [intros l b Hl; exact Hl|reflexivity]. Qed.

Lemma preserves_bind {E W X Y : Type} (m : Py (store E W) X)
    (f : X → Py (store E W) Y) :
  preserves m → (∀ x, preserves (f x)) → preserves (m ≫= f).
Proof.
  intros Hm Hf s. unfold mbind, Py_bind. specialize (Hm s).
  destruct (m s) as [[x|e] s1]; cbn in Hm; [|exact Hm].
  destruct Hm as [Hheap Hext]. destruct (Hf x s1) as [Hheap' Hext'].
  split; [|congruence]. intros l b Hl. apply Hheap', Hheap, Hl.
Qed.

Lemma preserves_for_each {E W A X : Type} (xs : list A)
    (body : X → A → Py (store E W) X) (acc : X) :
  (∀ acc x, preserves (body acc x)) → preserves (for_each xs acc body).
Proof.
  intros Hbody. revert acc. induction xs as [|x xs IH]; intros acc.
  - apply reads_preserves, reads_ret.
  - cbn [for_each]. apply preserves_bind; [apply Hbody|]. intros acc'. apply IH.
Qed.

Section Untouched.
Context {E W : Type} (np : NumPy E) (host : Host E W).

Lemma normalize_array_preserves (array : ndarray) (domain : option (E * E)) :
  preserves (normalize_array np array domain : Py (store E W) ndarray).
Proof.
  intros s. destruct (normalize_array np array domain s) as [r s'] eqn:Hrun.
  apply (normalize_array_keeps np array domain s s' r Hrun).
Qed.

Lemma serialize_normalized_array_reads (array : ndarray) (fmt : string)
    (quality : Z) :
  reads (_serialize_normalized_array np host array fmt quality).
Proof.
  unfold _serialize_normalized_array, get_dtype, np_max, reduce, get_value.
  repeat first
    [ apply reads_bind; [|intros ?]
    | apply reads_get_buffer | apply reads_assert | apply reads_pure_call
    | apply reads_ret | apply reads_raise
    | match goal with |- reads (match ?x with _ => _ end) => destruct x end ].
Qed.

Lemma image_url_preserves (array : ndarray) (fmt mode : string)
    (quality : Z) (domain : option (E * E)) :
  preserves (_image_url np host array fmt mode quality domain).
Proof.
  unfold _image_url, serialize_array.
  apply preserves_bind; [|intros _].
  { apply reads_preserves. destruct (negb _); [apply reads_raise|apply reads_ret]. }
  apply preserves_bind; [|intros image_data].
  { apply preserves_bind; [apply normalize_array_preserves|intros normalized].
    apply reads_preserves, serialize_normalized_array_reads. }
  apply reads_preserves, reads_bind; [apply reads_pure_call|intros ?].
  apply reads_ret.
Qed.

Lemma image_html_preserves (array : ndarray) (width : option Z)
    (domain : option (E * E)) (fmt : string) (title : pyobj) :
  preserves (_image_html np host array width domain fmt title).
Proof.
  unfold _image_html. apply preserves_bind; [apply image_url_preserves|].
  intros url. apply reads_preserves, reads_ret.
Qed.

Lemma create_image_table_keeps (images : list ndarray)
    (labels : option (list pyobj)) (domain : option (E * E))
    (width : option Z) (fmt : string) (n_rows : option Z) :
  preserves (_create_image_table np host images labels domain width fmt
                                 n_rows).
Proof.
  unfold _create_image_table.
  apply preserves_bind; [|intros ?; apply reads_preserves, reads_ret].
  apply preserves_for_each. intros acc row.
  apply preserves_bind; [|intros ?; apply reads_preserves, reads_ret].
  apply preserves_for_each. intros acc' idx.
  apply preserves_bind; [apply reads_preserves, reads_pure_call|intros image].
  apply preserves_bind; [|intros title].
  { apply reads_preserves.
    destruct labels; [apply reads_pure_call|apply reads_raise]. }
  apply preserves_bind; [apply image_html_preserves|intros ?].
  apply reads_preserves, reads_ret.
Qed.

(** X8: whatever the images, the labels and the number of rows, and
    whether they return or raise on an image, [_image_url],
    [_image_html] and [_create_image_table] write and display nothing and
    change no array they were given: every buffer of the store is as it
    was, and so is the world outside. *)
Theorem image_table_leaves_the_world (images : list ndarray)
    (labels : option (list pyobj)) (domain : option (E * E))
    (width : option Z) (fmt mode : string) (quality : Z)
    (n_rows : option Z) (array : ndarray) (title : pyobj) :
  preserves (_image_url np host array fmt mode quality domain) ∧
  preserves (_image_html np host array width domain fmt title) ∧
  preserves (_create_image_table np host images labels domain width fmt
                                 n_rows).
Proof.
  split; [apply image_url_preserves|].
  split; [apply image_html_preserves|apply create_image_table_keeps].
Qed.

(** X9: [show_images] builds the table with [_create_image_table], from
    the labels it was given or, without labels, from 1, 2, ...; when that
    raises, [show_images] raises the same exception and displays nothing;
    when it returns the table's HTML, [show_images] makes one call of the
    notebook display, on the page that wraps that HTML, from the world
    outside as it was before the call. Building the table changes no
    array that was there and nothing of the world outside. *)
Theorem show_images_displays_once (images : list ndarray)
    (labels : option (list pyobj)) (domain : option (E * E))
    (width : option Z) (fmt : string) (n_rows : Z) (s : store E W) :
  let labels' := match labels with
                 | Some (l :: ls) => l :: ls
                 | _ => PyZ <$> seqZ 1 (Z.of_nat (length images))
                 end in
  let table := _create_image_table np host images (Some labels') domain
                                   width fmt (Some n_rows) s in
  unchanged (heap s) (heap table.2) ∧ ext table.2 = ext s ∧
  show_images np host images labels domain width fmt n_rows s =
  match table.1 with
  | Raise e => (Raise e, table.2)
  | Return html =>
      let (r, w) :=
        display_HTML host
          ((("<div style=" +:+ dquote
             +:+ "display: flex; flex-direction: row;" +:+ dquote +:+ ">")
            +:+ "<div style=" +:+ dquote
            +:+ "margin-right:10px; margin-top: 4px;" +:+ dquote
            +:+ ">" +:+ newline
            +:+ "                        " +:+ html +:+ newline
            +:+ "                    </div>") +:+ "</div>") (ext s) in
      (r, {| heap := heap table.2; ext := w |})
  end.
Proof.
  intros labels' table.
  pose proof (create_image_table_keeps images (Some labels') domain width
                fmt (Some n_rows) s) as [Hheap Hext].
  fold table in Hheap, Hext.
  split; [exact Hheap|]. split; [exact Hext|].
  unfold show_images. fold labels'.
  rewrite (bind_run _ _ _ _ table.1 (surjective_pairing table)).
  destruct table.1 as [html|e]; [|reflexivity].
  unfold _display_html, world_call. rewrite Hext. reflexivity.
Qed.
End Untouched.

(** ** The errors of [normalize_array] *)

Section NormalizeRuns.
Context {E W : Type} (np : NumPy E).

Lemma get_buffer_run (a : ndarray) (buf : buffer E) (s : store E W) :
  heap s !! base a = Some buf → get_buffer a s = (Return buf, s).
Proof. intros Hbuf. unfold get_buffer. rewrite Hbuf. reflexivity. Qed.

Lemma copied_lookup (s : store E W) (buf : buffer E) :
  heap (copied s buf) !! length (heap s) = Some buf.
Proof. apply list_lookup_middle. reflexivity. Qed.

Lemma get_dtype_run (a : ndarray) (buf : buffer E) (s : store E W) :
  heap s !! base a = Some buf → get_dtype a s = (Return (buf_dtype buf), s).
Proof.
  intros Hbuf. unfold get_dtype.
  rewrite (bind_run _ _ _ _ _ (get_buffer_run _ _ _ Hbuf)). reflexivity.
Qed.

Lemma np_isnan_any_run (a : ndarray) (buf : buffer E) (s : store E W) :
  heap s !! base a = Some buf →
  np_isnan_any np a s = (Return (existsb (isnan np) (buf_data buf)), s).
Proof.
  intros Hbuf. unfold np_isnan_any.
  rewrite (bind_run _ _ _ _ _ (get_buffer_run _ _ _ Hbuf)). reflexivity.
Qed.

Lemma reduce_run (f : E → E → E) (a : ndarray) (name : string)
    (buf : buffer E) (s : store E W) :
  heap s !! base a = Some buf →
  reduce f a name s =
  match buf_data buf with
  | [] => (Raise (ValueError ["zero-size array to reduction operation "
                              +:+ name +:+ " which has no identity"]), s)
  | v :: vs => (Return (foldl f v vs), s)
  end.
Proof.
  intros Hbuf. unfold reduce.
  rewrite (bind_run _ _ _ _ _ (get_buffer_run _ _ _ Hbuf)).
  destruct (buf_data buf); reflexivity.
Qed.

(** The checks of [normalize_array], on the copy it made. *)
Lemma normalize_array_checks (array : ndarray) (domain : option (E * E))
    (s : store E W) (buf : buffer E)
    (rest : ndarray → Py (store E W) ndarray) :
  heap s !! base array = Some buf →
  let copy := {| base := length (heap s); shape := squeezed (shape array) |} in
  (array ← np_array array;
   array ← np_squeeze array;
   _ ← assert (Nat.leb (length (shape array)) 3);
   dt ← get_dtype array;
   _ ← assert (issubdtype dt number);
   nan ← np_isnan_any np array;
   _ ← assert (negb nan);
   rest array) s =
  if (length (squeezed (shape array)) <=? 3)%nat
     && issubdtype (buf_dtype buf) number
     && negb (existsb (isnan np) (buf_data buf))
  then rest copy (copied s buf)
  else (Raise AssertionError, copied s buf).
Proof.
  intros Hbuf copy. subst copy. unfold squeezed, np_array.
  rewrite (bind_run _ _ _ _ _ (bind_run _ _ _ _ _ (get_buffer_run _ _ _ Hbuf))).
  unfold np_squeeze. rewrite bind_ret. cbn [base shape].
  set (copy := {| base := length (heap s); shape := _ |}).
  change {| heap := heap s ++ [buf]; ext := ext s |} with (copied s buf).
  assert (Hcopy : heap (copied s buf) !! base copy = Some buf)
    by apply copied_lookup.
  change (List.filter _ (shape array)) with (shape copy).
  destruct (length (shape copy) <=? 3)%nat; [|reflexivity].
  cbn [assert andb]. rewrite bind_ret.
  rewrite (bind_run _ _ _ _ _ (get_dtype_run _ _ _ Hcopy)).
  destruct (issubdtype (buf_dtype buf) number); [|reflexivity].
  cbn [assert andb]. rewrite bind_ret.
  rewrite (bind_run _ _ _ _ _ (np_isnan_any_run _ _ _ Hcopy)).
  destruct (existsb (isnan np) (buf_data buf)); reflexivity.
Qed.

(** X10: on an allocated array, [normalize_array] raises AssertionError
    when the squeezed array has more than three axes, when its dtype is
    not numeric, or when it holds a NaN; an array that passes these and
    has no element raises the ValueError of [np.min]. In each case the
    store holds the copy [np.array] made, and nothing else is changed. *)
Theorem normalize_array_refuses (array : ndarray) (domain : option (E * E))
    (s : store E W) (buf : buffer E) :
  heap s !! base array = Some buf →
  let run := normalize_array np array domain s in
  ((3 < length (squeezed (shape array)))%nat ∨
   issubdtype (buf_dtype buf) number = false ∨
   existsb (isnan np) (buf_data buf) = true →
   run = (Raise AssertionError, copied s buf)) ∧
  ((length (squeezed (shape array)) ≤ 3)%nat →
   issubdtype (buf_dtype buf) number = true →
   existsb (isnan np) (buf_data buf) = false →
   buf_data buf = [] →
   run = (Raise (ValueError ["zero-size array to reduction operation minimum which has no identity"]),
          copied s buf)).
Proof.
  intros Hbuf run. subst run. unfold normalize_array.
  rewrite (normalize_array_checks _ domain _ _ _ Hbuf).
  split.
  - intros Hbad.
    assert ((length (squeezed (shape array)) <=? 3)%nat
            && issubdtype (buf_dtype buf) number
            && negb (existsb (isnan np) (buf_data buf)) = false) as ->;
      [|reflexivity].
    destruct Hbad as [Hrank|[Hnum|Hnan]].
    + apply Nat.leb_gt in Hrank. rewrite Hrank. reflexivity.
    + rewrite Hnum. apply andb_false_intro1, andb_false_r.
    + rewrite Hnan. apply andb_false_r.
  - intros Hrank Hnum Hnan Hnil.
    apply Nat.leb_le in Hrank. rewrite Hrank, Hnum, Hnan. cbn [andb negb].
    set (copy := {| base := length (heap s); shape := _ |}).
    assert (Hcopy : heap (copied s buf) !! base copy = Some buf)
      by apply copied_lookup.
    pose proof (reduce_run (minimum np) copy "minimum" buf _ Hcopy) as Hmin.
    rewrite Hnil in Hmin. unfold np_min.
    rewrite (bind_run _ _ _ _ _ Hmin). reflexivity.
Qed.

Lemma ndarray_clip_run (a : ndarray) (lo hi : E) (buf : buffer E)
    (s : store E W) :
  heap s !! base a = Some buf →
  ndarray_clip np a lo hi s =
  (Return {| base := length (heap s); shape := shape a |},
   copied s {| buf_dtype := result_type np (buf_dtype buf) lo hi;
               buf_data := (λ v, minimum np (maximum np v lo) hi)
                             <$> buf_data buf |}).
Proof.
  intros Hbuf. unfold ndarray_clip.
  rewrite (bind_run _ _ _ _ _ (get_buffer_run _ _ _ Hbuf)). reflexivity.
Qed.

Lemma astype_uint8_run (a : ndarray) (buf : buffer E) (s : store E W) :
  heap s !! base a = Some buf →
  astype_uint8 np a s =
  (Return {| base := length (heap s); shape := shape a |},
   copied s {| buf_dtype := uint8;
               buf_data := (λ v, of_int np (to_int np v `mod` 256))
                             <$> buf_data buf |}).
Proof.
  intros Hbuf. unfold astype_uint8.
  rewrite (bind_run _ _ _ _ _ (get_buffer_run _ _ _ Hbuf)). reflexivity.
Qed.

(** X11: an array of an integer dtype, normalized without a domain, is
    not rescaled to the range it spans: each element is clipped to 0..255
    and cast to uint8, so that integers already in 0..255 come out as
    they are; the result has the squeezed shape. *)
Theorem normalize_array_clips_integers (array : ndarray) (s : store E W)
    (buf : buffer E) :
  (∀ x, less np x x = false) → (∀ x, greater np x x = false) →
  heap s !! base array = Some buf →
  (length (squeezed (shape array)) ≤ 3)%nat →
  issubdtype (buf_dtype buf) number = true →
  issubdtype (buf_dtype buf) inexact = false →
  existsb (isnan np) (buf_data buf) = false →
  buf_data buf ≠ [] →
  ∃ out s',
    normalize_array np array None s = (Return out, s') ∧
    shape out = squeezed (shape array) ∧
    heap s' !! base out =
      Some {| buf_dtype := uint8;
              buf_data := clip_to_uint8 np <$> buf_data buf |}.
Proof.
  intros Hless Hgreater Hbuf Hrank Hnum Hint Hnan Hdata.
  unfold normalize_array.
  rewrite (normalize_array_checks _ None _ _ _ Hbuf).
  apply Nat.leb_le in Hrank. rewrite Hrank, Hnum, Hnan. cbn [andb negb].
  set (copy := {| base := length (heap s); shape := _ |}).
  assert (Hcopy : heap (copied s buf) !! base copy = Some buf)
    by apply copied_lookup.
  destruct (buf_data buf) as [|v vs] eqn:Hvs; [congruence|].
  pose proof (reduce_run (minimum np) copy "minimum" buf _ Hcopy) as Hmin.
  pose proof (reduce_run (maximum np) copy "maximum" buf _ Hcopy) as Hmax.
  rewrite Hvs in Hmin, Hmax. unfold np_min, np_max.
  rewrite (bind_run _ _ _ _ _ Hmin). cbv iota.
  rewrite (bind_run _ _ _ _ _ Hmax). cbv iota. cbn [fst snd].
  rewrite Hless, Hgreater. cbn [orb]. rewrite bind_ret.
  rewrite (bind_run _ _ _ _ _ (get_dtype_run _ _ _ Hcopy)). cbv iota.
  rewrite Hint, bind_ret.
  rewrite (bind_run _ _ _ _ _ (ndarray_clip_run _ _ _ _ _ Hcopy)). cbv iota.
  set (clipped := {| buf_dtype := result_type np _ _ _; buf_data := _ |}).
  set (a2 := {| base := length (heap (copied s buf)); shape := _ |}).
  assert (Hclipped : heap (copied (copied s buf) clipped) !! base a2
                     = Some clipped) by apply copied_lookup.
  rewrite (astype_uint8_run _ _ _ Hclipped).
  eexists _, _. split; [reflexivity|]. split; [reflexivity|].
  cbn [base]. rewrite copied_lookup. f_equal. f_equal.
  subst clipped. cbn [buf_data]. rewrite Hvs, <- list_fmap_compose.
  reflexivity.
Qed.

Lemma update_in_place_run (a : ndarray) (f : E → E) (buf : buffer E)
    (s : store E W) :
  heap s !! base a = Some buf →
  ∃ s', update_in_place a f s = (Return tt, s') ∧ ext s' = ext s ∧
        length (heap s') = length (heap s) ∧
        heap s' !! base a = Some {| buf_dtype := buf_dtype buf;
                                    buf_data := f <$> buf_data buf |}.
Proof.
  intros Hbuf. unfold update_in_place.
  rewrite (bind_run _ _ _ _ _ (get_buffer_run _ _ _ Hbuf)).
  eexists. split; [reflexivity|]. cbn [heap ext].
  split; [reflexivity|]. split; [apply length_insert|].
  apply list_lookup_insert_eq. eapply lookup_lt_Some, Hbuf.
Qed.

Lemma update_if_run (c : bool) (a : ndarray) (f : E → E) (buf : buffer E)
    (s : store E W) :
  heap s !! base a = Some buf →
  ∃ s', (if c then update_in_place a f else mret tt) s = (Return tt, s') ∧
        ext s' = ext s ∧ length (heap s') = length (heap s) ∧
        heap s' !! base a =
          Some {| buf_dtype := buf_dtype buf;
                  buf_data := (if c then f else id) <$> buf_data buf |}.
Proof.
  intros Hbuf. destruct c; [apply update_in_place_run, Hbuf|].
  exists s. repeat split. rewrite list_fmap_id. destruct buf; exact Hbuf.
Qed.

(** The last lines of [normalize_array], from an array [a] that holds
    [buf]: the shift and scaling in place, the clip and the cast. *)
Lemma normalize_array_tail (a : ndarray) (buf : buffer E) (d : E * E)
    (s : store E W) :
  heap s !! base a = Some buf →
  ∃ out s',
    (dt ← get_dtype a;
     _ ← (if issubdtype dt inexact then
            let offset := d.1 in
            _ ← (if not_equal np offset (of_int np 0) then isub np a offset
                 else mret tt);
            if not_equal np d.1 d.2 then
              let scalar :=
                true_divide np (of_int np 255) (subtract np d.2 d.1) in
              if not_equal np scalar (of_int np 1) then imul np a scalar
              else mret tt
            else mret tt
          else mret tt);
     clipped ← ndarray_clip np a (of_int np 0) (of_int np 255);
     astype_uint8 np clipped) s = (Return out, s') ∧
    shape out = shape a ∧ ext s' = ext s ∧
    heap s' !! base out =
      Some {| buf_dtype := uint8;
              buf_data :=
                (λ x, clip_to_uint8 np
                        (if issubdtype (buf_dtype buf) inexact
                         then rescaled np d x else x)) <$> buf_data buf |}.
Proof.
  intros Hbuf.
  rewrite (bind_run _ _ _ _ _ (get_dtype_run _ _ _ Hbuf)). cbv iota.
  assert (Hlast : ∀ (b : buffer E) (s1 : store E W),
            heap s1 !! base a = Some b → ext s1 = ext s →
            ∃ out s',
              (clipped ← ndarray_clip np a (of_int np 0) (of_int np 255);
               astype_uint8 np clipped) s1 = (Return out, s') ∧
              shape out = shape a ∧ ext s' = ext s ∧
              heap s' !! base out =
                Some {| buf_dtype := uint8;
                        buf_data := clip_to_uint8 np <$> buf_data b |}).
  { intros b s1 Hb Hext.
    rewrite (bind_run _ _ _ _ _ (ndarray_clip_run _ _ _ _ _ Hb)). cbv iota.
    set (clipped := {| buf_dtype := result_type np _ _ _; buf_data := _ |}).
    set (a2 := {| base := length (heap s1); shape := _ |}).
    assert (Hclipped : heap (copied s1 clipped) !! base a2 = Some clipped)
      by apply copied_lookup.
    rewrite (astype_uint8_run _ _ _ Hclipped).
    eexists _, _. split; [reflexivity|]. split; [reflexivity|].
    split; [exact Hext|].
    cbn [base]. rewrite copied_lookup. f_equal. f_equal.
    subst clipped. cbn [buf_data]. rewrite <- list_fmap_compose.
    reflexivity. }
  destruct (issubdtype (buf_dtype buf) inexact).
  2: { rewrite bind_ret. apply Hlast; [exact Hbuf|reflexivity]. }
  cbv zeta. unfold isub, imul.
  destruct (update_if_run (not_equal np d.1 (of_int np 0)) a
              (λ x, subtract np x d.1) buf s Hbuf)
    as (s1 & Hrun1 & Hext1 & _ & Hbuf1).
  rewrite bind_assoc, (bind_run _ _ _ _ _ Hrun1). cbv iota.
  set (scalar := true_divide np (of_int np 255) (subtract np d.2 d.1)).
  destruct (update_if_run
              (not_equal np d.1 d.2 && not_equal np scalar (of_int np 1)) a
              (λ x, multiply np x scalar) _ s1 Hbuf1)
    as (s2 & Hrun2 & Hext2 & _ & Hbuf2).
  assert (Hrun2' :
    (if not_equal np d.1 d.2
     then if not_equal np scalar (of_int np 1)
          then update_in_place a (λ x, multiply np x scalar) else mret tt
     else mret tt) s1 = (Return tt, s2))
    by (destruct (not_equal np d.1 d.2); exact Hrun2).
  rewrite (bind_run _ _ _ _ _ Hrun2'). cbv iota.
  destruct (Hlast _ s2 Hbuf2 ltac:(congruence))
    as (out & s' & Hrun & Hshape & Hext & Hout).
  exists out, s'. split; [exact Hrun|]. split; [exact Hshape|].
  split; [exact Hext|]. rewrite Hout. f_equal. f_equal. cbn [buf_data].
  rewrite <- !list_fmap_compose. apply list_fmap_ext. intros _ x _.
  unfold compose, rescaled. fold scalar.
  destruct (not_equal np d.1 (of_int np 0)), (not_equal np d.1 d.2),
    (not_equal np scalar (of_int np 1)); reflexivity.
Qed.

Lemma normalize_array_result (array : ndarray)
    (domain : option (E * E)) (s : store E W) (buf : buffer E) (v : E)
    (vs : list E) :
  heap s !! base array = Some buf →
  (length (squeezed (shape array)) ≤ 3)%nat →
  issubdtype (buf_dtype buf) number = true →
  existsb (isnan np) (buf_data buf) = false →
  buf_data buf = v :: vs →
  ∃ out s',
    normalize_array np array domain s = (Return out, s') ∧
    shape out = squeezed (shape array) ∧
    heap s' !! base out =
      Some {| buf_dtype := uint8;
              buf_data :=
                normalized_element np (buf_dtype buf)
                  (foldl (minimum np) v vs) (foldl (maximum np) v vs) domain
                  <$> v :: vs |}.
Proof.
  intros Hbuf Hrank Hnum Hnan Hvs. unfold normalize_array.
  rewrite (normalize_array_checks _ domain _ _ _ Hbuf).
  apply Nat.leb_le in Hrank. rewrite Hrank, Hnum, Hnan. cbn [andb negb].
  set (copy := {| base := length (heap s); shape := _ |}).
  assert (Hcopy : heap (copied s buf) !! base copy = Some buf)
    by apply copied_lookup.
  pose proof (reduce_run (minimum np) copy "minimum" buf _ Hcopy) as Hmin.
  pose proof (reduce_run (maximum np) copy "maximum" buf _ Hcopy) as Hmax.
  rewrite Hvs in Hmin, Hmax. unfold np_min, np_max.
  rewrite (bind_run _ _ _ _ _ Hmin). cbv iota.
  rewrite (bind_run _ _ _ _ _ Hmax). cbv iota zeta.
  unfold normalized_element. cbv zeta.
  set (low := foldl (minimum np) v vs).
  set (high := foldl (maximum np) v vs).
  set (d := match domain with Some d => d | None => (low, high) end).
  destruct (less np low d.1 || greater np high d.2).
  - pose proof (ndarray_clip_run copy d.1 d.2 buf _ Hcopy) as Hclip.
    rewrite (bind_run _ _ _ _ _ Hclip). cbv iota.
    set (clipped := {| buf_dtype := result_type np _ _ _; buf_data := _ |}).
    set (a2 := {| base := length (heap (copied s buf)); shape := _ |}).
    assert (Hclipped : heap (copied (copied s buf) clipped) !! base a2
                       = Some clipped) by apply copied_lookup.
    destruct (normalize_array_tail a2 clipped d _ Hclipped)
      as (out & s' & Hrun & Hshape & Hext & Hout).
    exists out, s'. split; [exact Hrun|]. split; [exact Hshape|].
    rewrite Hout. subst clipped. cbn [buf_dtype buf_data].
    rewrite Hvs, <- list_fmap_compose. reflexivity.
  - rewrite bind_ret.
    destruct (normalize_array_tail copy buf d _ Hcopy)
      as (out & s' & Hrun & Hshape & Hext & Hout).
    exists out, s'. split; [exact Hrun|]. split; [exact Hshape|].
    rewrite Hout, Hvs. reflexivity.
Qed.

(** X12: what [normalize_array] computes. On an allocated array with at
    least one element that passes the three assertions, it returns a new
    array of the squeezed shape and of dtype uint8 whose element at each
    position is a function of the input element at that position, of
    the least and greatest elements, of the dtype and of the domain: the
    clip to the domain where the measured range leaves it, the shift by
    the lower bound and the scaling by 255 over the width of the domain
    for an inexact dtype only, the clip to 0..255 and the cast. The
    in-place operations act on the copy: every buffer of the store is as
    it was, and so is the world outside. *)
Theorem normalize_array_elementwise (array : ndarray)
    (domain : option (E * E)) (s : store E W) (buf : buffer E) (v : E)
    (vs : list E) :
  heap s !! base array = Some buf →
  (length (squeezed (shape array)) ≤ 3)%nat →
  issubdtype (buf_dtype buf) number = true →
  existsb (isnan np) (buf_data buf) = false →
  buf_data buf = v :: vs →
  ∃ out s',
    normalize_array np array domain s = (Return out, s') ∧
    shape out = squeezed (shape array) ∧
    heap s' !! base out =
      Some {| buf_dtype := uint8;
              buf_data :=
                normalized_element np (buf_dtype buf)
                  (foldl (minimum np) v vs) (foldl (maximum np) v vs) domain
                  <$> v :: vs |} ∧
    unchanged (heap s) (heap s') ∧ ext s' = ext s.
Proof.
  intros Hbuf Hrank Hnum Hnan Hvs.
  destruct (normalize_array_result array domain s buf v vs Hbuf Hrank Hnum
              Hnan Hvs) as (out & s' & Hrun & Hshape & Hout).
  exists out, s'. split; [exact Hrun|]. split; [exact Hshape|].
  split; [exact Hout|]. apply (normalize_array_keeps np _ _ _ _ _ Hrun).
Qed.
End NormalizeRuns.

Lemma normalize_array_elementwise_witness :
  ∃ out s',
    normalize_array numpy gray_image None (fresh_store [gray])
      = (Return out, s') ∧
    shape out = [2; 2]%nat ∧
    heap s' !! base out =
      Some {| buf_dtype := uint8;
              buf_data := [SInt 0; SInt 63; SInt 127; SInt 255] |} ∧
    unchanged [gray] (heap s') ∧ ext s' = [].
Proof.
  destruct (normalize_array_elementwise numpy gray_image None
              (fresh_store [gray]) gray (SFloat (f64_of_Z 0))
              (SFloat <$> [f64_of_Z 1; f64_of_Z 2; f64_of_Z 4])
              eq_refl ltac:(cbn; lia) eq_refl eq_refl eq_refl)
    as (out & s' & Hrun & Hshape & Hout & Hkeep & Hext).
  exists out, s'. split; [exact Hrun|]. split; [exact Hshape|].
  split; [|split; [exact Hkeep|exact Hext]].
  etrans; [exact Hout|]. vm_compute. reflexivity.
Defined.

(** ** Normalizing twice *)

Section Idempotent.
Context {E W : Type} (np : NumPy E).
Hypothesis less_irrefl : ∀ x, less np x x = false.
Hypothesis greater_irrefl : ∀ x, greater np x x = false.
Hypothesis maximum_of_int :
  ∀ a b, maximum np (of_int np a) (of_int np b) = of_int np (Z.max a b).
Hypothesis minimum_of_int :
  ∀ a b, minimum np (of_int np a) (of_int np b) = of_int np (Z.min a b).
Hypothesis to_int_of_int : ∀ z, to_int np (of_int np z) = z.
Hypothesis isnan_of_int : ∀ z, isnan np (of_int np z) = false.

Lemma normalized_byte (low high : E) (z : Z) :
  0 ≤ z ≤ 255 →
  normalized_element np uint8 low high None (of_int np z) = of_int np z.
Proof.
  intros Hz. unfold normalized_element, clip_to_uint8. cbn [fst snd].
  rewrite less_irrefl, greater_irrefl. cbn [orb issubdtype].
  rewrite maximum_of_int, minimum_of_int, to_int_of_int.
  f_equal. rewrite Z.mod_small; lia.
Qed.

(** X14: normalizing, without a domain, an image that [normalize_array]
    returned (dtype uint8, every element an integer from 0 to 255, at
    least one element) returns an image with the same elements: the second
    normalization that [save_images] causes when it passes its normalized
    frames to [numpy_image_to_video] and [numpy_image_to_gif] changes no
    pixel. The arithmetic assumed is that of the integers on 0..255, with
    [<] and [>] irreflexive. *)
Theorem normalize_array_idempotent (image : ndarray) (s : store E W)
    (pixels : list Z) :
  heap s !! base image =
    Some {| buf_dtype := uint8; buf_data := of_int np <$> pixels |} →
  Forall (λ b, 0 ≤ b ≤ 255) pixels → pixels ≠ [] →
  (length (squeezed (shape image)) ≤ 3)%nat →
  ∃ out s',
    normalize_array np image None s = (Return out, s') ∧
    shape out = squeezed (shape image) ∧
    heap s' !! base out =
      Some {| buf_dtype := uint8; buf_data := of_int np <$> pixels |}.
Proof.
  intros Hbuf Hrange Hne Hrank.
  destruct pixels as [|z zs]; [congruence|].
  assert (Hnan : ∀ l : list Z,
            existsb (isnan np) (of_int np <$> l) = false).
  { intros l. induction l as [|b bs IH]; [reflexivity|].
    cbn [fmap list_fmap existsb]. rewrite isnan_of_int. exact IH. }
  specialize (Hnan (z :: zs)).
  destruct (normalize_array_result np image None s _ (of_int np z)
              (fmap (M := list) (of_int np) zs) Hbuf Hrank eq_refl Hnan
              eq_refl)
    as (out & s' & Hrun & Hshape & Hout).
  exists out, s'. split; [exact Hrun|]. split; [exact Hshape|].
  rewrite Hout. f_equal. f_equal. cbn [buf_dtype].
  change (of_int np z :: (of_int np <$> zs)) with (of_int np <$> z :: zs).
  rewrite <- list_fmap_compose. apply Forall_fmap_ext_1.
  eapply Forall_impl; [exact Hrange|]. intros b Hb. apply normalized_byte, Hb.
Qed.
End Idempotent.

(** ** Frames of a video *)

Section Video.
Context {E W : Type} (np : NumPy E) (host : Host E W).

Lemma normalize_array_returns_shape (array out : ndarray)
    (domain : option (E * E)) (s s' : store E W) :
  normalize_array np array domain s = (Return out, s') →
  shape out = squeezed (shape array).
Proof.
  intros Hrun. destruct (heap s !! base array) as [buf|] eqn:Hbuf.
  2: { unfold normalize_array, np_array, get_buffer, mbind, Py_bind in Hrun.
       rewrite Hbuf in Hrun. discriminate. }
  pose proof Hrun as Hrun'. unfold normalize_array in Hrun'.
  rewrite (normalize_array_checks np _ domain _ _ _ Hbuf) in Hrun'.
  destruct (length (squeezed (shape array)) <=? 3)%nat eqn:Hrank;
    [|discriminate].
  destruct (issubdtype (buf_dtype buf) number) eqn:Hnum; [|discriminate].
  destruct (existsb (isnan np) (buf_data buf)) eqn:Hnan; [discriminate|].
  apply Nat.leb_le in Hrank. cbn [andb negb] in Hrun'.
  destruct (buf_data buf) as [|v vs] eqn:Hvs.
  - set (copy := {| base := length (heap s); shape := _ |}) in Hrun'.
    assert (Hcopy : heap (copied s buf) !! base copy = Some buf)
      by apply copied_lookup.
    pose proof (reduce_run (minimum np) copy "minimum" buf _ Hcopy) as Hmin.
    rewrite Hvs in Hmin. unfold np_min in Hrun'.
    rewrite (bind_run _ _ _ _ _ Hmin) in Hrun'. discriminate.
  - rewrite <- Hvs in Hnan.
    destruct (normalize_array_result np array domain s buf v vs Hbuf Hrank
                Hnum Hnan Hvs) as (out' & s'' & Hrun'' & Hshape & _).
    congruence.
Qed.

Lemma preserves_comprehension {A B : Type} (f : A → Py (store E W) B)
    (xs : list A) :
  (∀ x, preserves (f x)) → preserves (comprehension f xs).
Proof.
  intros Hf. induction xs as [|x xs IH].
  - apply reads_preserves, reads_ret.
  - cbn [comprehension]. apply preserves_bind; [apply Hf|intros y].
    apply preserves_bind; [exact IH|intros ys].
    apply reads_preserves, reads_ret.
Qed.

(** X15: [numpy_image_to_video] on frames whose first, once squeezed,
    does not have exactly three axes (a gray image of shape (H, W), or an
    image with an axis of length one such as (H, W, 1)) raises, whatever
    the other frames, and it raises before the video file is opened:
    the world outside and every buffer of the store are as they were. *)
Theorem video_needs_three_axes (image : ndarray) (rest : list ndarray)
    (fps : Z) (filename : string) (domain : option (E * E))
    (s : store E W) :
  length (squeezed (shape image)) ≠ 3%nat →
  ∃ (e : exn) (s' : store E W),
    numpy_image_to_video np host (image :: rest) fps filename domain s
      = (Raise e, s') ∧
    unchanged (heap s) (heap s') ∧ ext s' = ext s.
Proof.
  intros Hrank. unfold numpy_image_to_video.
  pose proof (preserves_comprehension
                (λ image, normalize_array np image domain) (image :: rest)
                (λ x, normalize_array_preserves np x domain) s) as Hkeep.
  destruct (comprehension (λ image, normalize_array np image domain)
                          (image :: rest) s) as [r s1] eqn:Hall.
  cbn [snd] in Hkeep. rewrite (bind_run _ _ _ _ _ Hall).
  destruct r as [normalized|e]; [|exists e, s1; split; [reflexivity|exact Hkeep]].
  cbn [comprehension] in Hall.
  destruct (normalize_array np image domain s) as [r1 s2] eqn:Hfirst.
  rewrite (bind_run _ _ _ _ _ Hfirst) in Hall.
  destruct r1 as [out|e]; [|discriminate].
  apply normalize_array_returns_shape in Hfirst as Hshape.
  destruct (comprehension (λ image, normalize_array np image domain) rest s2)
    as [r2 s3] eqn:Hrest.
  rewrite (bind_run _ _ _ _ _ Hrest) in Hall.
  destruct r2 as [outs|e]; [|discriminate].
  injection Hall as <- <-.
  unfold mbind at 1, Py_bind at 1.
  change (pure_call (getitem_list (out :: outs) 0) s3) with (Return out, s3).
  cbv iota. rewrite Hshape.
  destruct (squeezed (shape image)) as [|h [|w [|c [|c' sh]]]];
    cbn [length] in Hrank; try congruence.
  all: eexists _, s3; split; [reflexivity|exact Hkeep].
Qed.
End Video.

Lemma video_needs_three_axes_witness :
  ∃ (e : exn) (s' : store scalar (list effect)),
    numpy_image_to_video numpy reference_host [gray_image] 5 "out.mp4" None
                         (fresh_store [gray]) = (Raise e, s') ∧
    unchanged [gray] (heap s') ∧ ext s' = [].
Proof.
  apply (video_needs_three_axes numpy reference_host gray_image [] 5
           "out.mp4" None (fresh_store [gray])).
  cbn. lia.
Defined.

(** ** [serialize_array]: the assertions after [normalize_array] *)

Lemma last_squeezed (sh : list nat) (n : nat) :
  Forall (λ n, n ≠ 0%nat) sh → last (squeezed sh) = Some n →
  Nat.ltb 1 n = true.
Proof.
  intros Hsh Hlast. apply last_Some_elem_of, list_elem_of_In in Hlast.
  apply filter_In in Hlast as [Hin Hone].
  apply list_elem_of_In in Hin.
  rewrite Forall_forall in Hsh. specialize (Hsh n Hin).
  apply negb_true_iff, Nat.eqb_neq in Hone. apply Nat.ltb_lt. lia.
Qed.

Section Serialized.
Context {E W : Type} (np : NumPy E) (host : Host E W).
Hypothesis maximum_of_int :
  ∀ a b, maximum np (of_int np a) (of_int np b) = of_int np (Z.max a b).
Hypothesis less_equal_of_int :
  ∀ b, 0 ≤ b ≤ 255 → less_equal np (of_int np b) (of_int np 255) = true.

Lemma largest_byte (z : Z) (zs : list Z) :
  0 ≤ z ≤ 255 → Forall (λ b, 0 ≤ b ≤ 255) zs →
  ∃ m, foldl (maximum np) (of_int np z) (of_int np <$> zs) = of_int np m ∧
       0 ≤ m ≤ 255.
Proof.
  intros Hz Hzs. revert z Hz. induction Hzs as [|b zs Hb _ IH]; intros z Hz.
  - exists z. split; [reflexivity|exact Hz].
  - cbn [fmap list_fmap foldl]. rewrite maximum_of_int. apply IH. lia.
Qed.

Lemma normalized_element_byte (dt : dtype) (low high : E)
    (domain : option (E * E)) (x : E) :
  ∃ b, normalized_element np dt low high domain x = of_int np b ∧
       0 ≤ b ≤ 255.
Proof.
  unfold normalized_element, clip_to_uint8. eexists. split; [reflexivity|].
  match goal with |- _ ≤ ?z `mod` 256 ≤ _ =>
    pose proof (Z.mod_pos_bound z 256) end.
  lia.
Qed.

Lemma normalized_elements_bytes (dt : dtype) (low high : E)
    (domain : option (E * E)) (xs : list E) :
  ∃ bs, normalized_element np dt low high domain <$> xs = of_int np <$> bs ∧
        Forall (λ b, 0 ≤ b ≤ 255) bs.
Proof.
  induction xs as [|x xs (bs & Hbs & Hrange)].
  - exists []. split; [reflexivity|constructor].
  - destruct (normalized_element_byte dt low high domain x) as (b & Hb & Hr).
    exists (b :: bs). cbn [fmap list_fmap] in *. rewrite Hb.
    split; [f_equal; exact Hbs|constructor; assumption].
Qed.

Lemma serialize_array_run (array : ndarray)
    (domain : option (E * E))
    (fmt : string) (quality : Z) (s : store E W) (buf : buffer E) (v : E)
    (vs : list E) :
  heap s !! base array = Some buf →
  (length (squeezed (shape array)) ≤ 3)%nat →
  issubdtype (buf_dtype buf) number = true →
  existsb (isnan np) (buf_data buf) = false →
  buf_data buf = v :: vs →
  Forall (λ n, n ≠ 0%nat) (shape array) →
  serialize_array np host array domain fmt quality s =
  (match squeezed (shape array) with
   | [] => Raise (IndexError "tuple index out of range")
   | _ :: _ =>
       match PIL_fromarray host
               {| val_dtype := uint8;
                  val_shape := squeezed (shape array);
                  val_data :=
                    normalized_element np (buf_dtype buf)
                      (foldl (minimum np) v vs) (foldl (maximum np) v vs)
                      domain <$> v :: vs |} with
       | Return image => Image_save_bytes host image fmt quality
       | Raise e => Raise e
       end
   end, (normalize_array np array domain s).2).
Proof.
  intros Hbuf Hrank Hnum Hnan Hvs Hshape.
  destruct (normalize_array_result np array domain s buf v vs Hbuf Hrank Hnum
              Hnan Hvs) as (out & s' & Hrun & Hout_shape & Hout).
  unfold serialize_array. rewrite (bind_run _ _ _ _ _ Hrun), Hrun.
  cbn [snd]. unfold _serialize_normalized_array.
  rewrite (bind_run _ _ _ _ _ (get_dtype_run _ _ _ Hout)).
  cbn [buf_dtype issubdtype assert]. rewrite bind_ret.
  set (f := normalized_element np (buf_dtype buf) _ _ domain) in *.
  pose proof (reduce_run (maximum np) out "maximum" _ _ Hout) as Hmax.
  cbn [buf_data fmap list_fmap] in Hmax.
  destruct (normalized_element_byte (buf_dtype buf) (foldl (minimum np) v vs)
              (foldl (maximum np) v vs) domain v) as (z & Hz & Hzr).
  destruct (normalized_elements_bytes (buf_dtype buf)
              (foldl (minimum np) v vs) (foldl (maximum np) v vs) domain vs)
    as (zs & Hzs & Hzsr).
  fold f in Hz, Hzs. rewrite Hz, Hzs in Hmax.
  destruct (largest_byte z zs Hzr Hzsr) as (m & Hm & Hrange).
  rewrite Hm in Hmax. unfold np_max.
  rewrite (bind_run _ _ _ _ _ Hmax). cbv iota. cbn [iinfo_max].
  rewrite bind_ret, (less_equal_of_int m Hrange). cbn [assert].
  rewrite bind_ret, Hout_shape.
  destruct (squeezed (shape array)) as [|n sh] eqn:Hsq; [reflexivity|].
  destruct (last (n :: sh)) as [k|] eqn:Hlast.
  2: { apply last_None in Hlast. discriminate. }
  rewrite <- Hsq in Hlast. rewrite bind_ret.
  rewrite (last_squeezed _ _ Hshape Hlast). cbn [assert]. rewrite bind_ret.
  unfold get_value.
  rewrite (bind_run _ _ _ _ _
             (bind_run _ _ _ _ _ (get_buffer_run _ _ _ Hout))).
  cbn [buf_dtype buf_data]. rewrite ?Hout_shape, ?Hsq.
  unfold pure_call, mbind, Py_bind.
  destruct (PIL_fromarray host _); reflexivity.
Qed.

(** X13: [serialize_array] on an allocated array with at least one
    element that passes the assertions of [normalize_array]: none of the
    three assertions of [_serialize_normalized_array] fails on what
    [normalize_array] returns (where [np.maximum] and [<=] on the integers
    0..255 are those of the integers), and PIL is given the uint8 array of
    the squeezed shape; but an array whose axes all have length one, a
    single element, raises the IndexError of [array.shape[-1]], not an
    AssertionError. *)
Theorem serialize_array_after_normalize (array : ndarray)
    (domain : option (E * E))
    (fmt : string) (quality : Z) (s : store E W) (buf : buffer E) (v : E)
    (vs : list E) :
  heap s !! base array = Some buf →
  (length (squeezed (shape array)) ≤ 3)%nat →
  issubdtype (buf_dtype buf) number = true →
  existsb (isnan np) (buf_data buf) = false →
  buf_data buf = v :: vs →
  Forall (λ n, n ≠ 0%nat) (shape array) →
  serialize_array np host array domain fmt quality s =
  (match squeezed (shape array) with
   | [] => Raise (IndexError "tuple index out of range")
   | _ :: _ =>
       match PIL_fromarray host
               {| val_dtype := uint8;
                  val_shape := squeezed (shape array);
                  val_data :=
                    normalized_element np (buf_dtype buf)
                      (foldl (minimum np) v vs) (foldl (maximum np) v vs)
                      domain <$> v :: vs |} with
       | Return image => Image_save_bytes host image fmt quality
       | Raise e => Raise e
       end
   end, (normalize_array np array domain s).2).
Proof. apply serialize_array_run. Qed.

(** C7, as the code has it: with mode 'data', on an array that
    [normalize_array] accepts (allocated, of numeric dtype, of rank at
    most three once squeezed, without NaN, with at least one element)
    which has an axis of length other than one and none of length zero,
    and for a format in which PIL encodes the normalized image,
    [serialize_array] returns the bytes and [_image_url] returns exactly
    'data:image/', then [fmt.upper()], then ';base64,', then the base64
    encoding of those bytes. For every array, [_image_url] is
    [serialize_array] followed by that concatenation, so that where
    [serialize_array] raises, [_image_url] raises the same. *)
Theorem image_url_returns_data_url (array : ndarray)
    (domain : option (E * E)) (fmt : string) (quality : Z) (s : store E W)
    (buf : buffer E) (v : E) (vs : list E) (picture : array_value E)
    (image_data : string) :
  heap s !! base array = Some buf →
  (length (squeezed (shape array)) ≤ 3)%nat →
  issubdtype (buf_dtype buf) number = true →
  existsb (isnan np) (buf_data buf) = false →
  buf_data buf = v :: vs →
  Forall (λ n, n ≠ 0%nat) (shape array) →
  squeezed (shape array) ≠ [] →
  PIL_fromarray host
    {| val_dtype := uint8;
       val_shape := squeezed (shape array);
       val_data :=
         normalized_element np (buf_dtype buf)
           (foldl (minimum np) v vs) (foldl (maximum np) v vs)
           domain <$> v :: vs |} = Return picture →
  Image_save_bytes host picture fmt quality = Return image_data →
  serialize_array np host array domain fmt quality s =
    (Return image_data, (normalize_array np array domain s).2) ∧
  _image_url np host array fmt "data" quality domain s =
    (Return ("data:image/" +:+ str_upper host fmt +:+ ";base64,"
             +:+ b64encode image_data),
     (normalize_array np array domain s).2) ∧
  (∀ (array' : ndarray) (s0 : store E W),
     _image_url np host array' fmt "data" quality domain s0 =
     (image_data ← serialize_array np host array' domain fmt quality;
      mret ("data:image/" +:+ str_upper host fmt +:+ ";base64,"
            +:+ b64encode image_data)) s0).
Proof.
  intros Hbuf Hrank Hnum Hnan Hvs Hshape Hsq Hpil Hsave.
  assert (Hser : serialize_array np host array domain fmt quality s =
                 (Return image_data, (normalize_array np array domain s).2)).
  { rewrite (serialize_array_run array domain fmt quality s buf v vs Hbuf
               Hrank Hnum Hnan Hvs Hshape).
    destruct (squeezed (shape array)) as [|n sh]; [congruence|].
    rewrite Hpil, Hsave. reflexivity. }
  split; [exact Hser|]. split; [|intros array' s0; apply image_url_data].
  rewrite image_url_data, (bind_run _ _ _ _ _ Hser). reflexivity.
Qed.
End Serialized.

Lemma numpy_bytes_ordered (b : Z) :
  0 ≤ b ≤ 255 → less_equal numpy (of_int numpy b) (of_int numpy 255) = true.
Proof.
  intros Hb.
  assert (Hall : forallb (λ b, less_equal numpy (SInt b) (SInt 255))
                         (seqZ 0 256) = true) by (vm_compute; reflexivity).
  rewrite forallb_forall in Hall. apply Hall.
  apply list_elem_of_In, elem_of_seqZ. lia.
Qed.

Lemma image_url_returns_data_url_witness :
  _image_url numpy reference_host gray_image "png" "data" 90 None
             (fresh_store [gray])
  = (Return "data:image/PNG;base64,AD9//w==",
     (normalize_array numpy gray_image None (fresh_store [gray])).2).
Proof.
  apply (image_url_returns_data_url numpy reference_host
           (λ a b, eq_refl) numpy_bytes_ordered gray_image None "png" 90
           (fresh_store [gray]) gray (SFloat (f64_of_Z 0))
           (SFloat <$> [f64_of_Z 1; f64_of_Z 2; f64_of_Z 4])
           {| val_dtype := uint8; val_shape := [2; 2]%nat;
              val_data := [SInt 0; SInt 63; SInt 127; SInt 255] |}
           (raw_bytes {| val_dtype := uint8; val_shape := [2; 2]%nat;
                         val_data := [SInt 0; SInt 63; SInt 127;
                                      SInt 255] |})
           eq_refl ltac:(cbn; lia) eq_refl eq_refl eq_refl
           ltac:(repeat constructor; discriminate) ltac:(discriminate)
           ltac:(vm_compute; reflexivity) eq_refl).
Defined.

(** C7, as stated, fails on the image of one pixel [[7.0]]:
    [normalize_array] accepts it and returns the array of shape (), and
    [_image_url] with mode 'data' returns no string but raises the
    IndexError of [array.shape[-1]]. *)
Lemma image_url_single_element_raises :
  accepted numpy [pixel] pixel_image ∧
  returns (normalize_array numpy pixel_image None (fresh_store [pixel])).1
    = true ∧
  (_image_url numpy reference_host pixel_image "png" "data" 90 None
              (fresh_store [pixel])).1
    = Raise (IndexError "tuple index out of range").
Proof.
  split.
  - exists pixel. repeat split; try reflexivity; [cbn; lia|discriminate].
  - split; vm_compute; reflexivity.
Qed.

Lemma serialize_array_after_normalize_witness :
  (serialize_array numpy reference_host gray_image None "png" 70
                   (fresh_store [gray])).1
    = Return (raw_bytes {| val_dtype := uint8; val_shape := [2; 2]%nat;
                           val_data := [SInt 0; SInt 63; SInt 127;
                                        SInt 255] |}) ∧
  (serialize_array numpy reference_host pixel_image None "png" 70
                   (fresh_store [pixel])).1
    = Raise (IndexError "tuple index out of range").
Proof.
  split.
  - rewrite (serialize_array_after_normalize numpy reference_host
               (λ a b, eq_refl) numpy_bytes_ordered gray_image None "png" 70
               (fresh_store [gray]) gray (SFloat (f64_of_Z 0))
               (SFloat <$> [f64_of_Z 1; f64_of_Z 2; f64_of_Z 4])
               eq_refl ltac:(cbn; lia) eq_refl eq_refl eq_refl
               ltac:(repeat constructor; discriminate)).
    vm_compute. reflexivity.
  - rewrite (serialize_array_after_normalize numpy reference_host
               (λ a b, eq_refl) numpy_bytes_ordered pixel_image None "png" 70
               (fresh_store [pixel]) pixel (SFloat (f64_of_Z 7)) []
               eq_refl ltac:(cbn; lia) eq_refl eq_refl eq_refl
               ltac:(repeat constructor; discriminate)).
    reflexivity.
Defined.

Lemma SFltb_irrefl (f : spec_float) : SFltb f f = false.
Proof.
  unfold SFltb, SFcompare. destruct f as [[]|[]| |[] m e]; try reflexivity.
  all: rewrite Z.compare_refl, Pos.compare_cont_refl; reflexivity.
Qed.

Lemma normalize_array_idempotent_witness :
  ∃ out s',
    normalize_array numpy bytes_image None (fresh_store [bytes])
      = (Return out, s') ∧
    shape out = [2; 2]%nat ∧
    heap s' !! base out = Some bytes.
Proof.
  apply (normalize_array_idempotent numpy
           (λ x, SFltb_irrefl _) (λ x, SFltb_irrefl _)
           (λ a b, eq_refl) (λ a b, eq_refl) (λ z, eq_refl) (λ z, eq_refl)
           bytes_image (fresh_store [bytes]) [0; 63; 127; 255]).
  - reflexivity.
  - repeat constructor; lia.
  - discriminate.
  - cbn. lia.
Defined.

Lemma normalize_array_clips_integers_witness :
  ∃ out s',
    normalize_array numpy counts_array None (fresh_store [counts])
      = (Return out, s') ∧
    shape out = [4]%nat ∧
    heap s' !! base out =
      Some {| buf_dtype := uint8;
              buf_data := [SInt 0; SInt 1; SInt 255; SInt 0] |}.
Proof.
  apply (normalize_array_clips_integers numpy counts_array
           (fresh_store [counts]) counts).
  - intros x. apply SFltb_irrefl.
  - intros x. apply SFltb_irrefl.
  - reflexivity.
  - cbn. lia.
  - reflexivity.
  - reflexivity.
  - reflexivity.
  - discriminate.
Defined.

Lemma normalize_array_refuses_witness :
  normalize_array numpy gray_image None (fresh_store [mask])
    = (Raise AssertionError, copied (fresh_store [mask]) mask) ∧
  normalize_array numpy empty_array None (fresh_store [empty])
    = (Raise (ValueError ["zero-size array to reduction operation minimum which has no identity"]),
       copied (fresh_store [empty]) empty).
Proof.
  split.
  - apply (normalize_array_refuses numpy gray_image None
             (fresh_store [mask]) mask eq_refl).
    right; left; reflexivity.
  - apply (normalize_array_refuses numpy empty_array None
             (fresh_store [empty]) empty eq_refl); try reflexivity.
    cbn; lia.
Defined.

End TorchlightIOMoreFacts.
